(** * featuretools-ts: type-generation pipeline and plugin host

    A shallow embedding of
      - [src/utils/plugin-manager.ts]  (class [PluginManager]) and
      - [scripts/generate-types.js]    (cache check, stub resolution,
                                        introspection driver, cache update)
    together with the properties of the pipeline that the repository's
    specification states about them.

    Conventions of the embedding
      - JavaScript objects with a fixed set of fields are records; a field
        that may be absent, [undefined] or [null] is an [option] or a
        [JsVal];
      - [process.env] and the environment handed to the child process are
        finite maps from names to strings;
      - a JavaScript [Map] is an association list kept in insertion order;
      - code that reads or changes the file system, starts processes or
        prints is written in a state-and-exception monad over [World];
        every effect the host performs is appended to the world's trace;
      - Node built-ins whose implementation is not part of the repository
        ([crypto] MD5, [JSON.parse], [JSON.stringify]) are section
        variables. *)

From Stdlib Require Import ZArith String Ascii List Bool Lia.
From stdpp Require Import gmap strings list pretty sorting.

Open Scope string_scope.
Open Scope list_scope.
Open Scope Z_scope.

(* ===================================================================== *)
(** ** JavaScript values                                                  *)
(* ===================================================================== *)

(** The primitive values that can sit in a field read back from JSON. *)
Inductive JsVal :=
| JUndefined
| JNull
| JBool (b : bool)
| JNum (z : Z)
| JStr (s : string).

(** [if (v)] *)
Definition truthy (v : JsVal) : bool :=
  match v with
  | JUndefined | JNull => false
  | JBool b => b
  | JNum z => negb (z =? 0)
  | JStr s => negb (String.eqb s "")
  end.

(** [v === s] for a string [s] *)
Definition strict_eq_str (v : JsVal) (s : string) : bool :=
  match v with
  | JStr t => String.eqb t s
  | _ => false
  end.

(** [`${v}`] *)
Definition js_show (v : JsVal) : string :=
  match v with
  | JUndefined => "undefined"
  | JNull => "null"
  | JBool b => if b then "true" else "false"
  | JNum z => pretty z
  | JStr s => s
  end.

(** A field declared [f?: string] in TypeScript, as a handler can leave
    it. *)
Inductive OptText :=
| Absent
| Undefined
| Null
| Text (s : string).


(** Result of a computation that may throw. *)
Inductive Outcome (A : Type) :=
| Done (a : A)
| Thrown (msg : string).
Arguments Done {A} a.
Arguments Thrown {A} msg.

(** [Array.prototype.sort(cmp)]: the sort is stable, so for a comparator
    that is a difference of keys the result is the one of a stable
    insertion: an element goes in front of the first element it does not
    compare greater than. *)
Fixpoint sort_insert {A} (cmp : A -> A -> Z) (x : A) (l : list A) : list A :=
  match l with
  | [] => [x]
  | y :: l' => if cmp x y <=? 0 then x :: y :: l' else y :: sort_insert cmp x l'
  end.

Definition Array_sort {A} (cmp : A -> A -> Z) (l : list A) : list A :=
  fold_right (sort_insert cmp) [] l.

(** [Map.prototype.set]: an existing key keeps its place and takes the new
    value, a new key goes last. *)
Fixpoint Map_set {V} (k : string) (v : V) (m : list (string * V)) : list (string * V) :=
  match m with
  | [] => [(k, v)]
  | (k', v') :: m' =>
      if String.eqb k' k then (k, v) :: m' else (k', v') :: Map_set k v m'
  end.

(* ===================================================================== *)
(** ** Data model ([src/types/config.ts], cache file)                     *)
(* ===================================================================== *)

Inductive PluginHook :=
| PRE_GENERATION
| PRE_CONVERSION
| POST_CONVERSION
| POST_GENERATION
| ON_ERROR.

Definition hook_name (h : PluginHook) : string :=
  match h with
  | PRE_GENERATION => "PRE_GENERATION"
  | PRE_CONVERSION => "PRE_CONVERSION"
  | POST_CONVERSION => "POST_CONVERSION"
  | POST_GENERATION => "POST_GENERATION"
  | ON_ERROR => "ON_ERROR"
  end.

Record PluginDefinition := {
  name : string;
  description : string;
  version : string;
  module_ref : string;            (* [module] *)
  priority : option Z;            (* [priority?: number] *)
  enabled : option bool           (* [enabled?: boolean] *)
}.

(** The cache record as [JSON.parse] gives it back.  [lastGenerated] is
    kept as the time value of [new Date(cacheData.lastGenerated)], in
    milliseconds; [None] is an invalid date. *)
Record CacheData := {
  lastGenerated : option Z;
  scriptHash : JsVal;
  outputHash : JsVal;
  stubFilesHash : JsVal;
  versionCompatHash : JsVal;
  pythonVersion : JsVal
}.

(** [metadata] of a plugin context.  The host fills different fields at
    different hooks; the plain string fields it only hands out
    ([pythonScriptPath], [outputFilePath], [outputPath], [message], ...)
    are gathered in [meta_info]. *)
Record Metadata := {
  meta_forceRegeneration : option bool;
  meta_env : option (gmap string string);
  meta_cache : option CacheData;
  meta_pythonVersion : option string;
  meta_success : option bool;
  meta_regenerated : option bool;
  meta_errorOutput : option string;
  meta_warnings : option string;
  meta_info : list (string * string)
}.

Definition empty_metadata : Metadata :=
  {| meta_forceRegeneration := None; meta_env := None; meta_cache := None;
     meta_pythonVersion := None; meta_success := None;
     meta_regenerated := None; meta_errorOutput := None;
     meta_warnings := None; meta_info := [] |}.

(** The logger a context carries: the host's own, or something a plugin
    put there. *)
Inductive Logger :=
| HostLogger
| ForeignLogger (tag : string).

(** The context threaded through the hooks.  [None] in [metadata] and
    [logger] stands for a missing (or falsy) field.  The reference to the
    host configuration that the context also carries is not represented:
    handlers are taken not to modify the host's configuration. *)
Record PluginContext := {
  metadata : option Metadata;
  tsOutput : OptText;
  error : option string;
  pluginData : list (string * string);
  logger : option Logger
}.

Definition set_logger (l : Logger) (c : PluginContext) : PluginContext :=
  {| metadata := metadata c; tsOutput := tsOutput c; error := error c;
     pluginData := pluginData c; logger := Some l |}.

(** What a call [plugin.onHook(hook, context)] ends in, after the host has
    awaited it: a returned value ([None]: nothing, [undefined], a falsy
    value) or a thrown error / rejected promise. *)
Inductive HookResult :=
| Returns (r : option PluginContext)
| Throws (msg : string).

(** A loaded plugin.  Handlers receive the context by reference and the
    plugins shipped with the repository update it in place; so a call to
    [onHook] yields both the state in which it leaves the object it was
    handed and its result.  A handler that returns its argument has the
    two equal.  [cleanup] is optional. *)
Record Plugin := {
  initialize_plugin : PluginDefinition -> Outcome unit;
  onHook : PluginHook -> PluginContext -> PluginContext * HookResult;
  cleanup_plugin : option (Outcome unit)
}.

(* ===================================================================== *)
(** ** Effects of the host                                                *)
(* ===================================================================== *)

Inductive Level := LInfo | LWarn | LError | LDebug.

Inductive Event :=
| EConsole (lvl : Level) (msg : string)
    (* console.log / console.warn / console.error / console.debug *)
| EHookCall (plugin : string) (hook : PluginHook) (ctx : PluginContext)
    (* plugin.onHook(hook, ctx) *)
| ECleanupCall (plugin : string)
    (* plugin.cleanup() *)
| EVersionProbe (exe : string)
    (* spawnSync(exe, ['-c', 'import sys; print(...)']) *)
| EWhich (exe : string)
    (* spawnSync('which', [exe]) *)
| ESpawn (exe script : string) (env : gmap string string)
    (* spawn(exe, [script], { env, stdio }) *)
| EOpen (path : string)
    (* fs.openSync(path, 'w') *)
| EMkdir (path : string)
    (* fs.mkdirSync(path, { recursive: true }) *)
| EWriteFile (path content : string)
    (* fs.writeFileSync(path, content) *)
| EUnlink (path : string)
    (* fs.unlinkSync(path) *)
| ERename (oldPath newPath : string)
    (* fs.renameSync(oldPath, newPath): the atomic replacement of a file;
       no function of the script performs it *)
| EExit (code : Z).
    (* process.exit(code) *)

(* ===================================================================== *)
(** ** [PluginManager] ([src/utils/plugin-manager.ts])                    *)
(* ===================================================================== *)

Record PluginManager := {
  pluginDefs : list PluginDefinition;
  plugins : list (string * Plugin);               (* Map<string, Plugin> *)
  pluginConfigs : list (string * PluginDefinition);
  initialized : bool
}.

(** [new PluginManager(pluginDefs)] *)
Definition new_PluginManager (defs : list PluginDefinition) : PluginManager :=
  {| pluginDefs := defs; plugins := []; pluginConfigs := []; initialized := false |}.

(** [this.logger.info] / [this.logger.error] *)
Definition logger_info (m : string) : Event := EConsole LInfo ("[Plugin] " +:+ m).
Definition logger_error (m : string) : Event := EConsole LError ("[Plugin] " +:+ m).

Section PluginHost.

(** [require(modulePath)] followed by the construction of the plugin
    object: what resolving the [module] of a definition gives ([Thrown]
    when the path does not exist, the module cannot be loaded or its
    export is neither a function nor an object). *)
Variable require : string -> Outcome Plugin.

(** [loadPlugin(pluginDef)] *)
Definition loadPlugin (pluginDef : PluginDefinition) : Outcome Plugin :=
  let attempt :=
    match require (module_ref pluginDef) with
    | Thrown m => Thrown m
    | Done plugin =>
        match initialize_plugin plugin pluginDef with
        | Thrown m => Thrown m
        | Done _ => Done plugin
        end
    end in
  match attempt with
  | Done plugin => Done plugin
  | Thrown m => Thrown ("Failed to load plugin " +:+ name pluginDef +:+ ": " +:+ m)
  end.

(** [(a, b) => (a.priority ?? 100) - (b.priority ?? 100)] *)
Definition by_priority (a b : PluginDefinition) : Z :=
  default 100 (priority a) - default 100 (priority b).

(** The loop of [initialize] over the sorted definitions. *)
Fixpoint initialize_loop (sortedPlugins : list PluginDefinition)
    (pm : PluginManager) : PluginManager * list Event :=
  match sortedPlugins with
  | [] => (pm, [])
  | pluginDef :: rest =>
      match enabled pluginDef with
      | Some false =>
          let '(pm', evs) := initialize_loop rest pm in
          (pm', logger_info ("Skipping disabled plugin: " +:+ name pluginDef) :: evs)
      | _ =>
          match loadPlugin pluginDef with
          | Done plugin =>
              let pm1 :=
                {| pluginDefs := pluginDefs pm;
                   plugins := Map_set (name pluginDef) plugin (plugins pm);
                   pluginConfigs := Map_set (name pluginDef) pluginDef (pluginConfigs pm);
                   initialized := initialized pm |} in
              let '(pm', evs) := initialize_loop rest pm1 in
              (pm', logger_info ("Loaded plugin: " +:+ name pluginDef +:+ " v"
                                 +:+ version pluginDef) :: evs)
          | Thrown m =>
              let '(pm', evs) := initialize_loop rest pm in
              (pm', logger_error ("Failed to load plugin " +:+ name pluginDef
                                  +:+ ": " +:+ m) :: evs)
          end
      end
  end.

(** [initialize()] *)
Definition initialize (pm : PluginManager) : PluginManager * list Event :=
  if initialized pm then (pm, [])
  else
    let sortedPlugins := Array_sort by_priority (pluginDefs pm) in
    let '(pm', evs) := initialize_loop sortedPlugins pm in
    ({| pluginDefs := pluginDefs pm'; plugins := plugins pm';
        pluginConfigs := pluginConfigs pm'; initialized := true |}, evs).

(** The loop of [executeHook] over [this.plugins.entries()]. *)
Fixpoint executeHook_loop (hook : PluginHook) (entries : list (string * Plugin))
    (currentContext : PluginContext) : PluginContext * list Event :=
  match entries with
  | [] => (currentContext, [])
  | (plugin_name, plugin) :: rest =>
      let call := EHookCall plugin_name hook currentContext in
      match onHook plugin hook currentContext with
      | (_, Returns (Some result)) =>
          let next :=
            match logger result with
            | Some _ => result
            | None => set_logger HostLogger result
            end in
          let '(final, evs) := executeHook_loop hook rest next in
          (final, call :: evs)
      | (after, Returns None) =>
          let '(final, evs) := executeHook_loop hook rest after in
          (final, call :: evs)
      | (after, Throws m) =>
          let '(final, evs) := executeHook_loop hook rest after in
          (final,
           call :: logger_error ("Error executing plugin " +:+ plugin_name
                                 +:+ " for hook " +:+ hook_name hook
                                 +:+ ": " +:+ m) :: evs)
      end
  end.

(** [executeHook(hook, context)] *)
Definition executeHook (pm : PluginManager) (hook : PluginHook)
    (context : PluginContext) : PluginManager * PluginContext * list Event :=
  let '(pm1, evs1) := if initialized pm then (pm, []) else initialize pm in
  let currentContext := set_logger HostLogger context in
  let '(final, evs2) := executeHook_loop hook (plugins pm1) currentContext in
  (pm1, final, evs1 ++ evs2).

(** The loop of [cleanup] over [this.plugins.entries()]. *)
Fixpoint cleanup_loop (entries : list (string * Plugin)) : list Event :=
  match entries with
  | [] => []
  | (plugin_name, plugin) :: rest =>
      match cleanup_plugin plugin with
      | None => cleanup_loop rest
      | Some (Done _) => ECleanupCall plugin_name :: cleanup_loop rest
      | Some (Thrown m) =>
          ECleanupCall plugin_name
          :: logger_error ("Error cleaning up plugin " +:+ plugin_name +:+ ": " +:+ m)
          :: cleanup_loop rest
      end
  end.

(** [cleanup()] *)
Definition PluginManager_cleanup (pm : PluginManager) : PluginManager * list Event :=
  ({| pluginDefs := pluginDefs pm; plugins := []; pluginConfigs := [];
      initialized := false |},
   cleanup_loop (plugins pm)).

End PluginHost.

(* ===================================================================== *)
(** ** The world of [scripts/generate-types.js]                           *)
(* ===================================================================== *)

Record File := { content : string; mtime : Z }.

(** Directory trees, entries in the order [readdirSync] lists them.  A
    directory that is not [readable] makes [readdirSync] throw. *)
Inductive Dirent :=
| FileEntry (entry_name : string) (entry_mtime : Z)
| DirEntry (entry_name : string) (readable : bool) (entries : Dirents)
with Dirents :=
| DNil
| DCons (entry : Dirent) (rest : Dirents).

Scheme Dirent_mut := Induction for Dirent Sort Prop
  with Dirents_mut := Induction for Dirents Sort Prop.

(** [{ major, minor, micro, raw }] as parsed from what the interpreter
    prints, and with the [isSupported] flag the script adds. *)
Record VersionInfo := { major : Z; minor : Z; micro : Z; raw : string }.
Record PyVersion := { info : VersionInfo; isSupported : bool }.

(** What becomes of the child process running the generator script. *)
Inductive ProcResult :=
| StartFailed (msg : string)                          (* 'error' event *)
| Exited (code : Z) (stdout : string) (stderr : list string).
                       (* 'close' event; stderr as the chunks received *)

Record World := {
  files : gmap string File;                 (* regular files *)
  dirs : gset string;                       (* plain directories *)
  trees : gmap string (bool * Dirents);     (* directories that are scanned *)
  writable : string -> bool;                (* may this path be created/written *)
  env : gmap string string;                 (* process.env *)
  now : Z;                                  (* Date.now() *)
  platform_win32 : bool;                    (* os.platform() === 'win32' *)
  username : Outcome string;                (* os.userInfo().username *)
  versionOf : string -> Outcome VersionInfo;
      (* the version an executable reports to the probe; [Thrown] when
         the probe exits with a non-zero status or cannot run *)
  which : string -> option string;          (* `which exe`, status 0 *)
  python : string -> string -> gmap string string -> ProcResult;
  discoveredPlugins : Outcome (list PluginDefinition);
      (* the definitions [setupPlugins] gathers from the plugin
         configuration file and the plugin directory *)
  requireModule : string -> Outcome Plugin;
  pluginManager : option PluginManager;     (* the script's [pluginManager] *)
  trace : list Event
}.

Definition with_trace (t : list Event) (w : World) : World :=
  {| files := files w; dirs := dirs w; trees := trees w; writable := writable w;
     env := env w; now := now w; platform_win32 := platform_win32 w;
     username := username w; versionOf := versionOf w; which := which w;
     python := python w; discoveredPlugins := discoveredPlugins w;
     requireModule := requireModule w; pluginManager := pluginManager w;
     trace := t |}.

Definition with_files (f : gmap string File) (w : World) : World :=
  {| files := f; dirs := dirs w; trees := trees w; writable := writable w;
     env := env w; now := now w; platform_win32 := platform_win32 w;
     username := username w; versionOf := versionOf w; which := which w;
     python := python w; discoveredPlugins := discoveredPlugins w;
     requireModule := requireModule w; pluginManager := pluginManager w;
     trace := trace w |}.

Definition with_dirs (d : gset string) (w : World) : World :=
  {| files := files w; dirs := d; trees := trees w; writable := writable w;
     env := env w; now := now w; platform_win32 := platform_win32 w;
     username := username w; versionOf := versionOf w; which := which w;
     python := python w; discoveredPlugins := discoveredPlugins w;
     requireModule := requireModule w; pluginManager := pluginManager w;
     trace := trace w |}.

Definition with_pluginManager (p : option PluginManager) (w : World) : World :=
  {| files := files w; dirs := dirs w; trees := trees w; writable := writable w;
     env := env w; now := now w; platform_win32 := platform_win32 w;
     username := username w; versionOf := versionOf w; which := which w;
     python := python w; discoveredPlugins := discoveredPlugins w;
     requireModule := requireModule w; pluginManager := p;
     trace := trace w |}.

(** *** The monad of host code *)

Definition M (A : Type) : Type := World -> Outcome A * World.

Definition ret {A} (a : A) : M A := fun w => (Done a, w).

Definition throw {A} (msg : string) : M A := fun w => (Thrown msg, w).

Definition bind {A B} (m : M A) (k : A -> M B) : M B :=
  fun w =>
    match m w with
    | (Done a, w') => k a w'
    | (Thrown e, w') => (Thrown e, w')
    end.

(** [try { m } catch (error) { handler(error.message) }] *)
Definition try_catch {A} (m : M A) (handler : string -> M A) : M A :=
  fun w =>
    match m w with
    | (Done a, w') => (Done a, w')
    | (Thrown e, w') => handler e w'
    end.

Definition gets {A} (f : World -> A) : M A := fun w => (Done (f w), w).

Definition emit (e : Event) : M unit :=
  fun w => (Done tt, with_trace (trace w ++ [e]) w).

Definition emit_all (evs : list Event) : M unit :=
  fun w => (Done tt, with_trace (trace w ++ evs) w).

Notation "x <- m ;; k" := (bind m (fun x => k))
  (at level 100, m at next level, right associativity).
Notation "m ;; k" := (bind m (fun _ => k))
  (at level 100, right associativity).

(** *** File system primitives *)

(** Does the path name a file or a directory? *)
Definition path_exists (w : World) (p : string) : bool :=
  bool_decide (is_Some (files w !! p))
  || bool_decide (p ∈ dirs w)
  || bool_decide (is_Some (trees w !! p)).

Definition existsSync (p : string) : M bool := gets (fun w => path_exists w p).

Definition readFileSync (p : string) : M string :=
  f <- gets (fun w => files w !! p) ;;
  match f with
  | Some f => ret (content f)
  | None => throw ("ENOENT: no such file or directory, open '" +:+ p +:+ "'")
  end.

(** [fs.statSync(p).mtime] *)
Definition statSync_mtime (p : string) : M Z :=
  f <- gets (fun w => files w !! p) ;;
  match f with
  | Some f => ret (mtime f)
  | None => throw ("ENOENT: no such file or directory, stat '" +:+ p +:+ "'")
  end.

Definition writeFileSync (p data : string) : M unit :=
  fun w =>
    if writable w p then
      (Done tt,
       with_trace (trace w ++ [EWriteFile p data])
         (with_files (<[p := {| content := data; mtime := now w |}]> (files w)) w))
    else (Thrown ("EACCES: permission denied, open '" +:+ p +:+ "'"), w).

Definition mkdirSync (p : string) : M unit :=
  fun w =>
    if writable w p then
      (Done tt, with_trace (trace w ++ [EMkdir p]) (with_dirs ({[p]} ∪ dirs w) w))
    else (Thrown ("EACCES: permission denied, mkdir '" +:+ p +:+ "'"), w).

(** [fs.openSync(p, 'w')]: creates or truncates the file. *)
Definition openSync_w (p : string) : M unit :=
  fun w =>
    if writable w p then
      (Done tt,
       with_trace (trace w ++ [EOpen p])
         (with_files (<[p := {| content := ""; mtime := now w |}]> (files w)) w))
    else (Thrown ("EACCES: permission denied, open '" +:+ p +:+ "'"), w).

Definition unlinkSync (p : string) : M unit :=
  fun w =>
    match files w !! p with
    | Some _ =>
        (Done tt, with_trace (trace w ++ [EUnlink p]) (with_files (delete p (files w)) w))
    | None => (Thrown ("ENOENT: no such file or directory, unlink '" +:+ p +:+ "'"), w)
    end.

(** [path.join(dir, name)] for a directory and one entry name. *)
Definition path_join (dir entry_name : string) : string := dir +:+ "/" +:+ entry_name.

(** [s.endsWith(suffix)] *)
Definition endsWith (s suffix : string) : bool :=
  let n := String.length s in
  let k := String.length suffix in
  (k <=? n)%nat && String.eqb (substring (n - k) k s) suffix.

(** [s.includes(t)] *)
Fixpoint includes (s t : string) : bool :=
  String.prefix t s ||
  match s with
  | EmptyString => false
  | String _ s' => includes s' t
  end.

(** [s.split('\n')] *)
Fixpoint split_lines_go (cur : string) (s : string) : list string :=
  match s with
  | EmptyString => [String.rev cur]
  | String c s' =>
      if Ascii.eqb c "010"%char then String.rev cur :: split_lines_go "" s'
      else split_lines_go (String c cur) s'
  end.

Definition split_lines (s : string) : list string := split_lines_go "" s.

(** [s.toLowerCase()] on the ASCII letters. *)
Definition lower_char (c : ascii) : ascii :=
  let n := nat_of_ascii c in
  if ((65 <=? n) && (n <=? 90))%nat then ascii_of_nat (n + 32) else c.

Fixpoint toLowerCase (s : string) : string :=
  match s with
  | EmptyString => EmptyString
  | String c s' => String (lower_char c) (toLowerCase s')
  end.

(** *** Pure parts of the stub scan *)

(** The recursive [findStubFiles] of [needsRegeneration]: the files are
    pushed as they are met, and an unreadable directory throws out of the
    whole recursion (the [try] is around the call for the top directory),
    leaving what was pushed so far.  The result is that list and the
    error thrown, if any. *)
Fixpoint findStubFiles_check (currentDir : string) (es : Dirents)
    : list (string * Z) * option string :=
  match es with
  | DNil => ([], None)
  | DCons (FileEntry n m) rest =>
      let '(found, err) := findStubFiles_check currentDir rest in
      if endsWith n ".pyi" then ((path_join currentDir n, m) :: found, err)
      else (found, err)
  | DCons (DirEntry n r sub) rest =>
      let fullPath := path_join currentDir n in
      if r then
        match findStubFiles_check fullPath sub with
        | (found, Some e) => (found, Some e)
        | (found, None) =>
            let '(found', err) := findStubFiles_check currentDir rest in
            (found ++ found', err)
        end
      else ([], Some ("EACCES: permission denied, scandir '" +:+ fullPath +:+ "'"))
  end.

(** The recursive [findStubFiles] of [updateCache]: the [try] is inside,
    so an unreadable directory is reported and skipped, and the scan goes
    on.  The result is the list of files and the warnings printed. *)
Fixpoint findStubFiles_update (currentDir : string) (es : Dirents)
    : list (string * Z) * list Event :=
  match es with
  | DNil => ([], [])
  | DCons (FileEntry n m) rest =>
      let '(found, evs) := findStubFiles_update currentDir rest in
      if endsWith n ".pyi" then ((path_join currentDir n, m) :: found, evs)
      else (found, evs)
  | DCons (DirEntry n r sub) rest =>
      let fullPath := path_join currentDir n in
      let '(found, evs) :=
        if r then findStubFiles_update fullPath sub
        else ([], [EConsole LWarn ("Couldn't read directory " +:+ fullPath)]) in
      let '(found', evs') := findStubFiles_update currentDir rest in
      (found ++ found', evs ++ evs')
  end.

(** [stubFiles.length > 100 ? stubFiles.slice(0, 5).concat(stubFiles.slice(-5)) : stubFiles] *)
Definition samplesToCheck (stubFiles : list (string * Z)) : list (string * Z) :=
  if (100 <? length stubFiles)%nat
  then take 5 stubFiles ++ drop (length stubFiles - 5) stubFiles
  else stubFiles.

(** [`${file}:${stats.mtime.getTime()}`] *)
Definition stub_entry (f : string * Z) : string := fst f +:+ ":" +:+ pretty (snd f).

(** [samplesToCheck.map(...).join('|')] *)
Definition stubsHashInput (samples : list (string * Z)) : string :=
  String.concat "|" (map stub_entry samples).

(** [new Date(lastGenerated) < mtime] *)
Definition date_lt (lastGenerated : option Z) (m : Z) : bool :=
  match lastGenerated with
  | Some t => t <? m
  | None => false
  end.

(** [a || b] on two environment variables *)
Definition env_or (a b : option string) : option string :=
  match a with
  | Some s => if String.eqb s "" then b else Some s
  | None => b
  end.

Record Config := {
  pythonScript : string;
  versionCompatPath : string;
      (* path.resolve(path.dirname(config.pythonScript), 'version_compat.py') *)
  outputFile : string;
  outputDir : string;             (* path.dirname(config.outputFile) *)
  cacheFile : string;
  tempOutputFile : string;
  debugMode : bool;
  pythonExecutable : string;
  forceRegeneration : bool;
  useTS49Features : bool;
  pythonMinVersion : Z * Z;       (* '3.6'.split('.').map(Number) *)
  pythonMaxVersion : Z * Z;
  pythonPreferredVersion : Z * Z;
  pluginsEnabled : bool;
  projectStubs : string;          (* path.resolve(__dirname, '../stubs') *)
  typesStubs : string;            (* path.resolve(__dirname, '../node_modules/@types') *)
  userStubs : string              (* path.resolve(os.homedir(), '.local/lib/python3/stubs') *)
}.

(** The result [generateTypes] resolves with. *)
Record Generated := {
  output : string;
  errorData : string;
  generatedVersion : option string
}.

(* ===================================================================== *)
(** ** [scripts/generate-types.js]                                        *)
(* ===================================================================== *)

Section Generator.

Variable config : Config.

(** [crypto.createHash('md5').update(s).digest('hex')] *)
Variable md5 : string -> string.

(** [JSON.parse] of the text of the cache file: it throws, or gives
    [null] ([None]) or a value whose fields are read as a [CacheData]. *)
Variable JSON_parse : string -> Outcome (option CacheData).

(** [JSON.stringify(cacheData, null, 2)] *)
Variable JSON_stringify : CacheData -> string.

(** [logPerf(message)]; the elapsed time in front of the message is left
    out. *)
Definition logPerf (message : string) : M unit :=
  if debugMode config then emit (EConsole LError ("[PERF] " +:+ message))
  else ret tt.

Definition lift {A} (o : Outcome A) : M A := fun w => (o, w).

(** The test of [isSupported] against the configured range. *)
Definition version_in_range (v : VersionInfo) : bool :=
  let minComponents := pythonMinVersion config in
  let maxComponents := pythonMaxVersion config in
  ((major v >? fst minComponents)
   || ((major v =? fst minComponents) && (minor v >=? snd minComponents)))
  && ((major v <? fst maxComponents)
      || ((major v =? fst maxComponents) && (minor v <=? snd maxComponents))).

(** [checkPythonVersion()]; [None] is [null]. *)
Definition checkPythonVersion : M (option PyVersion) :=
  emit (EVersionProbe (pythonExecutable config)) ;;
  result <- gets (fun w => versionOf w (pythonExecutable config)) ;;
  match result with
  | Thrown e =>
      emit (EConsole LError ("Error checking Python version: " +:+ e)) ;;
      ret None
  | Done v =>
      logPerf ("Detected Python version: " +:+ raw v) ;;
      let supported := version_in_range v in
      (if supported then ret tt
       else emit (EConsole LWarn ("Warning: Python version " +:+ raw v
                                  +:+ " is outside the supported range"))) ;;
      ret (Some {| info := v; isSupported := supported |})
  end.

(** The probe of one candidate executable at [execPath]. *)
Definition probe_candidate (execPath : string) : M (list (string * PyVersion)) :=
  emit (EVersionProbe execPath) ;;
  versionResult <- gets (fun w => versionOf w execPath) ;;
  match versionResult with
  | Done v =>
      if version_in_range v
      then ret [(execPath, {| info := v; isSupported := true |})]
      else ret []
  | Thrown _ => ret []
  end.

(** The loop over [candidateExecutables] (macOS and Linux). *)
Fixpoint try_candidateExecutables (cands : list string) : M (list (string * PyVersion)) :=
  match cands with
  | [] => ret []
  | executable :: rest =>
      emit (EWhich executable) ;;
      located <- gets (fun w => which w executable) ;;
      found <- match located with
               | Some execPath =>
                   if String.eqb execPath "" then ret [] else probe_candidate execPath
               | None => ret []
               end ;;
      more <- try_candidateExecutables rest ;;
      ret (found ++ more)
  end.

(** The loop over [candidatePaths] (Windows). *)
Fixpoint try_candidatePaths (cands : list string) : M (list (string * PyVersion)) :=
  match cands with
  | [] => ret []
  | execPath :: rest =>
      present <- existsSync execPath ;;
      found <- (if present then probe_candidate execPath else ret []) ;;
      more <- try_candidatePaths rest ;;
      ret (found ++ more)
  end.

Definition candidateExecutables : list string :=
  ["python3.11"; "python3.10"; "python3.9"; "python3.8"; "python3.7"; "python3.6";
   "python3"; "python"].

Definition python_dirs : list string :=
  ["Python311"; "Python310"; "Python39"; "Python38"; "Python37"; "Python36"].

Definition candidatePaths (programFiles programFilesX86 localAppData : string)
    : list string :=
  map (fun d => programFiles +:+ "\" +:+ d +:+ "\python.exe") python_dirs
  ++ map (fun d => programFilesX86 +:+ "\" +:+ d +:+ "\python.exe") python_dirs
  ++ map (fun d => localAppData +:+ "\Programs\Python\" +:+ d +:+ "\python.exe")
       python_dirs.

(** [x || dflt] for an environment variable *)
Definition env_default (x : option string) (dflt : string) : string :=
  match x with
  | Some s => if String.eqb s "" then dflt else s
  | None => dflt
  end.

(** The comparator of [possibleVersions.sort]. *)
Definition version_distance (a : string * PyVersion) : Z :=
  let preferredVersion := pythonPreferredVersion config in
  Z.abs (major (info (snd a)) - fst preferredVersion) * 100
  + Z.abs (minor (info (snd a)) - snd preferredVersion).

Definition by_distance (a b : string * PyVersion) : Z :=
  version_distance a - version_distance b.

(** [findBestPythonExecutable()]: the executable and its version. *)
Definition findBestPythonExecutable : M (string * option PyVersion) :=
  currentVersion <- checkPythonVersion ;;
  let fallback := (pythonExecutable config, currentVersion) in
  if match currentVersion with Some v => isSupported v | None => false end
  then ret fallback
  else
    win <- gets platform_win32 ;;
    possibleVersions <-
      (if win then
         e <- gets env ;;
         user <- gets username ;;
         let programFiles := env_default (e !! "ProgramFiles") "C:\Program Files" in
         let programFilesX86 :=
           env_default (e !! "ProgramFiles(x86)") "C:\Program Files (x86)" in
         let localAppData :=
           match e !! "LOCALAPPDATA" with
           | Some s =>
               if String.eqb s "" then
                 match user with
                 | Done u => "C:\Users\" +:+ u +:+ "\AppData\Local"
                 | Thrown _ => "C:\Users\Default\AppData\Local"
                 end
               else s
           | None =>
               match user with
               | Done u => "C:\Users\" +:+ u +:+ "\AppData\Local"
               | Thrown _ => "C:\Users\Default\AppData\Local"
               end
           end in
         try_candidatePaths (candidatePaths programFiles programFilesX86 localAppData)
       else try_candidateExecutables candidateExecutables) ;;
    match Array_sort by_distance possibleVersions with
    | [] =>
        emit (EConsole LWarn
                ("No supported Python version found. Proceeding with default executable: "
                 +:+ pythonExecutable config)) ;;
        ret fallback
    | bestMatch :: _ =>
        logPerf ("Using Python " +:+ raw (info (snd bestMatch)) +:+ " at "
                 +:+ fst bestMatch) ;;
        ret (fst bestMatch, Some (snd bestMatch))
    end.

(** [executePluginHook(hook, context)] *)
Definition executePluginHook (hook : PluginHook) (context : PluginContext)
    : M PluginContext :=
  manager <- gets pluginManager ;;
  match manager with
  | None => ret context
  | Some pm =>
      try_catch
        (fun w =>
           let '(pm', result, evs) := executeHook (requireModule w) pm hook context in
           (Done result,
            with_trace (trace w ++ evs) (with_pluginManager (Some pm') w)))
        (fun e =>
           emit (EConsole LError ("Error executing plugin hook " +:+ hook_name hook
                                  +:+ ": " +:+ e)) ;;
           ret context)
  end.

(** [setupPlugins()].  The reading of the plugin configuration file and
    of the plugin directory is the world's [discoveredPlugins]. *)
Definition setupPlugins : M unit :=
  if negb (pluginsEnabled config) then logPerf "Plugins disabled"
  else
    try_catch
      (pluginDefs <- (fun w => (discoveredPlugins w, w)) ;;
       if (0 <? length pluginDefs)%nat then
         (fun w =>
            let '(pm, evs) := initialize (requireModule w) (new_PluginManager pluginDefs) in
            (Done tt, with_trace (trace w ++ evs) (with_pluginManager (Some pm) w))) ;;
         logPerf ("Initialized plugin manager with " +:+ pretty (length pluginDefs)
                  +:+ " plugins")
       else logPerf "No plugins found")
      (fun e => emit (EConsole LError ("Error setting up plugins: " +:+ e))).

(** The loop of [findStubDirectories] over [potentialLocations]. *)
Fixpoint existing_locations (locs : list string) : M (list string) :=
  match locs with
  | [] => ret []
  | dir :: rest =>
      present <- existsSync dir ;;
      (if present then logPerf ("Found stub directory: " +:+ dir) else ret tt) ;;
      more <- existing_locations rest ;;
      ret (if present then dir :: more else more)
  end.

Definition potentialLocations : list string :=
  [projectStubs config; typesStubs config; userStubs config].

(** [findStubDirectories()] *)
Definition findStubDirectories : M (list string) :=
  stubDirs <- existing_locations potentialLocations ;;
  e <- gets env ;;
  match env_or (e !! "TYPESHED_PATH") (e !! "MYPY_CONFIG_FILE_PATH") with
  | Some envStubPath =>
      if String.eqb envStubPath "" then ret stubDirs
      else
        present <- existsSync envStubPath ;;
        if present then
          logPerf ("Found stub directory from environment: " +:+ envStubPath) ;;
          ret (stubDirs ++ [envStubPath])
        else ret stubDirs
  | None => ret stubDirs
  end.

(** The collection of stub files in [needsRegeneration]. *)
Fixpoint collect_check (stubDirs : list string) : M (list (string * Z)) :=
  match stubDirs with
  | [] => ret []
  | dir :: rest =>
      listing <- gets (fun w => trees w !! dir) ;;
      found <-
        match listing with
        | Some (true, es) =>
            match findStubFiles_check dir es with
            | (found, None) => ret found
            | (found, Some e) =>
                emit (EConsole LWarn ("Couldn't read directory " +:+ dir +:+ ": " +:+ e)) ;;
                ret found
            end
        | _ =>
            emit (EConsole LWarn ("Couldn't read directory " +:+ dir)) ;;
            ret []
        end ;;
      more <- collect_check rest ;;
      ret (found ++ more)
  end.

(** The collection of stub files in [updateCache]. *)
Fixpoint collect_update (stubDirs : list string) : M (list (string * Z)) :=
  match stubDirs with
  | [] => ret []
  | dir :: rest =>
      listing <- gets (fun w => trees w !! dir) ;;
      found <-
        match listing with
        | Some (true, es) =>
            let '(found, evs) := findStubFiles_update dir es in
            emit_all evs ;; ret found
        | _ =>
            emit (EConsole LWarn ("Couldn't read directory " +:+ dir)) ;;
            ret []
        end ;;
      more <- collect_update rest ;;
      ret (found ++ more)
  end.

(** The fingerprint of a non-empty list of stub files. *)
Definition stubs_fingerprint (stubFiles : list (string * Z)) : string :=
  md5 (stubsHashInput (samplesToCheck stubFiles)).

(** The context handed to the PRE_GENERATION hook. *)
Definition preGeneration_context (cacheData : CacheData) : PluginContext :=
  {| metadata :=
       Some {| meta_forceRegeneration := Some (forceRegeneration config);
               meta_env := None; meta_cache := Some cacheData;
               meta_pythonVersion := None; meta_success := None;
               meta_regenerated := None; meta_errorOutput := None;
               meta_warnings := None;
               meta_info := [("pythonScriptPath", pythonScript config);
                             ("outputFilePath", outputFile config)] |};
     tsOutput := Absent; error := None; pluginData := []; logger := None |}.

(** [needsRegeneration()] *)
Definition needsRegeneration : M bool :=
  if forceRegeneration config then
    logPerf "Force regeneration requested" ;; ret true
  else
    try_catch
      (cacheExists <- existsSync (cacheFile config) ;;
       if negb cacheExists then
         logPerf "No cache file found - generating types" ;; ret true
       else
       text <- readFileSync (cacheFile config) ;;
       parsed <- lift (JSON_parse text) ;;
       scriptExists <- existsSync (pythonScript config) ;;
       if negb scriptExists then
         logPerf "Python script not found - generating types" ;; ret true
       else
       scriptMtime <- statSync_mtime (pythonScript config) ;;
       cacheData <- match parsed with
                    | Some c => ret c
                    | None => throw "Cannot read properties of null (reading 'lastGenerated')"
                    end ;;
       if date_lt (lastGenerated cacheData) scriptMtime then
         logPerf "Python script modified since last generation" ;; ret true
       else
       compatExists <- existsSync (versionCompatPath config) ;;
       compatNewer <-
         (if compatExists then
            versionCompatMtime <- statSync_mtime (versionCompatPath config) ;;
            ret (date_lt (lastGenerated cacheData) versionCompatMtime)
          else ret false) ;;
       if compatNewer then
         logPerf "Python version compatibility script modified since last generation" ;;
         ret true
       else
       versionChanged <-
         (if truthy (pythonVersion cacheData) then
            current <- checkPythonVersion ;;
            match current with
            | Some v =>
                if negb (strict_eq_str (pythonVersion cacheData) (raw (info v))) then
                  logPerf ("Python version changed from "
                           +:+ js_show (pythonVersion cacheData) +:+ " to "
                           +:+ raw (info v)) ;;
                  ret true
                else ret false
            | None => ret false
            end
          else ret false) ;;
       if versionChanged then ret true
       else
       outputExists <- existsSync (outputFile config) ;;
       if negb outputExists then
         logPerf "Output file not found - generating types" ;; ret true
       else
       stubsChanged <-
         (if truthy (stubFilesHash cacheData) then
            stubDirs <- findStubDirectories ;;
            stubFiles <- collect_check stubDirs ;;
            logPerf ("Found " +:+ pretty (length stubFiles) +:+ " stub files") ;;
            if (0 <? length stubFiles)%nat then
              let currentStubsHash := stubs_fingerprint stubFiles in
              if negb (strict_eq_str (stubFilesHash cacheData) currentStubsHash) then
                logPerf "Stub files changed since last generation" ;; ret true
              else ret false
            else ret false
          else
            logPerf "No stub files hash in cache" ;; ret true) ;;
       if stubsChanged then ret true
       else
       scriptContent <- readFileSync (pythonScript config) ;;
       if negb (strict_eq_str (scriptHash cacheData) (md5 scriptContent)) then
         logPerf "Python script content changed - generating types" ;; ret true
       else
       compatStill <- existsSync (versionCompatPath config) ;;
       compatChanged <-
         (if compatStill then
            versionCompatContent <- readFileSync (versionCompatPath config) ;;
            ret (negb (strict_eq_str (versionCompatHash cacheData)
                                     (md5 versionCompatContent)))
          else ret false) ;;
       if compatChanged then
         logPerf "Python version compatibility script content changed - generating types" ;;
         ret true
       else
       pluginContext <- executePluginHook PRE_GENERATION (preGeneration_context cacheData) ;;
       pluginMetadata <-
         match metadata pluginContext with
         | Some md => ret md
         | None => throw "Cannot read properties of undefined (reading 'forceRegeneration')"
         end ;;
       match meta_forceRegeneration pluginMetadata with
       | Some true => logPerf "Regeneration forced by plugin" ;; ret true
       | _ => logPerf "No regeneration needed - using cached types" ;; ret false
       end)
      (fun e =>
         logPerf ("Error checking if regeneration needed: " +:+ e) ;; ret true).

(** [tsOutput || output] *)
Definition or_output (t : OptText) (output : string) : string :=
  match t with
  | Text s => if String.eqb s "" then output else s
  | _ => output
  end.

(** [spawn(pythonExecutable, [config.pythonScript], { env, stdio })] up
    to the end of the child: its standard output goes to the temporary
    file that was opened for it. *)
Definition spawn (exe script : string) (childEnv : gmap string string) : M ProcResult :=
  emit (ESpawn exe script childEnv) ;;
  fun w =>
    match python w exe script childEnv with
    | Exited code out err =>
        (Done (Exited code out err),
         with_files (<[tempOutputFile config :=
                         {| content := out; mtime := now w |}]> (files w)) w)
    | StartFailed e => (Done (StartFailed e), w)
    end.

(** The handler of [stderr.on('data')], chunk by chunk. *)
Fixpoint log_perf_chunks (chunks : list string) : M unit :=
  match chunks with
  | [] => ret tt
  | chunk :: rest =>
      (if includes chunk "[PERF]" && debugMode config
       then emit (EConsole LError chunk) else ret tt) ;;
      log_perf_chunks rest
  end.

(** The warning lines of the diagnostic output. *)
Definition warnings_of (errorData : string) : string :=
  String.concat (String "010"%char "")
    (filter (fun line => includes (toLowerCase line) "warning"
                         && negb (includes line "[PERF]") = true)
            (split_lines errorData)).

Definition error_context (e : string) (errorData : string) (ver : option string)
    (extra : list (string * string)) : PluginContext :=
  {| metadata :=
       Some {| meta_forceRegeneration := None; meta_env := None; meta_cache := None;
               meta_pythonVersion := ver; meta_success := None;
               meta_regenerated := None; meta_errorOutput := Some errorData;
               meta_warnings := None; meta_info := extra |};
     tsOutput := Absent; error := Some e; pluginData := []; logger := None |}.

(** The context handed to the POST_CONVERSION hook. *)
Definition postConversion_context (output errorData warnings : string)
    (ver : option string) : PluginContext :=
  {| metadata :=
       Some {| meta_forceRegeneration := None; meta_env := None;
               meta_cache := None; meta_pythonVersion := ver;
               meta_success := None; meta_regenerated := None;
               meta_errorOutput := Some errorData;
               meta_warnings := Some warnings; meta_info := [] |};
     tsOutput := Text output; error := None; pluginData := []; logger := None |}.

(** The part of [generateTypes] that follows a clean exit of the child:
    read the temporary file, run the POST_CONVERSION hook, take the
    plugins' text if there is one. *)
Definition postConversion (errorData warnings : string) (ver : option string)
    : M Generated :=
  output <- try_catch (readFileSync (tempOutputFile config))
              (fun readError => throw ("Failed to read generated types: " +:+ readError)) ;;
  try_catch
    (postContext <-
       executePluginHook POST_CONVERSION
         (postConversion_context output errorData warnings ver) ;;
     let finalOutput := or_output (tsOutput postContext) output in
     ret {| output := finalOutput; errorData := errorData; generatedVersion := ver |})
    (fun _ =>
       ret {| output := output; errorData := errorData; generatedVersion := ver |}).

(** [generateTypes()]; a rejected promise is a thrown error.  The
    environment object handed to the PRE_CONVERSION hook is the one the
    child is started with: what the plugins leave in [metadata.env] is
    laid over it. *)
Definition generateTypes : M Generated :=
  logPerf "Generating TypeScript types" ;;
  pythonInfo <- findBestPythonExecutable ;;
  let exe := fst pythonInfo in
  let ver := option_map (fun v => raw (info v)) (snd pythonInfo) in
  (match ver with
   | Some r => logPerf ("Using Python " +:+ r +:+ " for type generation")
   | None => ret tt
   end) ;;
  processEnv <- gets env ;;
  let env1 := if debugMode config then <["DEBUG" := "1"]> processEnv else processEnv in
  let env2 :=
    <["USE_TS_49_FEATURES" := if useTS49Features config then "true" else "false"]> env1 in
  (if debugMode config
   then logPerf ("TypeScript 4.9+ features "
                 +:+ (if useTS49Features config then "enabled" else "disabled"))
   else ret tt) ;;
  stubDirs <- findStubDirectories ;;
  win <- gets platform_win32 ;;
  let env3 :=
    if (0 <? length stubDirs)%nat
    then <["TYPESHED_PATH" := String.concat (if win then ";" else ":") stubDirs]> env2
    else env2 in
  (if (0 <? length stubDirs)%nat
   then logPerf ("Set TYPESHED_PATH environment variable with "
                 +:+ pretty (length stubDirs) +:+ " directories")
   else ret tt) ;;
  preContext <-
    executePluginHook PRE_CONVERSION
      {| metadata :=
           Some {| meta_forceRegeneration := None; meta_env := Some env3;
                   meta_cache := None; meta_pythonVersion := ver;
                   meta_success := None; meta_regenerated := None;
                   meta_errorOutput := None; meta_warnings := None;
                   meta_info := [("pythonScript", pythonScript config)] |};
         tsOutput := Absent; error := None; pluginData := []; logger := None |} ;;
  child <-
    try_catch
      (preMetadata <-
         match metadata preContext with
         | Some md => ret md
         | None => throw "Cannot read properties of undefined (reading 'env')"
         end ;;
       let childEnv :=
         match meta_env preMetadata with
         | Some e => e ∪ env3
         | None => env3
         end in
       openSync_w (tempOutputFile config) ;;
       spawn exe (pythonScript config) childEnv)
      (fun e => throw ("Failed to execute plugin hook: " +:+ e)) ;;
  match child with
  | StartFailed e =>
      executePluginHook ON_ERROR
        (error_context e "" ver [("message", "Failed to start Python process")]) ;;
      throw ("Failed to start Python process: " +:+ e)
  | Exited code _ chunks =>
      let errorData := String.concat "" chunks in
      log_perf_chunks chunks ;;
      logPerf ("Python process exited with code " +:+ pretty code) ;;
      if negb (code =? 0) then
        let message := "Python process exited with code " +:+ pretty code in
        executePluginHook ON_ERROR (error_context message errorData ver []) ;;
        throw (message +:+ String "010"%char errorData)
      else
        let warnings := warnings_of errorData in
        (if negb (String.eqb warnings "") && debugMode config
         then emit (EConsole LWarn ("Warnings during type generation: " +:+ warnings))
         else ret tt) ;;
        postConversion errorData warnings ver
  end.

(** [writeOutput(output)] *)
Definition writeOutput (output : string) : M bool :=
  logPerf "Writing generated types to file" ;;
  try_catch
    (dirExists <- existsSync (outputDir config) ;;
     (if negb dirExists then mkdirSync (outputDir config) else ret tt) ;;
     writeFileSync (outputFile config) output ;;
     logPerf ("Types written to " +:+ outputFile config) ;;
     ret true)
    (fun e => emit (EConsole LError ("Error writing output: " +:+ e)) ;; ret false).

(** The first part of the [try] of [updateCache]: the hashes, the stub
    fingerprint and the record [cacheData] made of them. *)
Definition new_cacheData (output : string) (ver : option string) : M CacheData :=
  scriptContent <- readFileSync (pythonScript config) ;;
  let scriptHash := md5 scriptContent in
  let outputHash := md5 output in
  compatExists <- existsSync (versionCompatPath config) ;;
  versionCompatHash <-
    (if compatExists then
       versionCompatContent <- readFileSync (versionCompatPath config) ;;
       ret (md5 versionCompatContent)
     else ret "") ;;
  stubDirs <- findStubDirectories ;;
  stubFilesHash <-
    (if (0 <? length stubDirs)%nat then
       stubFiles <- collect_update stubDirs ;;
       if (0 <? length stubFiles)%nat then
         logPerf ("Computed hash for " +:+ pretty (length stubFiles) +:+ " stub files") ;;
         ret (stubs_fingerprint stubFiles)
       else ret ""
     else ret "") ;;
  t <- gets now ;;
  ret {| lastGenerated := Some t;
         scriptHash := JStr scriptHash;
         outputHash := JStr outputHash;
         stubFilesHash := JStr stubFilesHash;
         versionCompatHash := JStr versionCompatHash;
         pythonVersion := match ver with Some v => JStr v | None => JNull end |}.

(** [updateCache(output, pythonVersion)] *)
Definition updateCache (output : string) (ver : option string) : M bool :=
  logPerf "Updating cache" ;;
  try_catch
    (cacheData <- new_cacheData output ver ;;
     writeFileSync (cacheFile config) (JSON_stringify cacheData) ;;
     logPerf "Cache updated" ;;
     ret true)
    (fun e => emit (EConsole LError ("Error updating cache: " +:+ e)) ;; ret false).

(** [cleanup()] *)
Definition cleanup : M unit :=
  try_catch
    (present <- existsSync (tempOutputFile config) ;;
     if present then unlinkSync (tempOutputFile config) else ret tt)
    (fun e => emit (EConsole LError ("Error cleaning up: " +:+ e))).

Definition postGeneration_context (text : OptText) (regenerated : bool)
    (ver : option string) : PluginContext :=
  {| metadata :=
       Some {| meta_forceRegeneration := None; meta_env := None; meta_cache := None;
               meta_pythonVersion := ver; meta_success := Some true;
               meta_regenerated := Some regenerated; meta_errorOutput := None;
               meta_warnings := None;
               meta_info := [("outputPath", outputFile config)] |};
     tsOutput := text; error := None; pluginData := []; logger := None |}.

(** The body of the [try] of [main]. *)
Definition main_body : M unit :=
  setupPlugins ;;
  shouldRegenerate <- needsRegeneration ;;
  if shouldRegenerate then
    generated <- generateTypes ;;
    writeOutput (output generated) ;;
    updateCache (output generated) (generatedVersion generated) ;;
    executePluginHook POST_GENERATION
      (postGeneration_context (Text (output generated)) true
         (generatedVersion generated)) ;;
    logPerf "Type generation completed successfully"
  else
    logPerf "Using cached types" ;;
    executePluginHook POST_GENERATION (postGeneration_context Absent false None) ;;
    ret tt.

(** The [finally] of [main]. *)
Definition main_finally : M unit :=
  cleanup ;;
  manager <- gets pluginManager ;;
  match manager with
  | Some pm =>
      fun w =>
        let '(pm', evs) := PluginManager_cleanup pm in
        (Done tt, with_trace (trace w ++ evs) (with_pluginManager (Some pm') w))
  | None => ret tt
  end.

(** [main()]: the exit code of the process.  [process.exit(1)] in the
    [catch] ends the process at once, before the [finally]. *)
Definition main : M Z :=
  logPerf "Starting type generation" ;;
  fun w =>
    match main_body w with
    | (Done _, w') => (main_finally ;; ret 0) w'
    | (Thrown e, w') =>
        (emit (EConsole LError ("Error generating types: " +:+ e)) ;;
         emit (EExit 1) ;;
         ret 1) w'
    end.

End Generator.

(* ===================================================================== *)
(** ** Vocabulary of the statements                                       *)
(* ===================================================================== *)

(** The plugins whose handler was invoked, in the order of the calls. *)
Definition hook_calls (evs : list Event) : list string :=
  omap (fun e => match e with EHookCall n _ _ => Some n | _ => None end) evs.

(** [enabled === false] *)
Definition is_disabled (d : PluginDefinition) : bool :=
  match enabled d with
  | Some false => true
  | _ => false
  end.



(** Does the definition name a module that loads and initialises? *)
Definition loads (req : string -> Outcome Plugin) (d : PluginDefinition) : bool :=
  match loadPlugin req d with
  | Done _ => true
  | Thrown _ => false
  end.

(** The definitions that end up with a running plugin. *)
Definition runs (req : string -> Outcome Plugin) (d : PluginDefinition) : bool :=
  negb (is_disabled d) && loads req d.

(** The entries [initialize] puts into the plugin map for definitions
    with distinct names. *)
Definition loaded (req : string -> Outcome Plugin) (l : list PluginDefinition)
    : list (string * Plugin) :=
  flat_map (fun d =>
              if is_disabled d then []
              else match loadPlugin req d with
                   | Done p => [(name d, p)]
                   | Thrown _ => []
                   end) l.


(** The events of a trace that a test picks out. *)
Definition select (sel : Event -> bool) (evs : list Event) : list Event :=
  List.filter sel evs.

(** Starting a process: a version probe, a [which], the generator. *)
Definition is_process (e : Event) : bool :=
  match e with
  | EVersionProbe _ | EWhich _ | ESpawn _ _ _ => true
  | _ => false
  end.

(** Starting the generator script. *)
Definition is_spawn (e : Event) : bool :=
  match e with
  | ESpawn _ _ _ => true
  | _ => false
  end.

(** Writing a file under its name, or putting a file in its place. *)
Definition is_write (e : Event) : bool :=
  match e with
  | EWriteFile _ _ | ERename _ _ => true
  | _ => false
  end.

(** What plugins and logging produce. *)
Definition is_chatter (e : Event) : bool :=
  match e with
  | EConsole _ _ | EHookCall _ _ _ | ECleanupCall _ => true
  | _ => false
  end.

(** A computation leaves an observation of the world as it was. *)
Definition preserves {X A} (obs : World -> X) (m : M A) : Prop :=
  forall w, obs (snd (m w)) = obs w.

(** An observation that does not see the plugin manager, nor console
    output and plugin calls added at the end of the trace. *)
Definition unobtrusive {X} (obs : World -> X) : Prop :=
  forall w evs pm,
    forallb is_chatter evs = true ->
    obs (with_pluginManager pm (with_trace (trace w ++ evs) w)) = obs w.

(** Everything in the world that the script can read, except the files
    and directories it writes itself. *)
Definition surroundings (w : World) :=
  (trees w, writable w, env w, now w, platform_win32 w, username w,
   versionOf w, which w, python w, discoveredPlugins w, requireModule w).

(** The file system as the script reads it. *)
Definition disk (w : World) := (files w, dirs w).

(** An observation that does not see a given event added at the end of
    the trace. *)
Definition tolerates {X} (obs : World -> X) (e : Event) : Prop :=
  forall w, obs (with_trace (trace w ++ [e]) w) = obs w.

(** An observation that does not see the files and directories. *)
Definition disk_blind {X} (obs : World -> X) : Prop :=
  forall w f d, obs (with_files f (with_dirs d w)) = obs w.

(* ===================================================================== *)
(** ** The cache check as a function of the world                         *)
(* ===================================================================== *)

(** The context [executePluginHook] returns in a given world. *)
Definition hook_result (w : World) (hook : PluginHook) (context : PluginContext)
    : PluginContext :=
  match pluginManager w with
  | Some pm => snd (fst (executeHook (requireModule w) pm hook context))
  | None => context
  end.

Section Decision.

Variable config : Config.
Variable md5 : string -> string.
Variable JSON_parse : string -> Outcome (option CacheData).

(** The environment override, when it is set and names something that
    exists. *)
Definition env_stub_dir (w : World) : list string :=
  match env_or (env w !! "TYPESHED_PATH") (env w !! "MYPY_CONFIG_FILE_PATH") with
  | Some p => if String.eqb p "" then [] else if path_exists w p then [p] else []
  | None => []
  end.

(** What [findStubDirectories] returns. *)
Definition stub_dirs (w : World) : list string :=
  List.filter (path_exists w) (potentialLocations config) ++ env_stub_dir w.

(** What the scan of [needsRegeneration] collects. *)
Definition scanned_check (w : World) (stubDirs : list string) : list (string * Z) :=
  flat_map (fun dir =>
              match trees w !! dir with
              | Some (true, es) => fst (findStubFiles_check dir es)
              | _ => []
              end) stubDirs.

(** What the scan of [updateCache] collects. *)
Definition scanned_update (w : World) (stubDirs : list string) : list (string * Z) :=
  flat_map (fun dir =>
              match trees w !! dir with
              | Some (true, es) => fst (findStubFiles_update dir es)
              | _ => []
              end) stubDirs.

(** The compatibility script is there and newer than the cache. *)
Definition compat_newer (w : World) (c : CacheData) : bool :=
  if path_exists w (versionCompatPath config) then
    match files w !! versionCompatPath config with
    | Some f => date_lt (lastGenerated c) (mtime f)
    | None => true
    end
  else false.

(** The cache names a version and the configured executable reports
    another one. *)
Definition version_changed (w : World) (c : CacheData) : bool :=
  if truthy (pythonVersion c) then
    match versionOf w (pythonExecutable config) with
    | Done v => negb (strict_eq_str (pythonVersion c) (raw v))
    | Thrown _ => false
    end
  else false.

(** The cache has no stub fingerprint, or stub files are found and
    their fingerprint is not the cached one. *)
Definition stubs_changed (w : World) (c : CacheData) : bool :=
  if truthy (stubFilesHash c) then
    let stubFiles := scanned_check w (stub_dirs w) in
    if (0 <? length stubFiles)%nat
    then negb (strict_eq_str (stubFilesHash c) (stubs_fingerprint md5 stubFiles))
    else false
  else true.

(** The compatibility script is there and its hash is not the cached
    one. *)
Definition compat_changed (w : World) (c : CacheData) : bool :=
  if path_exists w (versionCompatPath config) then
    match files w !! versionCompatPath config with
    | Some f => negb (strict_eq_str (versionCompatHash c) (md5 (content f)))
    | None => true
    end
  else false.

(** The context that comes back from the PRE_GENERATION hook. *)
Definition preGeneration_result (w : World) (c : CacheData) : PluginContext :=
  hook_result w PRE_GENERATION (preGeneration_context config c).

(** The plugins ask for a regeneration, or leave a context without
    [metadata]. *)
Definition plugins_force (w : World) (c : CacheData) : bool :=
  match metadata (preGeneration_result w c) with
  | Some md =>
      match meta_forceRegeneration md with
      | Some true => true
      | _ => false
      end
  | None => true
  end.

(** The stub fingerprint [updateCache] records: empty when no stub file
    is found. *)
Definition recorded_fingerprint (w : World) : string :=
  let stubFiles := scanned_update w (stub_dirs w) in
  if (0 <? length stubFiles)%nat then stubs_fingerprint md5 stubFiles else "".

(** The record [updateCache] writes for a generated text and its Python
    version; there is none when the script, or a compatibility script
    that exists, cannot be read. *)
Definition cache_record (w : World) (output : string) (ver : option string)
    : option CacheData :=
  match files w !! pythonScript config with
  | None => None
  | Some script =>
      match (if path_exists w (versionCompatPath config)
             then option_map (fun f => md5 (content f))
                    (files w !! versionCompatPath config)
             else Some "") with
      | None => None
      | Some compatHash =>
          Some {| lastGenerated := Some (now w);
                  scriptHash := JStr (md5 (content script));
                  outputHash := JStr (md5 output);
                  stubFilesHash := JStr (recorded_fingerprint w);
                  versionCompatHash := JStr compatHash;
                  pythonVersion := match ver with
                                   | Some v => JStr v
                                   | None => JNull
                                   end |}
      end
  end.

(** The answer of [needsRegeneration], check by check. *)
Definition regeneration_needed (w : World) : bool :=
  if forceRegeneration config then true else
  if negb (path_exists w (cacheFile config)) then true else
  match files w !! cacheFile config with
  | None => true
  | Some cache =>
    match JSON_parse (content cache) with
    | Thrown _ => true
    | Done parsed =>
      if negb (path_exists w (pythonScript config)) then true else
      match files w !! pythonScript config, parsed with
      | Some script, Some c =>
          if date_lt (lastGenerated c) (mtime script) then true else
          if compat_newer w c then true else
          if version_changed w c then true else
          if negb (path_exists w (outputFile config)) then true else
          if stubs_changed w c then true else
          if negb (strict_eq_str (scriptHash c) (md5 (content script))) then true else
          if compat_changed w c then true else
          plugins_force w c
      | _, _ => true
      end
    end
  end.

End Decision.

(** There is no cache file. *)
Definition cache_missing (config : Config) (w : World) : Prop :=
  path_exists w (cacheFile config) = false.

(** There is a cache file, and it cannot be read or its text is not
    well-formed JSON. *)
Definition cache_corrupt (config : Config)
    (JSON_parse : string -> Outcome (option CacheData)) (w : World) : Prop :=
  path_exists w (cacheFile config) = true
  /\ match files w !! cacheFile config with
     | Some f => exists e, JSON_parse (content f) = Thrown e
     | None => True
     end.


Section Provenance.

Variable config : Config.


End Provenance.

(* ===================================================================== *)
(** ** Runs of the script                                                 *)
(* ===================================================================== *)

Section RunVocabulary.

Variable config : Config.
Variable md5 : string -> string.
Variable JSON_parse : string -> Outcome (option CacheData).
Variable JSON_stringify : CacheData -> string.

(** The world in which [main] calls [needsRegeneration]. *)
Definition at_cache_check (w : World) : World :=
  snd (setupPlugins config (snd (logPerf config "Starting type generation" w))).

(** The world in which that call returns. *)
Definition after_cache_check (w : World) : World :=
  snd (needsRegeneration config md5 JSON_parse (at_cache_check w)).

(** The cache check of the run that starts in [w] concludes that no
    regeneration is needed. *)
Definition cache_hit (w : World) : Prop :=
  fst (needsRegeneration config md5 JSON_parse (at_cache_check w)) = Done false.

(** The world in which [generateTypes] resolves, and the one in which
    [writeOutput] returns, for the run that starts in [w]. *)
Definition after_generation (w : World) : World :=
  snd (generateTypes config (after_cache_check w)).

Definition after_output (w : World) (g : Generated) : World :=
  snd (writeOutput config (output g) (after_generation w)).

(** The run that starts in [w] regenerates, and every step of the
    generation succeeds: the generator resolves with [g], the output
    file is written, the cache is updated. *)
Definition generation_succeeds (w : World) (g : Generated) : Prop :=
  fst (needsRegeneration config md5 JSON_parse (at_cache_check w)) = Done true
  /\ fst (generateTypes config (after_cache_check w)) = Done g
  /\ fst (writeOutput config (output g) (after_generation w)) = Done true
  /\ fst (updateCache config md5 JSON_stringify (output g) (generatedVersion g)
            (after_output w g)) = Done true.


End RunVocabulary.






(* ===================================================================== *)
(** ** Two consecutive runs                                               *)
(* ===================================================================== *)

(** The next start of the script on the same machine, with nothing
    changed in between: a new process, at time [t]. *)
Definition restart (t : Z) (w : World) : World :=
  {| files := files w; dirs := dirs w; trees := trees w; writable := writable w;
     env := env w; now := t; platform_win32 := platform_win32 w;
     username := username w; versionOf := versionOf w; which := which w;
     python := python w; discoveredPlugins := discoveredPlugins w;
     requireModule := requireModule w; pluginManager := None; trace := [] |}.

(** Every directory below the entries can be read. *)
Fixpoint readable_entries (es : Dirents) : bool :=
  match es with
  | DNil => true
  | DCons (FileEntry _ _) rest => readable_entries rest
  | DCons (DirEntry _ r sub) rest => r && readable_entries sub && readable_entries rest
  end.

(** Every directory below the stub directories can be read. *)
Definition stub_trees_readable (w : World) (stubDirs : list string) : bool :=
  forallb (fun dir => match trees w !! dir with
                      | Some (_, es) => readable_entries es
                      | None => true
                      end) stubDirs.

(** The five paths of the configuration name five different files. *)
Definition distinct_paths (config : Config) : Prop :=
  NoDup [pythonScript config; versionCompatPath config; outputFile config;
         cacheFile config; tempOutputFile config].

(** The file at [p], if there is one, is not dated after the start of the
    run. *)
Definition not_newer (w : World) (p : string) : Prop :=
  forall f, files w !! p = Some f -> mtime f <= now w.

(** What a computation that writes other files leaves of the world: the
    file at [p] and everything the script reads but does not write; and
    the same with the plain directories. *)
Definition file_at (p : string) (w : World) := (files w !! p, surroundings w).

Definition disk_at (p : string) (w : World) := (files w !! p, dirs w, surroundings w).

Section TwoRuns.

Variable config : Config.
Variable md5 : string -> string.
Variable JSON_parse : string -> Outcome (option CacheData).
Variable JSON_stringify : CacheData -> string.

(** The world the run that starts in [w] ends in. *)
Definition first_run_end (w : World) : World :=
  snd (main config md5 JSON_parse JSON_stringify w).

(** The world the next run starts in, at time [t]. *)
Definition second_run_start (t : Z) (w : World) : World := restart t (first_run_end w).

Definition second_run_end (t : Z) (w : World) : World :=
  snd (main config md5 JSON_parse JSON_stringify (second_run_start t w)).

(** The record the first run writes to the cache file. *)
Definition written_record (w : World) (g : Generated) : option CacheData :=
  cache_record config md5 (after_output config md5 JSON_parse w g) (output g)
    (generatedVersion g).

End TwoRuns.

(* ===================================================================== *)
(** ** The plugin map read back                                           *)
(* ===================================================================== *)

(** [Map.prototype.get] and [Map.prototype.has] *)
Fixpoint Map_get {V} (k : string) (m : list (string * V)) : option V :=
  match m with
  | [] => None
  | (k', v) :: m' => if String.eqb k' k then Some v else Map_get k m'
  end.

Definition Map_has {V} (k : string) (m : list (string * V)) : bool :=
  match Map_get k m with
  | Some _ => true
  | None => false
  end.

(** [getPlugin(name)] and [hasPlugin(name)] *)
Definition getPlugin (pm : PluginManager) (plugin_name : string) : option Plugin :=
  Map_get plugin_name (plugins pm).

Definition hasPlugin (pm : PluginManager) (plugin_name : string) : bool :=
  Map_has plugin_name (plugins pm).



(** The entries of a list of map entries that bear a given name. *)
Definition named (n : string) (entries : list (string * Plugin)) : list (string * Plugin) :=
  List.filter (fun entry => String.eqb (fst entry) n) entries.

(** A handler that only looks: on the given hook it leaves the context
    object it is handed as it was, and returns nothing, returns that same
    context, or throws. *)
Definition observes (p : Plugin) (hook : PluginHook) : Prop :=
  forall c, fst (onHook p hook c) = c
            /\ match snd (onHook p hook c) with
               | Returns (Some r) => r = c
               | _ => True
               end.

(* ===================================================================== *)
(** ** The search for an interpreter, as a function of the world          *)
(* ===================================================================== *)

Section Candidates.

Variable config : Config.

(** What [checkPythonVersion] returns. *)
Definition currentVersion (w : World) : option PyVersion :=
  match versionOf w (pythonExecutable config) with
  | Done v => Some {| info := v; isSupported := version_in_range config v |}
  | Thrown _ => None
  end.

(** [currentVersion?.isSupported] *)
Definition configured_supported (w : World) : bool :=
  match currentVersion w with
  | Some v => isSupported v
  | None => false
  end.

(** What the probe of one candidate adds to [possibleVersions]. *)
Definition probed (w : World) (execPath : string) : list (string * PyVersion) :=
  match versionOf w execPath with
  | Done v =>
      if version_in_range config v
      then [(execPath, {| info := v; isSupported := true |})]
      else []
  | Thrown _ => []
  end.

(** The candidates found through [which] (macOS and Linux). *)
Definition found_on_path (w : World) (cands : list string) : list (string * PyVersion) :=
  flat_map (fun executable =>
              match which w executable with
              | Some execPath => if String.eqb execPath "" then [] else probed w execPath
              | None => []
              end) cands.

(** The candidates found among the usual installation paths (Windows). *)
Definition found_installed (w : World) (cands : list string) : list (string * PyVersion) :=
  flat_map (fun execPath => if path_exists w execPath then probed w execPath else []) cands.

(** [localAppData] *)
Definition localAppData_of (w : World) : string :=
  let fromUser :=
    match username w with
    | Done u => "C:\Users\" +:+ u +:+ "\AppData\Local"
    | Thrown _ => "C:\Users\Default\AppData\Local"
    end in
  match env w !! "LOCALAPPDATA" with
  | Some s => if String.eqb s "" then fromUser else s
  | None => fromUser
  end.

(** [possibleVersions] before it is sorted. *)
Definition possibleVersions (w : World) : list (string * PyVersion) :=
  if platform_win32 w then
    found_installed w
      (candidatePaths (env_default (env w !! "ProgramFiles") "C:\Program Files")
         (env_default (env w !! "ProgramFiles(x86)") "C:\Program Files (x86)")
         (localAppData_of w))
  else found_on_path w candidateExecutables.

End Candidates.

(** Looking for an executable with [which]. *)
Definition is_which (e : Event) : bool :=
  match e with
  | EWhich _ => true
  | _ => false
  end.

(** Removing a file. *)
Definition is_unlink (e : Event) : bool :=
  match e with
  | EUnlink _ => true
  | _ => false
  end.

(* ===================================================================== *)
(** ** Writing the results, as functions of the world                     *)
(* ===================================================================== *)

Section Outcomes.

Variable config : Config.
Variable md5 : string -> string.

(** The output directory exists or can be made, and the output file can
    be written. *)
Definition can_write_output (w : World) : bool :=
  (path_exists w (outputDir config) || writable w (outputDir config))
  && writable w (outputFile config).

(** The record can be computed and the cache file can be written. *)
Definition can_update_cache (w : World) (output : string) (ver : option string) : bool :=
  match cache_record config md5 w output ver with
  | Some _ => writable w (cacheFile config)
  | None => false
  end.

End Outcomes.

(* ===================================================================== *)
(** ** The configuration read from the command line and the environment   *)
(* ===================================================================== *)

(** [l.indexOf(x)]; [None] is [-1]. *)
Fixpoint indexOf (l : list string) (x : string) : option nat :=
  match l with
  | [] => None
  | y :: rest => if String.eqb y x then Some O else option_map S (indexOf rest x)
  end.

Section CommandLine.

(** [process.argv] and [process.env] *)
Variable argv : list string.
Variable processEnv : gmap string string.

(** [path.resolve(process.cwd(), p)] *)
Variable resolve_cwd : string -> string.

(** [process.argv.includes(x)] *)
Definition argv_includes (x : string) : bool := existsb (String.eqb x) argv.

(** The argument that follows an option:
    [i !== -1 && process.argv.length > i + 1] and then
    [process.argv[i + 1]], for [i = process.argv.indexOf(flag)]. *)
Definition argument_after (flag : string) : option string :=
  match indexOf argv flag with
  | Some i => if (i + 1 <? length argv)%nat then argv !! (i + 1)%nat else None
  | None => None
  end.

(** [process.env[k] === v] *)
Definition env_is (k v : string) : bool := bool_decide (processEnv !! k = Some v).

(** [config.outputFile] after the override from the command line, for
    the default resolved from the script's directory. *)
Definition cli_outputFile (default : string) : string :=
  match argument_after "--output" with
  | Some p => resolve_cwd p
  | None => default
  end.

(** [config.pythonExecutable] after the override from the command line. *)
Definition cli_pythonExecutable : string :=
  match argument_after "--python" with
  | Some p => p
  | None => env_default (processEnv !! "PYTHON_EXECUTABLE") "python3"
  end.

(** [config.forceRegeneration] *)
Definition cli_forceRegeneration : bool := argv_includes "--force".

(** [config.debugMode] *)
Definition cli_debugMode : bool := env_is "DEBUG" "true" || env_is "DEBUG" "1".

(** [config.useTS49Features] after the override from the command line. *)
Definition cli_useTS49Features : bool :=
  if argv_includes "--no-ts49-features" then false
  else if argv_includes "--ts49-features" then true
  else negb (env_is "USE_TS_49_FEATURES" "false")
       && negb (env_is "USE_TS_49_FEATURES" "0").

(** [config.pluginsEnabled] *)
Definition cli_pluginsEnabled : bool :=
  negb (env_is "DISABLE_PLUGINS" "true" || env_is "DISABLE_PLUGINS" "1").

End CommandLine.

(* ===================================================================== *)
(** ** The generation, as a function of the world                         *)
(* ===================================================================== *)

(** The manager the script holds after a hook has been run. *)
Definition manager_after (w : World) (hook : PluginHook) (context : PluginContext)
    : option PluginManager :=
  match pluginManager w with
  | Some pm => Some (fst (fst (executeHook (requireModule w) pm hook context)))
  | None => None
  end.

Section Generation.

Variable config : Config.

(** What [findBestPythonExecutable] returns. *)
Definition best_interpreter (w : World) : string * option PyVersion :=
  if configured_supported config w
  then (pythonExecutable config, currentVersion config w)
  else match Array_sort (by_distance config) (possibleVersions config w) with
       | [] => (pythonExecutable config, currentVersion config w)
       | bestMatch :: _ => (fst bestMatch, Some (snd bestMatch))
       end.

(** [pythonInfo.version ? pythonInfo.version.raw : null] *)
Definition best_version (w : World) : option string :=
  option_map (fun v : PyVersion => raw (info v)) (snd (best_interpreter w)).

(** The environment the script prepares for the generator, before the
    plugins see it. *)
Definition host_env (w : World) : gmap string string :=
  let env1 := if debugMode config then <["DEBUG" := "1"]> (env w) else env w in
  let env2 :=
    <["USE_TS_49_FEATURES" := if useTS49Features config then "true" else "false"]> env1 in
  if (0 <? length (stub_dirs config w))%nat
  then <["TYPESHED_PATH" :=
           String.concat (if platform_win32 w then ";" else ":") (stub_dirs config w)]> env2
  else env2.

(** The context handed to the PRE_CONVERSION hook and the one that
    comes back. *)
Definition preConversion_context (w : World) : PluginContext :=
  {| metadata :=
       Some {| meta_forceRegeneration := None; meta_env := Some (host_env w);
               meta_cache := None; meta_pythonVersion := best_version w;
               meta_success := None; meta_regenerated := None;
               meta_errorOutput := None; meta_warnings := None;
               meta_info := [("pythonScript", pythonScript config)] |};
     tsOutput := Absent; error := None; pluginData := []; logger := None |}.

Definition preConversion_result (w : World) : PluginContext :=
  hook_result w PRE_CONVERSION (preConversion_context w).

(** The environment the generator is started with: what the plugins
    left in [metadata.env] laid over the host's.  There is none when the
    plugins return a context without [metadata]. *)
Definition child_env (w : World) : option (gmap string string) :=
  match metadata (preConversion_result w) with
  | Some md =>
      Some (match meta_env md with
            | Some e => e ∪ host_env w
            | None => host_env w
            end)
  | None => None
  end.

(** The context that comes back from the POST_CONVERSION hook. *)
Definition postConversion_result (w : World) (out : string) (chunks : list string)
    : PluginContext :=
  hook_result
    (with_pluginManager (manager_after w PRE_CONVERSION (preConversion_context w)) w)
    POST_CONVERSION
    (postConversion_context out (String.concat "" chunks)
       (warnings_of (String.concat "" chunks)) (best_version w)).

(** What [generateTypes] resolves with or rejects with. *)
Definition generation_outcome (w : World) : Outcome Generated :=
  match child_env w with
  | None =>
      Thrown "Failed to execute plugin hook: Cannot read properties of undefined (reading 'env')"
  | Some childEnv =>
      if writable w (tempOutputFile config) then
        match python w (fst (best_interpreter w)) (pythonScript config) childEnv with
        | StartFailed e => Thrown ("Failed to start Python process: " +:+ e)
        | Exited code out chunks =>
            if code =? 0 then
              Done {| output := or_output (tsOutput (postConversion_result w out chunks)) out;
                      errorData := String.concat "" chunks;
                      generatedVersion := best_version w |}
            else
              Thrown (("Python process exited with code " +:+ pretty code)
                      +:+ String "010"%char (String.concat "" chunks))
        end
      else
        Thrown ("Failed to execute plugin hook: EACCES: permission denied, open '"
                +:+ tempOutputFile config +:+ "'")
  end.

End Generation.

(** The start of the generator, when [generateTypes] gets that far. *)
Definition spawned (config : Config) (w : World) : list Event :=
  match child_env config w with
  | Some childEnv =>
      if writable w (tempOutputFile config)
      then [ESpawn (fst (best_interpreter config w)) (pythonScript config) childEnv]
      else []
  | None => []
  end.

(* ===================================================================== *)
(** ** Concrete plugins, definitions and worlds                           *)
(* ===================================================================== *)

Module Examples.

Definition ctx0 : PluginContext :=
  {| metadata := Some empty_metadata; tsOutput := Absent; error := None;
     pluginData := []; logger := None |}.

(** [onHook(hook, context) { return context; }] *)
Definition identity_plugin : Plugin :=
  {| initialize_plugin := fun _ => Done tt;
     onHook := fun _ c => (c, Returns (Some c));
     cleanup_plugin := None |}.

(** [onHook(hook, context) { throw new Error('boom'); }] *)
Definition throwing_plugin : Plugin :=
  {| initialize_plugin := fun _ => Done tt;
     onHook := fun _ c => (c, Throws "boom");
     cleanup_plugin := None |}.


(** [onHook(hook, context) { context.pluginData[tag] = hook; return context; }]:
    leaves a mark in the shared context, so that the order of the
    handlers can be read off the result. *)
Definition marking_plugin (tag : string) : Plugin :=
  {| initialize_plugin := fun _ => Done tt;
     onHook := fun h c =>
       let c' := {| metadata := metadata c; tsOutput := tsOutput c; error := error c;
                    pluginData := pluginData c ++ [(tag, hook_name h)];
                    logger := logger c |} in
       (c', Returns (Some c'));
     cleanup_plugin := None |}.

(** Modules are named after the mark their plugin leaves; the module
    [throws] holds the plugin that always throws. *)
Definition require_marking (m : string) : Outcome Plugin :=
  if String.eqb m "throws" then Done throwing_plugin else Done (marking_plugin m).

Definition def (n m : string) (prio : option Z) : PluginDefinition :=
  {| name := n; description := ""; version := "1.0.0"; module_ref := m;
     priority := prio; enabled := None |}.



Definition manager_of (entries : list (string * Plugin)) : PluginManager :=
  {| pluginDefs := []; plugins := entries; pluginConfigs := []; initialized := true |}.

(** *** A stand-in for the Node built-ins

    A hash that keeps its input, and a serialisation of cache records
    that can be read back: every value is written with a mark in front
    and, for strings and numbers, a mark at its end. *)

Definition md5 (s : string) : string := "md5:" +:+ s.

Fixpoint write_pos (p : positive) (k : string) : string :=
  match p with
  | xH => String "." k
  | xO q => String "0" (write_pos q k)
  | xI q => String "1" (write_pos q k)
  end.

Fixpoint read_pos (s : string) : option (positive * string) :=
  match s with
  | EmptyString => None
  | String c r =>
      if Ascii.eqb c "." then Some (xH, r)
      else if Ascii.eqb c "0" then
        match read_pos r with Some (q, k) => Some (xO q, k) | None => None end
      else if Ascii.eqb c "1" then
        match read_pos r with Some (q, k) => Some (xI q, k) | None => None end
      else None
  end.

Definition write_Z (z : Z) (k : string) : string :=
  match z with
  | Z0 => String "z" k
  | Zpos p => String "+" (write_pos p k)
  | Zneg p => String "-" (write_pos p k)
  end.

Definition read_Z (s : string) : option (Z * string) :=
  match s with
  | EmptyString => None
  | String c r =>
      if Ascii.eqb c "z" then Some (Z0, r)
      else if Ascii.eqb c "+" then
        match read_pos r with Some (p, k) => Some (Zpos p, k) | None => None end
      else if Ascii.eqb c "-" then
        match read_pos r with Some (p, k) => Some (Zneg p, k) | None => None end
      else None
  end.

Fixpoint write_string (s : string) (k : string) : string :=
  match s with
  | EmptyString => String "." k
  | String c r => String "c" (String c (write_string r k))
  end.

Fixpoint read_string (s : string) : option (string * string) :=
  match s with
  | EmptyString => None
  | String m r =>
      if Ascii.eqb m "." then Some (EmptyString, r)
      else
        match r with
        | EmptyString => None
        | String c r' =>
            match read_string r' with
            | Some (t, k) => Some (String c t, k)
            | None => None
            end
        end
  end.

Definition write_value (v : JsVal) (k : string) : string :=
  match v with
  | JUndefined => String "u" k
  | JNull => String "n" k
  | JBool true => String "t" k
  | JBool false => String "f" k
  | JNum z => String "#" (write_Z z k)
  | JStr s => String "s" (write_string s k)
  end.

Definition read_value (s : string) : option (JsVal * string) :=
  match s with
  | EmptyString => None
  | String c r =>
      if Ascii.eqb c "u" then Some (JUndefined, r)
      else if Ascii.eqb c "n" then Some (JNull, r)
      else if Ascii.eqb c "t" then Some (JBool true, r)
      else if Ascii.eqb c "f" then Some (JBool false, r)
      else if Ascii.eqb c "#" then
        match read_Z r with Some (z, k) => Some (JNum z, k) | None => None end
      else if Ascii.eqb c "s" then
        match read_string r with Some (t, k) => Some (JStr t, k) | None => None end
      else None
  end.

Definition write_date (d : option Z) (k : string) : string :=
  match d with
  | Some t => String "D" (write_Z t k)
  | None => String "I" k
  end.

Definition read_date (s : string) : option (option Z * string) :=
  match s with
  | EmptyString => None
  | String c r =>
      if Ascii.eqb c "I" then Some (None, r)
      else if Ascii.eqb c "D" then
        match read_Z r with Some (t, k) => Some (Some t, k) | None => None end
      else None
  end.

Definition JSON_stringify (c : CacheData) : string :=
  write_date (lastGenerated c)
    (write_value (scriptHash c)
       (write_value (outputHash c)
          (write_value (stubFilesHash c)
             (write_value (versionCompatHash c)
                (write_value (pythonVersion c) ""))))).

Definition JSON_parse (s : string) : Outcome (option CacheData) :=
  if String.eqb s "null" then Done None
  else
    match read_date s with
    | Some (d, s1) =>
      match read_value s1 with
      | Some (h1, s2) =>
        match read_value s2 with
        | Some (h2, s3) =>
          match read_value s3 with
          | Some (h3, s4) =>
            match read_value s4 with
            | Some (h4, s5) =>
              match read_value s5 with
              | Some (h5, EmptyString) =>
                  Done (Some {| lastGenerated := d; scriptHash := h1; outputHash := h2;
                                stubFilesHash := h3; versionCompatHash := h4;
                                pythonVersion := h5 |})
              | _ => Thrown "Unexpected token"
              end
            | None => Thrown "Unexpected token"
            end
          | None => Thrown "Unexpected token"
          end
        | None => Thrown "Unexpected token"
        end
      | None => Thrown "Unexpected token"
      end
    | None => Thrown "Unexpected token"
    end.

(** *** A project *)

Definition cfg : Config :=
  {| pythonScript := "/proj/src/python/generate_types.py";
     versionCompatPath := "/proj/src/python/version_compat.py";
     outputFile := "/proj/src/types/featuretools.ts";
     outputDir := "/proj/src/types";
     cacheFile := "/proj/.type-cache.json";
     tempOutputFile := "/tmp/featuretools-types-1.ts";
     debugMode := false;
     pythonExecutable := "python3";
     forceRegeneration := false;
     useTS49Features := true;
     pythonMinVersion := (3, 6);
     pythonMaxVersion := (3, 11);
     pythonPreferredVersion := (3, 8);
     pluginsEnabled := true;
     projectStubs := "/proj/stubs";
     typesStubs := "/proj/node_modules/@types";
     userStubs := "/home/dev/.local/lib/python3/stubs" |}.

Definition project_stubs : Dirents :=
  DCons (FileEntry "entityset.pyi" 500)
    (DCons (DirEntry "featuretools" true
              (DCons (FileEntry "dfs.pyi" 600)
                 (DCons (FileEntry "README.md" 1) DNil)))
       DNil).

Definition typeshed : Dirents := DCons (FileEntry "builtins.pyi" 100) DNil.

Definition python_3_8 : VersionInfo :=
  {| major := 3; minor := 8; micro := 10; raw := "3.8.10" |}.

(** The project before the first run: the generator script and its
    compatibility module, two stub directories, one of them named by
    the environment, Python 3.8 as [python3], one plugin, no cache and
    no output yet. *)
Definition fresh : World :=
  {| files := {[ "/proj/src/python/generate_types.py" :=
                   {| content := "import featuretools"; mtime := 1000 |};
                 "/proj/src/python/version_compat.py" :=
                   {| content := "import sys"; mtime := 900 |} ]};
     dirs := {[ "/proj/src/types" ]};
     trees := {[ "/proj/stubs" := (true, project_stubs);
                 "/typeshed" := (true, typeshed) ]};
     writable := fun _ => true;
     env := {[ "TYPESHED_PATH" := "/typeshed" ]};
     now := 2000;
     platform_win32 := false;
     username := Done "dev";
     versionOf := fun exe => if String.eqb exe "python3" then Done python_3_8
                             else Thrown "not found";
     which := fun _ => None;
     python := fun _ _ _ => Exited 0 "export interface EntitySet {}" ["[PERF] done"];
     discoveredPlugins := Done [def "mark" "mark" None];
     requireModule := require_marking;
     pluginManager := None;
     trace := [] |}.


Definition run (w : World) : Outcome Z * World := main cfg md5 JSON_parse JSON_stringify w.

(** The project after one run, at the next start. *)
Definition cached : World := restart 3000 (snd (run fresh)).

(** The project after one run, with a cache file cut short. *)
Definition corrupted : World :=
  with_files (<["/proj/.type-cache.json" :=
                  {| content := "{ lastGenerated: 2"; mtime := 2500 |}]> (files cached))
    cached.

(** *** A project with many stub files *)


Definition with_trees (t : gmap string (bool * Dirents)) (w : World) : World :=
  {| files := files w; dirs := dirs w; trees := t; writable := writable w;
     env := env w; now := now w; platform_win32 := platform_win32 w;
     username := username w; versionOf := versionOf w; which := which w;
     python := python w; discoveredPlugins := discoveredPlugins w;
     requireModule := requireModule w; pluginManager := pluginManager w;
     trace := trace w |}.





(** The small project after one run, with all its stub files removed. *)
Definition stubs_removed : World :=
  with_trees {[ "/proj/stubs" := (true, DNil); "/typeshed" := (true, DNil) ]} cached.




(** A project whose stub directory holds no stub file. *)
Definition no_stub_files : World :=
  with_trees {[ "/proj/stubs" := (true, DCons (FileEntry "README.md" 1) DNil) ]} fresh.

End Examples.

(* ===================================================================== *)
(** ** Further worlds                                                     *)
(* ===================================================================== *)

Module Scenarios.

Definition python_2_7 : VersionInfo :=
  {| major := 2; minor := 7; micro := 18; raw := "2.7.18" |}.

Definition python_3_9 : VersionInfo :=
  {| major := 3; minor := 9; micro := 1; raw := "3.9.1" |}.

Definition python_3_11 : VersionInfo :=
  {| major := 3; minor := 11; micro := 4; raw := "3.11.4" |}.

(** A machine on which [python3] is Python 2.7 and two newer
    interpreters are on the path. *)
Definition searching : World :=
  {| files := files Examples.fresh; dirs := dirs Examples.fresh;
     trees := trees Examples.fresh; writable := writable Examples.fresh;
     env := env Examples.fresh; now := now Examples.fresh;
     platform_win32 := false; username := Done "dev";
     versionOf := fun exe =>
       if String.eqb exe "python3" then Done python_2_7
       else if String.eqb exe "/usr/bin/python3.11" then Done python_3_11
       else if String.eqb exe "/usr/bin/python3.9" then Done python_3_9
       else Thrown "not found";
     which := fun exe =>
       if String.eqb exe "python3.11" then Some "/usr/bin/python3.11"
       else if String.eqb exe "python3.9" then Some "/usr/bin/python3.9"
       else None;
     python := python Examples.fresh;
     discoveredPlugins := discoveredPlugins Examples.fresh;
     requireModule := requireModule Examples.fresh;
     pluginManager := None; trace := [] |}.

Definition with_env (e : gmap string string) (w : World) : World :=
  {| files := files w; dirs := dirs w; trees := trees w; writable := writable w;
     env := e; now := now w; platform_win32 := platform_win32 w;
     username := username w; versionOf := versionOf w; which := which w;
     python := python w; discoveredPlugins := discoveredPlugins w;
     requireModule := requireModule w; pluginManager := pluginManager w;
     trace := trace w |}.

(** [TYPESHED_PATH] names a directory that is not there,
    [MYPY_CONFIG_FILE_PATH] one that is. *)
Definition typeshed_missing : World :=
  with_env {[ "TYPESHED_PATH" := "/missing"; "MYPY_CONFIG_FILE_PATH" := "/typeshed" ]}
    Examples.fresh.

End Scenarios.

Module Failures.

Definition with_writable (f : string -> bool) (w : World) : World :=
  {| files := files w; dirs := dirs w; trees := trees w; writable := f;
     env := env w; now := now w; platform_win32 := platform_win32 w;
     username := username w; versionOf := versionOf w; which := which w;
     python := python w; discoveredPlugins := discoveredPlugins w;
     requireModule := requireModule w; pluginManager := pluginManager w;
     trace := trace w |}.

Definition with_python (f : string -> string -> gmap string string -> ProcResult)
    (w : World) : World :=
  {| files := files w; dirs := dirs w; trees := trees w; writable := writable w;
     env := env w; now := now w; platform_win32 := platform_win32 w;
     username := username w; versionOf := versionOf w; which := which w;
     python := f; discoveredPlugins := discoveredPlugins w;
     requireModule := requireModule w; pluginManager := pluginManager w;
     trace := trace w |}.


(** The example project with a generator that fails. *)
Definition failing_generator : World :=
  with_python (fun _ _ _ => Exited 2 "partial" ["Traceback"]) Examples.fresh.

(** The example project without its generator script. *)
Definition script_missing : World :=
  with_files (delete "/proj/src/python/generate_types.py" (files Examples.fresh))
    Examples.fresh.


(** [onHook(hook, context) { return { config: context.config }; }]:
    a plugin that answers with a context of its own, without
    [metadata]. *)
Definition bare_plugin : Plugin :=
  {| initialize_plugin := fun _ => Done tt;
     onHook := fun _ c =>
       (c, Returns (Some {| metadata := None; tsOutput := Absent; error := None;
                            pluginData := []; logger := None |}));
     cleanup_plugin := None |}.

(** The example project with one of these plugins loaded. *)
Definition with_plugin (n : string) (p : Plugin) : World :=
  with_pluginManager (Some (Examples.manager_of [(n, p)])) Examples.fresh.

(** The example project with a temporary file that cannot be opened. *)
Definition no_temporary_file : World :=
  with_writable (fun p => negb (String.eqb p "/tmp/featuretools-types-1.ts"))
    Examples.fresh.

End Failures.

(* ===================================================================== *)
(** ** Properties of the plugin host                                      *)
(* ===================================================================== *)

Section PluginHostFacts.

Variable req : string -> Outcome Plugin.

Lemma hook_calls_app (a b : list Event) :
  hook_calls (a ++ b) = hook_calls a ++ hook_calls b.
Proof. unfold hook_calls. apply omap_app. Qed.


(** Every entry of the plugin map has its handler called, once, in the
    order of the map. *)
Lemma executeHook_loop_calls hook (l : list (string * Plugin)) c :
  hook_calls (snd (executeHook_loop hook l c)) = map fst l.
Proof.
  revert c. induction l as [|[n p] l IH]; intros c; simpl; [done|].
  destruct (onHook p hook c) as [after [[r|]|m]]; simpl;
    match goal with
    | |- context [executeHook_loop ?h ?l ?x] =>
        specialize (IH x); destruct (executeHook_loop h l x) eqn:?
    end; simpl in *; by rewrite IH.
Qed.

Lemma initialize_loop_calls (l : list PluginDefinition) pm :
  hook_calls (snd (initialize_loop req l pm)) = [].
Proof.
  revert pm. induction l as [|d l IH]; intros pm; simpl; [done|].
  destruct (enabled d) as [[|]|]; try destruct (loadPlugin req d);
    match goal with
    | |- context [initialize_loop req l ?x] =>
        specialize (IH x); destruct (initialize_loop req l x) eqn:?
    end; simpl in *; by rewrite IH.
Qed.

Lemma initialize_calls pm : hook_calls (snd (initialize req pm)) = [].
Proof.
  unfold initialize. destruct (initialized pm); [done|].
  pose proof (initialize_loop_calls (Array_sort by_priority (pluginDefs pm)) pm) as H.
  by destruct (initialize_loop req _ pm).
Qed.

(** What [executeHook] computes, in one equation. *)
Lemma executeHook_unfold pm hook context :
  executeHook req pm hook context =
  let r := if initialized pm then (pm, []) else initialize req pm in
  let l := executeHook_loop hook (plugins (fst r)) (set_logger HostLogger context) in
  (fst r, fst l, snd r ++ snd l).
Proof.
  unfold executeHook.
  destruct (if initialized pm then (pm, []) else initialize req pm) as [pm1 evs1]; simpl.
  by destruct (executeHook_loop hook (plugins pm1) _).
Qed.

Lemma executeHook_calls pm hook context :
  hook_calls (snd (executeHook req pm hook context))
  = map fst (plugins (fst (fst (executeHook req pm hook context)))).
Proof.
  rewrite executeHook_unfold; simpl.
  rewrite hook_calls_app, executeHook_loop_calls.
  destruct (initialized pm); simpl; [done|].
  by rewrite initialize_calls.
Qed.

End PluginHostFacts.



Section LoggerFacts.

Variable req : string -> Outcome Plugin.



End LoggerFacts.




Section OrderFacts.

Variable req : string -> Outcome Plugin.


Lemma sort_insert_perm {A} (cmp : A -> A -> Z) x (l : list A) :
  Permutation (sort_insert cmp x l) (x :: l).
Proof.
  induction l as [|y l IH]; simpl; [done|].
  destruct (cmp x y <=? 0); [done|].
  rewrite IH. apply perm_swap.
Qed.

Lemma Array_sort_perm {A} (cmp : A -> A -> Z) (l : list A) :
  Permutation (Array_sort cmp l) l.
Proof.
  induction l as [|x l IH]; simpl; [done|].
  rewrite sort_insert_perm. by constructor.
Qed.



Lemma loaded_names (l : list PluginDefinition) :
  map fst (loaded req l) = map name (filter (fun d => runs req d = true) l).
Proof.
  induction l as [|d l IH]; simpl; [done|].
  rewrite map_app, IH, filter_cons. unfold runs, loads.
  destruct (is_disabled d); simpl; [try case_decide; done|].
  destruct (loadPlugin req d); simpl; try case_decide; done.
Qed.


End OrderFacts.




(* ===================================================================== *)
(** ** What the host code leaves untouched                                *)
(* ===================================================================== *)

Lemma with_trace_id w : with_trace (trace w) w = w.
Proof. by destruct w. Qed.

Lemma with_pluginManager_id w : with_pluginManager (pluginManager w) w = w.
Proof. by destruct w. Qed.

(** Induction along the scan of a directory tree. *)
Lemma Dirents_tree_ind (Q : Dirents -> Prop) :
  Q DNil ->
  (forall n m rest, Q rest -> Q (DCons (FileEntry n m) rest)) ->
  (forall n r sub rest, Q sub -> Q rest -> Q (DCons (DirEntry n r sub) rest)) ->
  forall es, Q es.
Proof.
  intros Hnil Hfile Hdir.
  apply (Dirents_mut
           (fun d => match d with
                     | FileEntry _ _ => True
                     | DirEntry _ _ sub => Q sub
                     end) Q); try done.
  intros [n m|n r sub] Hd rest Hrest; [by apply Hfile|by apply Hdir].
Qed.

Lemma select_app sel (a b : list Event) :
  select sel (a ++ b) = select sel a ++ select sel b.
Proof. apply List.filter_app. Qed.

Lemma select_chatter sel (evs : list Event) :
  (forall e, is_chatter e = true -> sel e = false) ->
  forallb is_chatter evs = true -> select sel evs = [].
Proof.
  intros Hsel. induction evs as [|e evs IH]; simpl; [done|].
  intros [He Hevs]%andb_true_iff. by rewrite (Hsel e He), IH.
Qed.

Section Preservation.

Context {X : Type} (obs : World -> X).

Lemma preserves_ret {A} (a : A) : preserves obs (ret a).
Proof. by intros w. Qed.

Lemma preserves_throw {A} msg : preserves obs (@throw A msg).
Proof. by intros w. Qed.

Lemma preserves_gets {A} (f : World -> A) : preserves obs (gets f).
Proof. by intros w. Qed.

Lemma preserves_bind {A B} (m : M A) (k : A -> M B) :
  preserves obs m -> (forall a, preserves obs (k a)) -> preserves obs (bind m k).
Proof.
  intros Hm Hk w. unfold bind. specialize (Hm w).
  destruct (m w) as [[a|e] w1]; simpl in *; [|done].
  by rewrite Hk.
Qed.

Lemma preserves_try_catch {A} (m : M A) (h : string -> M A) :
  preserves obs m -> (forall e, preserves obs (h e)) -> preserves obs (try_catch m h).
Proof.
  intros Hm Hh w. unfold try_catch. specialize (Hm w).
  destruct (m w) as [[a|e] w1]; simpl in *; [done|].
  by rewrite Hh.
Qed.

Hypothesis obs_unobtrusive : unobtrusive obs.

Lemma unobtrusive_trace w evs :
  forallb is_chatter evs = true -> obs (with_trace (trace w ++ evs) w) = obs w.
Proof.
  intros H. rewrite <- (obs_unobtrusive w evs (pluginManager w) H).
  by destruct w.
Qed.

Lemma unobtrusive_manager w pm : obs (with_pluginManager pm w) = obs w.
Proof.
  rewrite <- (obs_unobtrusive w [] pm eq_refl).
  rewrite app_nil_r. by destruct w.
Qed.

Lemma preserves_emit e : is_chatter e = true -> preserves obs (emit e).
Proof.
  intros He w. unfold emit. simpl.
  apply unobtrusive_trace. simpl. by rewrite He.
Qed.

Lemma preserves_emit_all evs :
  forallb is_chatter evs = true -> preserves obs (emit_all evs).
Proof. intros He w. unfold emit_all. simpl. by apply unobtrusive_trace. Qed.

Lemma preserves_existsSync p : preserves obs (existsSync p).
Proof. apply preserves_gets. Qed.

Lemma preserves_readFileSync p : preserves obs (readFileSync p).
Proof.
  apply preserves_bind; [apply preserves_gets|].
  intros [f|]; [apply preserves_ret|apply preserves_throw].
Qed.

Lemma preserves_statSync_mtime p : preserves obs (statSync_mtime p).
Proof.
  apply preserves_bind; [apply preserves_gets|].
  intros [f|]; [apply preserves_ret|apply preserves_throw].
Qed.

End Preservation.

Section Chatter.

Variable req : string -> Outcome Plugin.

Lemma executeHook_loop_chatter hook (l : list (string * Plugin)) c :
  forallb is_chatter (snd (executeHook_loop hook l c)) = true.
Proof.
  revert c. induction l as [|[n p] l IH]; intros c; simpl; [done|].
  destruct (onHook p hook c) as [after [[r|]|m]];
    match goal with
    | |- context [executeHook_loop ?h ?k ?x] =>
        specialize (IH x); destruct (executeHook_loop h k x)
    end; simpl in *; done.
Qed.

Lemma initialize_loop_chatter (l : list PluginDefinition) pm :
  forallb is_chatter (snd (initialize_loop req l pm)) = true.
Proof.
  revert pm. induction l as [|d l IH]; intros pm; simpl; [done|].
  destruct (enabled d) as [[|]|]; try destruct (loadPlugin req d);
    match goal with
    | |- context [initialize_loop req ?k ?x] =>
        specialize (IH x); destruct (initialize_loop req k x)
    end; simpl in *; done.
Qed.

Lemma initialize_chatter pm : forallb is_chatter (snd (initialize req pm)) = true.
Proof.
  unfold initialize. destruct (initialized pm); [done|].
  pose proof (initialize_loop_chatter (Array_sort by_priority (pluginDefs pm)) pm).
  by destruct (initialize_loop req _ pm).
Qed.

Lemma executeHook_chatter pm hook context :
  forallb is_chatter (snd (executeHook req pm hook context)) = true.
Proof.
  rewrite executeHook_unfold. simpl. rewrite forallb_app.
  rewrite executeHook_loop_chatter, andb_true_r.
  destruct (initialized pm); [done|apply initialize_chatter].
Qed.

Lemma cleanup_loop_chatter (l : list (string * Plugin)) :
  forallb is_chatter (cleanup_loop l) = true.
Proof.
  induction l as [|[n p] l IH]; simpl; [done|].
  by destruct (cleanup_plugin p) as [[|]|].
Qed.

End Chatter.

Lemma tolerates_select sel e :
  sel e = false -> tolerates (fun w => select sel (trace w)) e.
Proof. intros He w. simpl. rewrite select_app. simpl. by rewrite He, app_nil_r. Qed.

Lemma unobtrusive_select sel :
  (forall e, is_chatter e = true -> sel e = false) ->
  unobtrusive (fun w => select sel (trace w)).
Proof.
  intros Hsel w evs pm Hevs. simpl.
  by rewrite select_app, (select_chatter sel evs Hsel Hevs), app_nil_r.
Qed.

Lemma unobtrusive_process : unobtrusive (fun w => select is_process (trace w)).
Proof. apply unobtrusive_select. by intros []. Qed.

Lemma unobtrusive_spawn : unobtrusive (fun w => select is_spawn (trace w)).
Proof. apply unobtrusive_select. by intros []. Qed.

Lemma unobtrusive_write : unobtrusive (fun w => select is_write (trace w)).
Proof. apply unobtrusive_select. by intros []. Qed.

Lemma unobtrusive_disk : unobtrusive disk.
Proof. by intros w evs pm _. Qed.

Lemma unobtrusive_surroundings : unobtrusive surroundings.
Proof. by intros w evs pm _. Qed.



Lemma disk_blind_select sel : disk_blind (fun w => select sel (trace w)).
Proof. by intros w f d. Qed.

Section PreservationOfHostCode.

Context {X : Type} (obs : World -> X).
Hypothesis obs_unobtrusive : unobtrusive obs.

Variable config : Config.
Variable md5 : string -> string.
Variable JSON_parse : string -> Outcome (option CacheData).

Lemma preserves_lift {A} (o : Outcome A) : preserves obs (lift o).
Proof. by intros w. Qed.

Lemma preserves_logPerf msg : preserves obs (logPerf config msg).
Proof.
  unfold logPerf. destruct (debugMode config);
    [by apply preserves_emit|apply preserves_ret].
Qed.

Lemma preserves_executePluginHook hook context :
  preserves obs (executePluginHook hook context).
Proof.
  intros w. unfold executePluginHook, bind, gets, try_catch, ret.
  destruct (pluginManager w) as [pm|]; [|done].
  pose proof (executeHook_chatter (requireModule w) pm hook context) as H.
  destruct (executeHook (requireModule w) pm hook context) as [[pm' result] evs].
  simpl in *.
  rewrite <- (obs_unobtrusive w evs (Some pm') H). by destruct w.
Qed.

Lemma preserves_setupPlugins : preserves obs (setupPlugins config).
Proof.
  unfold setupPlugins. destruct (pluginsEnabled config); simpl;
    [|apply preserves_logPerf].
  apply preserves_try_catch; [|by intros; apply preserves_emit].
  apply preserves_bind; [by intros w|]. intros defs.
  destruct (0 <? length defs)%nat; [|apply preserves_logPerf].
  apply preserves_bind; [|intros; apply preserves_logPerf].
  intros w.
  pose proof (initialize_chatter (requireModule w) (new_PluginManager defs)) as H.
  destruct (initialize (requireModule w) (new_PluginManager defs)) as [pm evs].
  simpl in *.
  rewrite <- (obs_unobtrusive w evs (Some pm) H). by destruct w.
Qed.

Lemma preserves_existing_locations locs :
  preserves obs (existing_locations config locs).
Proof.
  induction locs as [|d locs IH]; simpl; [apply preserves_ret|].
  apply preserves_bind; [apply preserves_gets|]. intros present.
  apply preserves_bind;
    [destruct present; [apply preserves_logPerf|apply preserves_ret]|].
  intros _. apply preserves_bind; [done|]. intros; apply preserves_ret.
Qed.

Lemma preserves_findStubDirectories : preserves obs (findStubDirectories config).
Proof.
  unfold findStubDirectories.
  apply preserves_bind; [apply preserves_existing_locations|]. intros stubDirs.
  apply preserves_bind; [apply preserves_gets|]. intros e.
  destruct (env_or _ _) as [p|]; [|apply preserves_ret].
  destruct (String.eqb p ""); [apply preserves_ret|].
  apply preserves_bind; [apply preserves_gets|]. intros [|]; [|apply preserves_ret].
  apply preserves_bind; [apply preserves_logPerf|]. intros; apply preserves_ret.
Qed.

Lemma preserves_collect_check dirs0 : preserves obs (collect_check dirs0).
Proof.
  induction dirs0 as [|d l IH]; simpl; [apply preserves_ret|].
  apply preserves_bind; [apply preserves_gets|]. intros listing.
  apply preserves_bind.
  - destruct listing as [[[|] es]|].
    + destruct (findStubFiles_check d es) as [found [e|]]; [|apply preserves_ret].
      apply preserves_bind; [by apply preserves_emit|]. intros; apply preserves_ret.
    + apply preserves_bind; [by apply preserves_emit|]. intros; apply preserves_ret.
    + apply preserves_bind; [by apply preserves_emit|]. intros; apply preserves_ret.
  - intros found. apply preserves_bind; [done|]. intros; apply preserves_ret.
Qed.

Lemma findStubFiles_update_chatter es :
  forall dir, forallb is_chatter (snd (findStubFiles_update dir es)) = true.
Proof.
  induction es as [|n m rest IH|n r sub rest IHsub IH] using Dirents_tree_ind;
    intros dir; simpl.
  - done.
  - specialize (IH dir). destruct (findStubFiles_update dir rest).
    by destruct (endsWith n ".pyi").
  - specialize (IH dir). specialize (IHsub (path_join dir n)).
    destruct r; simpl;
      destruct (findStubFiles_update dir rest);
      try destruct (findStubFiles_update (path_join dir n) sub);
      simpl in *; rewrite ?forallb_app; by rewrite ?IHsub, ?IH.
Qed.

Lemma preserves_collect_update dirs0 : preserves obs (collect_update dirs0).
Proof.
  induction dirs0 as [|d l IH]; simpl; [apply preserves_ret|].
  apply preserves_bind; [apply preserves_gets|]. intros listing.
  apply preserves_bind.
  - destruct listing as [[[|] es]|].
    + pose proof (findStubFiles_update_chatter es d).
      destruct (findStubFiles_update d es) as [found evs].
      apply preserves_bind; [by apply preserves_emit_all|]. intros; apply preserves_ret.
    + apply preserves_bind; [by apply preserves_emit|]. intros; apply preserves_ret.
    + apply preserves_bind; [by apply preserves_emit|]. intros; apply preserves_ret.
  - intros found. apply preserves_bind; [done|]. intros; apply preserves_ret.
Qed.

Lemma preserves_emit_tolerated e : tolerates obs e -> preserves obs (emit e).
Proof. intros He w. apply He. Qed.

End PreservationOfHostCode.

(** Walks through a computation built from the pieces above. *)
Ltac pres :=
  repeat (first
    [ assumption
    | apply unobtrusive_process
    | apply unobtrusive_spawn
    | apply unobtrusive_write
    | apply unobtrusive_disk
    | apply unobtrusive_surroundings
    | progress intros
    | match goal with
      | H : forall _, preserves _ _ |- _ => apply H
      | H : forall _ _ _, preserves _ _ |- _ => apply H
      end
    | apply preserves_ret
    | apply preserves_throw
    | apply preserves_gets
    | apply preserves_lift
    | apply preserves_existsSync
    | apply preserves_readFileSync
    | apply preserves_statSync_mtime
    | apply preserves_logPerf
    | apply preserves_executePluginHook
    | apply preserves_setupPlugins
    | apply preserves_findStubDirectories
    | apply preserves_collect_check
    | apply preserves_collect_update
    | apply preserves_bind
    | apply preserves_try_catch
    | apply preserves_emit; [|reflexivity]
    | apply preserves_emit_tolerated; solve [auto]
    | match goal with
      | |- preserves _ (match ?x with _ => _ end) => destruct x
      end ]).

Section PreservationOfWrites.

Context {X : Type} (obs : World -> X).
Hypothesis obs_unobtrusive : unobtrusive obs.

Variable config : Config.
Variable md5 : string -> string.
Variable JSON_stringify : CacheData -> string.

Lemma preserves_writeOutput_if data :
  preserves obs (mkdirSync (outputDir config)) ->
  preserves obs (writeFileSync (outputFile config) data) ->
  preserves obs (writeOutput config data).
Proof. intros Hmkdir Hwrite. unfold writeOutput. pres. Qed.

Lemma preserves_updateCache_if data ver :
  (forall text, preserves obs (writeFileSync (cacheFile config) text)) ->
  preserves obs (updateCache config md5 JSON_stringify data ver).
Proof.
  intros Hwrite. unfold updateCache.
  assert (preserves obs (new_cacheData config md5 data ver))
    by (unfold new_cacheData; pres).
  pres.
Qed.

End PreservationOfWrites.

Section PreservationOfEffects.

Context {X : Type} (obs : World -> X).
Hypothesis obs_unobtrusive : unobtrusive obs.

Variable config : Config.
Variable md5 : string -> string.
Variable JSON_parse : string -> Outcome (option CacheData).

Hypothesis tolerates_probe : forall exe, tolerates obs (EVersionProbe exe).

Lemma preserves_checkPythonVersion : preserves obs (checkPythonVersion config).
Proof.
  unfold checkPythonVersion.
  apply preserves_bind; [by apply preserves_emit_tolerated|]. pres.
Qed.

Lemma preserves_needsRegeneration :
  preserves obs (needsRegeneration config md5 JSON_parse).
Proof.
  unfold needsRegeneration.
  pose proof preserves_checkPythonVersion. pres.
Qed.

Lemma preserves_probe_candidate p : preserves obs (probe_candidate config p).
Proof.
  unfold probe_candidate.
  apply preserves_bind; [by apply preserves_emit_tolerated|]. pres.
Qed.

Lemma preserves_try_candidatePaths l : preserves obs (try_candidatePaths config l).
Proof.
  pose proof preserves_probe_candidate.
  induction l as [|p l IH]; simpl; pres.
Qed.

Hypothesis tolerates_which : forall exe, tolerates obs (EWhich exe).

Lemma preserves_try_candidateExecutables l :
  preserves obs (try_candidateExecutables config l).
Proof.
  pose proof preserves_probe_candidate.
  induction l as [|p l IH]; simpl; [pres|].
  apply preserves_bind; [by apply preserves_emit_tolerated|]. pres.
Qed.

Lemma preserves_findBestPythonExecutable :
  preserves obs (findBestPythonExecutable config).
Proof.
  unfold findBestPythonExecutable.
  pose proof preserves_checkPythonVersion.
  pose proof preserves_try_candidatePaths.
  pose proof preserves_try_candidateExecutables.
  pres.
Qed.

Lemma preserves_log_perf_chunks chunks : preserves obs (log_perf_chunks config chunks).
Proof. induction chunks as [|c l IH]; simpl; pres. Qed.

Lemma preserves_postConversion errorData warnings ver :
  preserves obs (postConversion config errorData warnings ver).
Proof. unfold postConversion. pres. Qed.

Lemma preserves_cleanup_if :
  preserves obs (unlinkSync (tempOutputFile config)) -> preserves obs (cleanup config).
Proof. intros H. unfold cleanup. pres. Qed.

Lemma preserves_main_finally_if :
  preserves obs (unlinkSync (tempOutputFile config)) ->
  preserves obs (main_finally config).
Proof.
  intros H. unfold main_finally.
  apply preserves_bind; [by apply preserves_cleanup_if|]. intros _.
  apply preserves_bind; [apply preserves_gets|].
  intros [pm|]; [|apply preserves_ret].
  intros w. pose proof (cleanup_loop_chatter (plugins pm)) as Hc. simpl.
  rewrite <- (obs_unobtrusive w _ (Some {| pluginDefs := pluginDefs pm; plugins := [];
                 pluginConfigs := []; initialized := false |}) Hc).
  by destruct w.
Qed.

Lemma preserves_generateTypes_if :
  preserves obs (openSync_w (tempOutputFile config)) ->
  (forall exe script e, preserves obs (spawn config exe script e)) ->
  preserves obs (generateTypes config).
Proof.
  intros Hopen Hspawn. unfold generateTypes.
  pose proof preserves_findBestPythonExecutable.
  pose proof preserves_log_perf_chunks.
  pose proof preserves_postConversion.
  pres.
Qed.

Hypothesis obs_disk_blind : disk_blind obs.

Lemma disk_blind_files w f : obs (with_files f w) = obs w.
Proof. rewrite <- (obs_disk_blind w f (dirs w)). by destruct w. Qed.

Lemma disk_blind_dirs w d : obs (with_dirs d w) = obs w.
Proof. rewrite <- (obs_disk_blind w (files w) d). by destruct w. Qed.

Hypothesis tolerates_unlink : forall p, tolerates obs (EUnlink p).

Lemma preserves_unlinkSync p : preserves obs (unlinkSync p).
Proof.
  intros w. unfold unlinkSync. destruct (files w !! p); simpl; [|done].
  transitivity (obs (with_files (delete p (files w)) w));
    [apply (tolerates_unlink p (with_files (delete p (files w)) w))
    |apply disk_blind_files].
Qed.

Lemma preserves_cleanup : preserves obs (cleanup config).
Proof. apply preserves_cleanup_if, preserves_unlinkSync. Qed.

Lemma preserves_main_finally : preserves obs (main_finally config).
Proof. apply preserves_main_finally_if, preserves_unlinkSync. Qed.

Hypothesis tolerates_open : forall p, tolerates obs (EOpen p).
Hypothesis tolerates_spawn : forall exe script e, tolerates obs (ESpawn exe script e).

Lemma preserves_openSync_w p : preserves obs (openSync_w p).
Proof.
  intros w. unfold openSync_w. destruct (writable w p); simpl; [|done].
  set (f := <[p:={| content := ""; mtime := now w |}]> (files w)).
  transitivity (obs (with_files f w));
    [apply (tolerates_open p (with_files f w))|apply disk_blind_files].
Qed.

Lemma preserves_spawn exe script e : preserves obs (spawn config exe script e).
Proof.
  unfold spawn.
  apply preserves_bind; [by apply preserves_emit_tolerated|]. intros _ w.
  destruct (python w exe script e); simpl; [done|].
  apply disk_blind_files.
Qed.


End PreservationOfEffects.

(* ===================================================================== *)
(** ** What the pieces of the script return                               *)
(* ===================================================================== *)

Section Runs.

Variable config : Config.
Variable md5 : string -> string.
Variable JSON_parse : string -> Outcome (option CacheData).

Lemma logPerf_run msg w :
  exists t, logPerf config msg w = (Done tt, with_trace t w).
Proof.
  unfold logPerf. destruct (debugMode config); [by eexists|].
  exists (trace w). by rewrite with_trace_id.
Qed.

Lemma existing_locations_run locs w :
  exists t, existing_locations config locs w
            = (Done (List.filter (path_exists w) locs), with_trace t w).
Proof.
  revert w. induction locs as [|d locs IH]; intros w; simpl.
  - exists (trace w). by rewrite with_trace_id.
  - unfold bind at 1. unfold existsSync, gets.
    destruct (path_exists w d) eqn:Hd.
    + unfold bind at 1. destruct (logPerf_run ("Found stub directory: " +:+ d) w) as [t ->].
      unfold bind at 1. destruct (IH (with_trace t w)) as [t' ->].
      by exists t'.
    + unfold bind at 1. simpl. unfold bind at 1. destruct (IH w) as [t' ->].
      by exists t'.
Qed.

Lemma findStubDirectories_run w :
  exists t, findStubDirectories config w = (Done (stub_dirs config w), with_trace t w).
Proof.
  unfold findStubDirectories, stub_dirs, env_stub_dir.
  unfold bind at 1. destruct (existing_locations_run (potentialLocations config) w) as [t ->].
  unfold bind at 1. simpl.
  destruct (env_or _ _) as [p|]; [|exists t; by rewrite app_nil_r].
  destruct (String.eqb p ""); [exists t; by rewrite app_nil_r|].
  unfold bind at 1, existsSync, gets. change (path_exists (with_trace t w) p)
    with (path_exists w p).
  destruct (path_exists w p); [|exists t; by rewrite app_nil_r].
  unfold bind at 1.
  destruct (logPerf_run ("Found stub directory from environment: " +:+ p)
              (with_trace t w)) as [t' ->].
  by exists t'.
Qed.

Lemma collect_check_run stubDirs w :
  exists t, collect_check stubDirs w
            = (Done (scanned_check w stubDirs), with_trace t w).
Proof.
  revert w. induction stubDirs as [|d l IH]; intros w; simpl.
  - exists (trace w). by rewrite with_trace_id.
  - unfold bind, gets, emit, ret.
    destruct (trees w !! d) as [[[|] es]|] eqn:Ht; simpl;
      try destruct (findStubFiles_check d es) as [found [e|]]; simpl;
      match goal with
      | |- context [collect_check l ?W] => destruct (IH W) as [t ->]
      end; by exists t.
Qed.

Lemma collect_update_run stubDirs w :
  exists t, collect_update stubDirs w
            = (Done (scanned_update w stubDirs), with_trace t w).
Proof.
  revert w. induction stubDirs as [|d l IH]; intros w; simpl.
  - exists (trace w). by rewrite with_trace_id.
  - unfold bind, gets, emit, emit_all, ret.
    destruct (trees w !! d) as [[[|] es]|] eqn:Ht; simpl;
      try destruct (findStubFiles_update d es) as [found evs]; simpl;
      match goal with
      | |- context [collect_update l ?W] => destruct (IH W) as [t ->]
      end; by exists t.
Qed.

Lemma executePluginHook_run hook context w :
  exists t pm, executePluginHook hook context w
               = (Done (hook_result w hook context),
                  with_pluginManager pm (with_trace t w)).
Proof.
  unfold executePluginHook, hook_result, bind, gets, try_catch, ret.
  destruct (pluginManager w) as [pm|] eqn:Hpm.
  - destruct (executeHook (requireModule w) pm hook context) as [[pm' r] evs].
    simpl. exists (trace w ++ evs), (Some pm'). by destruct w.
  - exists (trace w), None. destruct w; simpl in *. by subst.
Qed.

Lemma scanned_check_with_trace t w d :
  scanned_check (with_trace t w) d = scanned_check w d.
Proof. reflexivity. Qed.

Lemma stub_dirs_with_trace t w : stub_dirs config (with_trace t w) = stub_dirs config w.
Proof. reflexivity. Qed.

(** The cache check computes [regeneration_needed]. *)
Lemma needsRegeneration_decides w :
  fst (needsRegeneration config md5 JSON_parse w)
  = Done (regeneration_needed config md5 JSON_parse w).
Proof.
  unfold needsRegeneration, regeneration_needed.
  destruct (forceRegeneration config) eqn:Hforce.
  { unfold bind. by destruct (logPerf_run "Force regeneration requested" w) as [t ->]. }
  unfold compat_newer, version_changed, stubs_changed, compat_changed, plugins_force,
    preGeneration_result, path_exists.
  cbv beta iota delta [try_catch bind existsSync readFileSync statSync_mtime gets lift
    ret throw checkPythonVersion logPerf emit path_exists].
  destruct (debugMode config) eqn:Hdebug; simpl.
  all: destruct (bool_decide (is_Some (files w !! cacheFile config))
                 || bool_decide (cacheFile config ∈ dirs w)
                 || bool_decide (is_Some (trees w !! cacheFile config))); simpl; [|done].
  all: destruct (files w !! cacheFile config) as [cache|]; simpl; [|done].
  all: destruct (JSON_parse (content cache)) as [parsed|]; simpl; [|done].
  all: destruct (bool_decide (is_Some (files w !! pythonScript config))
                 || bool_decide (pythonScript config ∈ dirs w)
                 || bool_decide (is_Some (trees w !! pythonScript config))); simpl; [|done].
  all: destruct (files w !! pythonScript config) as [script|] eqn:Hscript; simpl; [|done].
  all: destruct parsed as [c|]; simpl; [|done].
  all: destruct (date_lt (lastGenerated c) (mtime script)); simpl; [done|].
  all: destruct (bool_decide (is_Some (files w !! versionCompatPath config))
                 || bool_decide (versionCompatPath config ∈ dirs w)
                 || bool_decide (is_Some (trees w !! versionCompatPath config)))
         eqn:Hcompat_exists; simpl.
  all: try (destruct (files w !! versionCompatPath config) as [compat|] eqn:Hcompat;
            simpl; [|done]).
  all: try (destruct (date_lt (lastGenerated c) (mtime compat)); simpl; [done|]).
  all: destruct (truthy (pythonVersion c)); simpl.
  all: try (destruct (versionOf w (pythonExecutable config)) as [v|]; simpl).
  all: try (destruct (version_in_range config v); simpl).
  all: try (destruct (strict_eq_str (pythonVersion c) (raw v)); simpl; [|done]).
  all: destruct (bool_decide (is_Some (files w !! outputFile config))
                 || bool_decide (outputFile config ∈ dirs w)
                 || bool_decide (is_Some (trees w !! outputFile config))); simpl; [|done].
  all: destruct (truthy (stubFilesHash c)); simpl; [|done].
  all: match goal with
       | |- context [findStubDirectories config ?W] =>
           destruct (findStubDirectories_run W) as [t1 ->]; simpl
       end.
  all: match goal with
       | |- context [collect_check ?d ?W] =>
           destruct (collect_check_run d W) as [t2 ->]; simpl
       end.
  all: rewrite ?scanned_check_with_trace, ?stub_dirs_with_trace.
  all: destruct (0 <? length (scanned_check w (stub_dirs config w)))%nat; simpl.
  all: try (destruct (strict_eq_str (stubFilesHash c)
                        (stubs_fingerprint md5 (scanned_check w (stub_dirs config w))));
            simpl; [|done]).
  all: rewrite ?Hscript; simpl.
  all: destruct (strict_eq_str (scriptHash c) (md5 (content script))); simpl; [|done].
  all: rewrite ?Hcompat; simpl; rewrite ?Hcompat_exists; simpl; rewrite ?Hcompat; simpl.
  all: try (destruct (strict_eq_str (versionCompatHash c) (md5 (content compat)));
            simpl; [|done]).
  all: match goal with
       | |- context [executePluginHook ?h ?x ?W] =>
           destruct (executePluginHook_run h x W) as (t3 & pm3 & ->); simpl
       end.
  all: unfold hook_result; simpl.
  all: match goal with
       | |- context [metadata ?x] => destruct (metadata x) as [md|]; simpl; [|done]
       end.
  all: by destruct (meta_forceRegeneration md) as [[|]|].
Qed.

End Runs.

(* ===================================================================== *)
(** ** Stub directories                                                   *)
(* ===================================================================== *)

(** C6, as stated, fails: with the project's own stub directory present
    and [TYPESHED_PATH] naming an existing directory, the directory from
    the environment is not the first element of the result. *)
Lemma stub_directories_order_counterexample :
  env_or (env Examples.fresh !! "TYPESHED_PATH")
         (env Examples.fresh !! "MYPY_CONFIG_FILE_PATH") = Some "/typeshed"
  /\ path_exists Examples.fresh "/typeshed" = true
  /\ fst (findStubDirectories Examples.cfg Examples.fresh)
     = Done ["/proj/stubs"; "/typeshed"].
Proof. by vm_compute. Qed.

(** C6, amended.  [findStubDirectories] returns first the well-known
    locations that exist, in the order project-local directory, installed
    [@types], user-level stubs, and then the directory named by the
    environment: in every environment in which the path named by
    [TYPESHED_PATH] (or else [MYPY_CONFIG_FILE_PATH]) exists, that path is
    the last element of the returned list. *)
Theorem stub_directories_order (config : Config) (w : World) (p : string) :
  env_or (env w !! "TYPESHED_PATH") (env w !! "MYPY_CONFIG_FILE_PATH") = Some p ->
  p <> "" ->
  path_exists w p = true ->
  fst (findStubDirectories config w)
  = Done (List.filter (path_exists w)
            [projectStubs config; typesStubs config; userStubs config] ++ [p])
  /\ (forall l, fst (findStubDirectories config w) = Done l -> last l = Some p).
Proof.
  intros Henv Hp Hexists.
  assert (Hrun : fst (findStubDirectories config w)
                 = Done (List.filter (path_exists w)
                           [projectStubs config; typesStubs config; userStubs config]
                         ++ [p])).
  { destruct (findStubDirectories_run config w) as [t ->]. simpl.
    unfold stub_dirs, env_stub_dir. rewrite Henv, Hexists.
    apply String.eqb_neq in Hp. by rewrite Hp. }
  split; [done|].
  intros l Hl. rewrite Hrun in Hl. injection Hl as <-. apply last_snoc.
Qed.

Lemma stub_directories_order_witness :
  fst (findStubDirectories Examples.cfg Examples.fresh)
  = Done (List.filter (path_exists Examples.fresh)
            ["/proj/stubs"; "/proj/node_modules/@types";
             "/home/dev/.local/lib/python3/stubs"] ++ ["/typeshed"]).
Proof.
  refine (proj1 (stub_directories_order Examples.cfg Examples.fresh "/typeshed" _ _ _));
    by vm_compute.
Defined.

(* ===================================================================== *)
(** ** The cache check                                                    *)
(* ===================================================================== *)

(** C8.  Cache corruption is never fatal.  When the cache file is there
    but cannot be read, or its text is not well-formed JSON,
    [needsRegeneration] returns [true], as it does when there is no cache
    file; it returns a value in both cases, the error is not thrown on. *)
Theorem cache_corruption_not_fatal
    (config : Config) (md5 : string -> string)
    (JSON_parse : string -> Outcome (option CacheData)) (w w0 : World) :
  cache_corrupt config JSON_parse w ->
  cache_missing config w0 ->
  fst (needsRegeneration config md5 JSON_parse w) = Done true
  /\ fst (needsRegeneration config md5 JSON_parse w0) = Done true.
Proof.
  intros [Hexists Hcorrupt] Hmissing.
  rewrite !needsRegeneration_decides. unfold regeneration_needed.
  unfold cache_missing in Hmissing. rewrite Hexists, Hmissing. simpl.
  split; [|by destruct (forceRegeneration config)].
  destruct (forceRegeneration config); [done|].
  destruct (files w !! cacheFile config) as [f|]; [|done].
  destruct Hcorrupt as [e ->]. done.
Qed.

Lemma cache_corruption_not_fatal_witness :
  fst (needsRegeneration Examples.cfg Examples.md5 Examples.JSON_parse Examples.corrupted)
  = Done true
  /\ fst (needsRegeneration Examples.cfg Examples.md5 Examples.JSON_parse Examples.fresh)
     = Done true.
Proof.
  apply cache_corruption_not_fatal.
  - split; [by vm_compute|]. vm_compute. by eexists.
  - by vm_compute.
Defined.

(* ===================================================================== *)
(** ** The text [generateTypes] resolves with                             *)
(* ===================================================================== *)



Section PostConversion.

Variable config : Config.

Lemma postConversion_run errorData warnings ver w f :
  files w !! tempOutputFile config = Some f ->
  exists t pm,
    postConversion config errorData warnings ver w
    = (Done {| output :=
                 or_output
                   (tsOutput (hook_result w POST_CONVERSION
                                (postConversion_context (content f) errorData
                                   warnings ver)))
                   (content f);
               errorData := errorData;
               generatedVersion := ver |},
       with_pluginManager pm (with_trace t w)).
Proof.
  intros Hf. unfold postConversion.
  cbv beta iota delta [bind try_catch readFileSync gets ret throw].
  rewrite Hf.
  destruct (executePluginHook_run POST_CONVERSION
              (postConversion_context (content f) errorData warnings ver) w)
    as (t & pm & ->).
  by exists t, pm.
Qed.


End PostConversion.

Lemma bind_run {A B} (m : M A) (k : A -> M B) w a :
  fst (m w) = Done a -> bind m k w = k a (snd (m w)).
Proof. unfold bind. destruct (m w) as [[a0|e] w1]; simpl; [by intros [= ->]|done]. Qed.

Lemma run_eq {A} (m : M A) w a : fst (m w) = Done a -> m w = (Done a, snd (m w)).
Proof. destruct (m w) as [r w1]. simpl. by intros ->. Qed.

Lemma bind_Done_inv {A B} (m : M A) (k : A -> M B) w b w' :
  bind m k w = (Done b, w') ->
  exists a w1, m w = (Done a, w1) /\ k a w1 = (Done b, w').
Proof.
  unfold bind. destruct (m w) as [[a|e] w1]; [|done].
  intros H. by exists a, w1.
Qed.

Lemma try_catch_Done_inv {A} (m : M A) (h : string -> M A) w a w' :
  try_catch m h w = (Done a, w') ->
  m w = (Done a, w')
  \/ exists e w1, m w = (Thrown e, w1) /\ h e w1 = (Done a, w').
Proof.
  unfold try_catch. destruct (m w) as [[a0|e] w1]; [by left|].
  intros H. right. by exists e, w1.
Qed.

Lemma preserved_by {X A} (obs : World -> X) (m : M A) w r w' :
  preserves obs m -> m w = (r, w') -> obs w' = obs w.
Proof. intros Hm E. specialize (Hm w). by rewrite E in Hm. Qed.


Section GeneratedText.

Variable config : Config.


End GeneratedText.



(* ===================================================================== *)
(** ** Runs of the script                                                 *)
(* ===================================================================== *)

Section RunFacts.

Variable config : Config.
Variable md5 : string -> string.
Variable JSON_parse : string -> Outcome (option CacheData).
Variable JSON_stringify : CacheData -> string.

Lemma logPerf_Done msg w : fst (logPerf config msg w) = Done tt.
Proof. by destruct (logPerf_run config msg w) as [t ->]. Qed.

Lemma executePluginHook_Done hook context w :
  fst (executePluginHook hook context w) = Done (hook_result w hook context).
Proof. by destruct (executePluginHook_run hook context w) as (t & pm & ->). Qed.

Lemma setupPlugins_Done w : fst (setupPlugins config w) = Done tt.
Proof.
  unfold setupPlugins. destruct (pluginsEnabled config); simpl; [|apply logPerf_Done].
  cbv beta iota delta [try_catch bind emit].
  destruct (discoveredPlugins w) as [defs|e]; simpl; [|done].
  destruct (0 <? length defs)%nat.
  - destruct (initialize (requireModule w) (new_PluginManager defs)) as [pm evs].
    match goal with
    | |- context [logPerf config ?m ?W] => by destruct (logPerf_run config m W) as [t ->]
    end.
  - by destruct (logPerf_run config "No plugins found" w) as [t ->].
Qed.

Lemma cleanup_Done w : fst (cleanup config w) = Done tt.
Proof.
  unfold cleanup.
  cbv beta iota delta [try_catch bind existsSync gets emit ret unlinkSync].
  destruct (path_exists w (tempOutputFile config)); [|done].
  by destruct (files w !! tempOutputFile config).
Qed.

Lemma main_finally_Done w : fst (main_finally config w) = Done tt.
Proof.
  unfold main_finally. unfold bind at 1.
  pose proof (cleanup_Done w) as Hc.
  destruct (cleanup config w) as [[[]|e] w1]; [|done].
  cbv beta iota delta [bind gets ret].
  destruct (pluginManager w1) as [pm|]; [|done].
  by destruct (PluginManager_cleanup pm).
Qed.

(** A run whose cache check finds the cache valid. *)
Lemma main_cached_run w :
  cache_hit config md5 JSON_parse w ->
  main config md5 JSON_parse JSON_stringify w
  = (Done 0,
     snd (main_finally config
            (snd (executePluginHook POST_GENERATION
                    (postGeneration_context config Absent false None)
                    (snd (logPerf config "Using cached types"
                            (after_cache_check config md5 JSON_parse w))))))).
Proof.
  intros Hhit.
  unfold cache_hit, after_cache_check, at_cache_check in *.
  unfold main, main_body.
  rewrite (bind_run _ _ _ tt (logPerf_Done _ _)).
  rewrite (bind_run _ _ _ tt (setupPlugins_Done _)).
  rewrite (bind_run _ _ _ false Hhit).
  rewrite (bind_run _ _ _ tt (logPerf_Done _ _)).
  rewrite (bind_run _ _ _ _ (executePluginHook_Done _ _ _)).
  unfold ret at 1.
  rewrite (bind_run _ _ _ tt (main_finally_Done _)).
  reflexivity.
Qed.

(** Its exit code, and what is left as it was after the check. *)
Lemma main_cached {X} (obs : World -> X) w :
  unobtrusive obs ->
  preserves obs (unlinkSync (tempOutputFile config)) ->
  cache_hit config md5 JSON_parse w ->
  fst (main config md5 JSON_parse JSON_stringify w) = Done 0
  /\ obs (snd (main config md5 JSON_parse JSON_stringify w))
     = obs (after_cache_check config md5 JSON_parse w).
Proof.
  intros Hobs Hunlink Hhit. rewrite (main_cached_run w Hhit). simpl.
  split; [done|].
  rewrite (preserves_main_finally_if obs Hobs config Hunlink).
  rewrite (preserves_executePluginHook obs Hobs).
  by rewrite (preserves_logPerf obs Hobs config).
Qed.

End RunFacts.

(* ===================================================================== *)
(** ** Processes started by a run that uses the cache                     *)
(* ===================================================================== *)

Section Probes.

Variable config : Config.
Variable md5 : string -> string.
Variable JSON_parse : string -> Outcome (option CacheData).
Variable JSON_stringify : CacheData -> string.







End Probes.




(* ===================================================================== *)
(** ** Files written by a run that regenerates                            *)
(* ===================================================================== *)

Section Writes.

Variable config : Config.
Variable md5 : string -> string.
Variable JSON_parse : string -> Outcome (option CacheData).
Variable JSON_stringify : CacheData -> string.

Lemma writeFileSync_inv p data w w' :
  writeFileSync p data w = (Done tt, w') ->
  w' = with_trace (trace w ++ [EWriteFile p data])
         (with_files (<[p := {| content := data; mtime := now w |}]> (files w)) w).
Proof. unfold writeFileSync. destruct (writable w p); [|done]. by intros [= <-]. Qed.

Lemma writeOutput_writes data w w' :
  writeOutput config data w = (Done true, w') ->
  select is_write (trace w')
  = select is_write (trace w) ++ [EWriteFile (outputFile config) data]
  /\ files w' = <[outputFile config := {| content := data; mtime := now w |}]> (files w).
Proof.
  unfold writeOutput. intros H.
  apply bind_Done_inv in H as ([] & w1 & E1 & H).
  destruct (logPerf_run config "Writing generated types to file" w) as [t1 E1'].
  rewrite E1' in E1. injection E1 as <-.
  assert (Hsel1 : select is_write (trace (with_trace t1 w)) = select is_write (trace w)).
  { pose proof (preserves_logPerf _ unobtrusive_write config
                  "Writing generated types to file" w) as P.
    by rewrite E1' in P. }
  apply try_catch_Done_inv in H as [H|(e & w2 & _ & H)].
  2: { apply bind_Done_inv in H as (? & ? & _ & H). by unfold ret in H. }
  apply bind_Done_inv in H as (dirExists & w2 & E2 & H).
  unfold existsSync, gets in E2. injection E2 as _ <-.
  apply bind_Done_inv in H as ([] & w3 & E3 & H).
  assert (Hsel3 : select is_write (trace w3) = select is_write (trace w)
                  /\ now w3 = now w).
  { destruct (negb dirExists).
    - unfold mkdirSync in E3. simpl in E3.
      destruct (writable w (outputDir config)); [|done].
      injection E3 as <-. simpl. rewrite select_app. simpl.
      by rewrite app_nil_r, <- Hsel1.
    - unfold ret in E3. by injection E3 as <-. }
  destruct Hsel3 as [Hsel3 Hnow].
  apply bind_Done_inv in H as ([] & w4 & E4 & H).
  apply writeFileSync_inv in E4 as ->.
  apply bind_Done_inv in H as ([] & w5 & E5 & H).
  unfold ret in H. injection H as <-.
  match type of E5 with
  | logPerf config ?m ?W = _ =>
      pose proof (preserves_logPerf _ unobtrusive_write config m W) as P5;
      pose proof (preserves_logPerf _ unobtrusive_disk config m W) as D5;
      rewrite E5 in P5, D5
  end.
  simpl in P5, D5. split.
  - rewrite P5, select_app, Hsel3. done.
  - unfold disk in D5. injection D5 as -> _. rewrite Hnow. f_equal.
    destruct (negb dirExists).
    + unfold mkdirSync in E3. simpl in E3.
      destruct (writable w (outputDir config)); [|done]. by injection E3 as <-.
    + unfold ret in E3. by injection E3 as <-.
Qed.

Lemma scanned_update_with_trace t w d :
  scanned_update (with_trace t w) d = scanned_update w d.
Proof. reflexivity. Qed.

(** [new_cacheData] computes [cache_record]. *)
Lemma new_cacheData_run data ver w :
  exists t,
    snd (new_cacheData config md5 data ver w) = with_trace t w
    /\ forall c, fst (new_cacheData config md5 data ver w) = Done c
                 <-> cache_record config md5 w data ver = Some c.
Proof.
  unfold new_cacheData, cache_record, recorded_fingerprint.
  cbv beta iota delta [bind readFileSync existsSync gets ret throw].
  destruct (files w !! pythonScript config) as [script|]; simpl.
  2: { exists (trace w). rewrite with_trace_id. by split. }
  destruct (path_exists w (versionCompatPath config)); simpl.
  1: destruct (files w !! versionCompatPath config) as [compat|]; simpl.
  2: { exists (trace w). rewrite with_trace_id. by split. }
  all: match goal with
       | |- context [findStubDirectories config ?W] =>
           destruct (findStubDirectories_run config W) as [t1 ->]; simpl
       end.
  all: destruct (0 <? length (stub_dirs config w))%nat eqn:Hlen; simpl.
  all: try (assert (stub_dirs config w = []) as Hnil
              by (destruct (stub_dirs config w); [done|discriminate]);
            rewrite Hnil; simpl;
            exists t1; split; [done|]; intros c; split; congruence).
  all: match goal with
       | |- context [collect_update ?d ?W] =>
           destruct (collect_update_run d W) as [t2 ->]; simpl
       end.
  all: rewrite ?scanned_update_with_trace.
  all: destruct (0 <? length (scanned_update w (stub_dirs config w)))%nat; simpl.
  all: try (exists t2; split; [done|]; intros c; split; congruence).
  all: match goal with
       | |- context [logPerf config ?m ?W] =>
           destruct (logPerf_run config m W) as [t3 ->]; simpl
       end.
  all: exists t3; split; [done|]; intros c; split; congruence.
Qed.

Lemma cache_record_with_trace t w data ver :
  cache_record config md5 (with_trace t w) data ver = cache_record config md5 w data ver.
Proof. reflexivity. Qed.

Lemma updateCache_inv data ver w w' :
  updateCache config md5 JSON_stringify data ver w = (Done true, w') ->
  exists c,
    cache_record config md5 w data ver = Some c
    /\ select is_write (trace w')
       = select is_write (trace w) ++ [EWriteFile (cacheFile config) (JSON_stringify c)]
    /\ files w' = <[cacheFile config := {| content := JSON_stringify c; mtime := now w |}]>
                    (files w)
    /\ dirs w' = dirs w.
Proof.
  unfold updateCache. intros H.
  apply bind_Done_inv in H as ([] & w1 & E1 & H).
  destruct (logPerf_run config "Updating cache" w) as [t1 E1'].
  rewrite E1' in E1. injection E1 as <-.
  assert (Hsel1 : select is_write (trace (with_trace t1 w)) = select is_write (trace w)).
  { pose proof (preserves_logPerf _ unobtrusive_write config "Updating cache" w) as P.
    by rewrite E1' in P. }
  apply try_catch_Done_inv in H as [H|(e & w2 & _ & H)].
  2: { apply bind_Done_inv in H as (? & ? & _ & H). by unfold ret in H. }
  apply bind_Done_inv in H as (c & w2 & E2 & H).
  destruct (new_cacheData_run data ver (with_trace t1 w)) as (t2 & Hw2 & Hc).
  rewrite E2 in Hw2, Hc. simpl in Hw2, Hc. subst w2.
  pose proof (proj1 (Hc c) eq_refl) as Hrec. rewrite cache_record_with_trace in Hrec.
  assert (Hsel2 : select is_write t2 = select is_write (trace w)).
  { assert (Hp : preserves (fun w => select is_write (trace w))
                   (new_cacheData config md5 data ver))
      by (unfold new_cacheData; pres).
    pose proof (preserved_by _ _ _ _ _ Hp E2) as P.
    by rewrite <- Hsel1. }
  apply bind_Done_inv in H as ([] & w3 & E3 & H).
  apply writeFileSync_inv in E3 as ->.
  apply bind_Done_inv in H as ([] & w4 & E4 & H).
  unfold ret in H. injection H as <-.
  match type of E4 with
  | logPerf config ?m ?W = _ =>
      pose proof (preserves_logPerf _ unobtrusive_write config m W) as P4;
      pose proof (preserves_logPerf _ unobtrusive_disk config m W) as D4;
      rewrite E4 in P4, D4
  end.
  simpl in P4, D4. exists c. split; [done|]. split; [|split].
  - rewrite P4, select_app, Hsel2. done.
  - unfold disk in D4. by injection D4 as -> _.
  - unfold disk in D4. by injection D4 as _ ->.
Qed.

(** A run that regenerates with success at every step. *)
Lemma main_regenerated_run w g w3 w4 w5 :
  fst (needsRegeneration config md5 JSON_parse (at_cache_check config w)) = Done true ->
  generateTypes config (after_cache_check config md5 JSON_parse w) = (Done g, w3) ->
  fst (writeOutput config (output g) w3) = Done true ->
  w4 = snd (writeOutput config (output g) w3) ->
  fst (updateCache config md5 JSON_stringify (output g) (generatedVersion g) w4)
    = Done true ->
  w5 = snd (updateCache config md5 JSON_stringify (output g) (generatedVersion g) w4) ->
  main config md5 JSON_parse JSON_stringify w
  = (Done 0,
     snd (main_finally config
            (snd (logPerf config "Type generation completed successfully"
                    (snd (executePluginHook POST_GENERATION
                            (postGeneration_context config (Text (output g)) true
                               (generatedVersion g)) w5)))))).
Proof.
  intros Hneeded Hgen Hout -> Hcache ->.
  unfold after_cache_check, at_cache_check in *.
  unfold main, main_body.
  rewrite (bind_run _ _ _ tt (logPerf_Done _ _ _)).
  rewrite (bind_run _ _ _ tt (setupPlugins_Done _ _)).
  rewrite (bind_run _ _ _ true Hneeded).
  cbv beta iota.
  rewrite (bind_run _ _ _ g); [|by rewrite Hgen].
  rewrite Hgen. simpl snd.
  rewrite (bind_run _ _ _ true Hout).
  rewrite (bind_run _ _ _ true Hcache).
  rewrite (bind_run _ _ _ _ (executePluginHook_Done _ _ _)).
  match goal with
  | |- context [logPerf config ?m ?W] =>
      rewrite (surjective_pairing (logPerf config m W)), logPerf_Done
  end.
  rewrite (bind_run _ _ _ tt (main_finally_Done _ _)).
  reflexivity.
Qed.

End Writes.





(* ===================================================================== *)
(** ** The stub fingerprint                                               *)
(* ===================================================================== *)

Lemma string_app_cons (x : ascii) (a b : string) :
  String x a +:+ b = String x (a +:+ b).
Proof. reflexivity. Qed.














(** The sampling is not the only blind spot: when every stub file is
    removed, the comparison is skipped altogether. *)
Lemma all_stubs_removed_undetected :
  scanned_check Examples.cached (stub_dirs Examples.cfg Examples.cached) <> []
  /\ scanned_check Examples.stubs_removed (stub_dirs Examples.cfg Examples.stubs_removed) = []
  /\ fst (needsRegeneration Examples.cfg Examples.md5 Examples.JSON_parse
            Examples.stubs_removed) = Done false.
Proof. split; [|split]; by vm_compute. Qed.




(* ===================================================================== *)
(** ** Two consecutive runs                                               *)
(* ===================================================================== *)

(** On trees that can be read all the way down, the two scans find the
    same files. *)
Lemma findStubFiles_agree es :
  forall dir, readable_entries es = true ->
    findStubFiles_check dir es = (fst (findStubFiles_update dir es), None).
Proof.
  induction es as [|n m rest IH|n r sub rest IHsub IH] using Dirents_tree_ind;
    intros dir Hr; simpl in *.
  - done.
  - rewrite (IH dir Hr). destruct (findStubFiles_update dir rest) as [found evs]. simpl.
    by destruct (endsWith n ".pyi").
  - apply andb_true_iff in Hr as [[-> Hsub]%andb_true_iff Hrest].
    rewrite (IHsub _ Hsub), (IH _ Hrest).
    by destruct (findStubFiles_update (path_join dir n) sub),
         (findStubFiles_update dir rest).
Qed.

Lemma scanned_agree w stubDirs :
  stub_trees_readable w stubDirs = true ->
  scanned_check w stubDirs = scanned_update w stubDirs.
Proof.
  unfold stub_trees_readable, scanned_check, scanned_update.
  induction stubDirs as [|d l IH]; simpl; [done|].
  intros [Hd Hl]%andb_true_iff. rewrite (IH Hl). f_equal.
  destruct (trees w !! d) as [[[|] es]|]; try done.
  by rewrite (findStubFiles_agree es d Hd).
Qed.

Lemma path_exists_false_tree w d : path_exists w d = false -> trees w !! d = None.
Proof.
  unfold path_exists. intros [_ H]%orb_false_iff.
  apply bool_decide_eq_false in H. by apply eq_None_not_Some.
Qed.

Lemma path_exists_ext v w p :
  files v !! p = files w !! p -> dirs v = dirs w -> trees v = trees w ->
  path_exists v p = path_exists w p.
Proof. unfold path_exists. by intros -> -> ->. Qed.

Lemma flat_map_existing {A} (f : string -> list A) w (locs : list string) :
  (forall d, path_exists w d = false -> f d = []) ->
  flat_map f (List.filter (path_exists w) locs) = flat_map f locs.
Proof.
  intros Hf. induction locs as [|d l IH]; simpl; [done|].
  destruct (path_exists w d) eqn:Hd; simpl; rewrite IH; [done|].
  by rewrite (Hf d Hd).
Qed.

(** What a scan of the stub directories finds depends on the scanned
    trees and on the environment only. *)
Lemma flat_map_stub_dirs {A} config (f : string -> list A) v w :
  env v = env w ->
  (forall d, path_exists v d = false -> f d = []) ->
  (forall d, path_exists w d = false -> f d = []) ->
  flat_map f (stub_dirs config v) = flat_map f (stub_dirs config w).
Proof.
  intros Henv Hv Hw. unfold stub_dirs. rewrite !flat_map_app. f_equal.
  - by rewrite !flat_map_existing.
  - unfold env_stub_dir. rewrite Henv.
    destruct (env_or _ _) as [p|]; [|done].
    destruct (String.eqb p ""); [done|].
    destruct (path_exists v p) eqn:Ev, (path_exists w p) eqn:Ew; simpl;
      rewrite ?app_nil_r; [done| | |done].
    + apply (Hw p Ew).
    + symmetry. apply (Hv p Ev).
Qed.

Lemma scanned_check_same config v w :
  trees v = trees w -> env v = env w ->
  scanned_check v (stub_dirs config v) = scanned_check w (stub_dirs config w).
Proof.
  intros Ht He. unfold scanned_check. rewrite Ht.
  apply flat_map_stub_dirs; [done| |]; intros d Hd%path_exists_false_tree;
    [rewrite Ht in Hd|]; by rewrite Hd.
Qed.

Lemma scanned_update_same config v w :
  trees v = trees w -> env v = env w ->
  scanned_update v (stub_dirs config v) = scanned_update w (stub_dirs config w).
Proof.
  intros Ht He. unfold scanned_update. rewrite Ht.
  apply flat_map_stub_dirs; [done| |]; intros d Hd%path_exists_false_tree;
    [rewrite Ht in Hd|]; by rewrite Hd.
Qed.

Lemma unobtrusive_file_at p : unobtrusive (file_at p).
Proof. by intros w evs pm _. Qed.

Lemma unobtrusive_disk_at p : unobtrusive (disk_at p).
Proof. by intros w evs pm _. Qed.

Lemma tolerates_file_at p e : tolerates (file_at p) e.
Proof. by intros w. Qed.

Lemma tolerates_disk_at p e : tolerates (disk_at p) e.
Proof. by intros w. Qed.

Section FilesKept.

Variable config : Config.
Variable md5 : string -> string.
Variable JSON_parse : string -> Outcome (option CacheData).
Variable JSON_stringify : CacheData -> string.

Lemma file_at_openSync_w p q : p <> q -> preserves (file_at p) (openSync_w q).
Proof.
  intros Hpq w. unfold openSync_w. destruct (writable w q); [|done].
  unfold file_at. simpl. by rewrite lookup_insert_ne.
Qed.

Lemma file_at_spawn p exe script e :
  p <> tempOutputFile config -> preserves (file_at p) (spawn config exe script e).
Proof.
  intros Hp w. unfold spawn, bind, emit. simpl.
  destruct (python w exe script e); [done|].
  unfold file_at. simpl. by rewrite lookup_insert_ne.
Qed.

Lemma file_at_writeFileSync p q data :
  p <> q -> preserves (file_at p) (writeFileSync q data).
Proof.
  intros Hpq w. unfold writeFileSync. destruct (writable w q); [|done].
  unfold file_at. simpl. by rewrite lookup_insert_ne.
Qed.

Lemma file_at_mkdirSync p q : preserves (file_at p) (mkdirSync q).
Proof. intros w. unfold mkdirSync. by destruct (writable w q). Qed.

Lemma disk_at_writeFileSync p q data :
  p <> q -> preserves (disk_at p) (writeFileSync q data).
Proof.
  intros Hpq w. unfold writeFileSync. destruct (writable w q); [|done].
  unfold disk_at. simpl. by rewrite lookup_insert_ne.
Qed.

Lemma disk_at_unlinkSync p q : p <> q -> preserves (disk_at p) (unlinkSync q).
Proof.
  intros Hpq w. unfold unlinkSync. destruct (files w !! q); [|done].
  unfold disk_at. simpl. by rewrite lookup_delete_ne.
Qed.

(** Up to the call of [updateCache], a run leaves every file in place
    except the temporary file and the output file. *)
Lemma file_at_after_cache_check p w :
  file_at p (after_cache_check config md5 JSON_parse w) = file_at p w.
Proof.
  unfold after_cache_check, at_cache_check.
  rewrite (preserves_needsRegeneration _ (unobtrusive_file_at p) config md5 JSON_parse
             (fun _ => tolerates_file_at p _)).
  rewrite (preserves_setupPlugins _ (unobtrusive_file_at p) config).
  by rewrite (preserves_logPerf _ (unobtrusive_file_at p) config).
Qed.

Lemma file_at_after_generation p w :
  p <> tempOutputFile config ->
  file_at p (after_generation config md5 JSON_parse w) = file_at p w.
Proof.
  intros Htemp. unfold after_generation.
  rewrite (preserves_generateTypes_if _ (unobtrusive_file_at p) config
             (fun _ => tolerates_file_at p _) (fun _ => tolerates_file_at p _)
             (file_at_openSync_w p _ Htemp)
             (fun exe script e => file_at_spawn p exe script e Htemp)).
  apply file_at_after_cache_check.
Qed.

Lemma file_at_after_output p w g :
  p <> tempOutputFile config -> p <> outputFile config ->
  file_at p (after_output config md5 JSON_parse w g) = file_at p w.
Proof.
  intros Htemp Hout. unfold after_output.
  rewrite (preserves_writeOutput_if _ (unobtrusive_file_at p) config _
             (file_at_mkdirSync p _) (file_at_writeFileSync p _ _ Hout)).
  by apply file_at_after_generation.
Qed.

(** [updateCache] touches the cache file only; the end of the run
    touches the temporary file only. *)
Lemma disk_at_updateCache p data ver w :
  p <> cacheFile config ->
  disk_at p (snd (updateCache config md5 JSON_stringify data ver w)) = disk_at p w.
Proof.
  intros Hcache.
  apply (preserves_updateCache_if _ (unobtrusive_disk_at p) config md5 JSON_stringify
           data ver (fun text => disk_at_writeFileSync p _ text Hcache)).
Qed.

Lemma disk_at_run_end p context msg w :
  p <> tempOutputFile config ->
  disk_at p (snd (main_finally config
                    (snd (logPerf config msg
                            (snd (executePluginHook POST_GENERATION context w))))))
  = disk_at p w.
Proof.
  intros Htemp.
  rewrite (preserves_main_finally_if _ (unobtrusive_disk_at p) config
             (disk_at_unlinkSync p _ Htemp)).
  rewrite (preserves_logPerf _ (unobtrusive_disk_at p) config).
  by rewrite (preserves_executePluginHook _ (unobtrusive_disk_at p)).
Qed.

(** The cache check of the next run finds the world as the run before
    left it. *)
Lemma disk_at_next_check p t w :
  files (at_cache_check config (restart t w)) !! p = files w !! p
  /\ dirs (at_cache_check config (restart t w)) = dirs w
  /\ trees (at_cache_check config (restart t w)) = trees w
  /\ env (at_cache_check config (restart t w)) = env w
  /\ versionOf (at_cache_check config (restart t w)) = versionOf w.
Proof.
  assert (Hv : disk_at p (at_cache_check config (restart t w))
               = disk_at p (restart t w)).
  { unfold at_cache_check.
    rewrite (preserves_setupPlugins _ (unobtrusive_disk_at p) config).
    by rewrite (preserves_logPerf _ (unobtrusive_disk_at p) config). }
  unfold disk_at, surroundings in Hv. simpl in Hv.
  by injection Hv as -> -> -> _ -> _ _ _ -> _ _ _ _.
Qed.

Lemma path_exists_file w p f : files w !! p = Some f -> path_exists w p = true.
Proof. intros H. unfold path_exists. by rewrite H. Qed.

(** The cache is used when every check passes. *)
Lemma regeneration_not_needed v cache c script :
  forceRegeneration config = false ->
  files v !! cacheFile config = Some cache ->
  JSON_parse (content cache) = Done (Some c) ->
  files v !! pythonScript config = Some script ->
  date_lt (lastGenerated c) (mtime script) = false ->
  compat_newer config v c = false ->
  version_changed config v c = false ->
  path_exists v (outputFile config) = true ->
  stubs_changed config md5 v c = false ->
  strict_eq_str (scriptHash c) (md5 (content script)) = true ->
  compat_changed config md5 v c = false ->
  plugins_force config v c = false ->
  regeneration_needed config md5 JSON_parse v = false.
Proof.
  intros Hforce Hcache Hparse Hscript Hdate Hnewer Hversion Hout Hstubs Hhash Hcompat
    Hplugins.
  unfold regeneration_needed.
  rewrite Hforce, (path_exists_file _ _ _ Hcache), Hcache, Hparse,
    (path_exists_file _ _ _ Hscript), Hscript, Hdate, Hnewer, Hversion, Hout, Hstubs,
    Hhash, Hcompat.
  exact Hplugins.
Qed.

End FilesKept.

Section GeneratedVersion.

Variable config : Config.

Lemma checkPythonVersion_run w v :
  versionOf w (pythonExecutable config) = Done v ->
  fst (checkPythonVersion config w)
  = Done (Some {| info := v; isSupported := version_in_range config v |}).
Proof.
  intros Hv. unfold checkPythonVersion.
  cbv beta iota delta [bind emit gets ret logPerf]. simpl. rewrite Hv.
  by destruct (debugMode config), (version_in_range config v).
Qed.

(** A configured executable of a supported version is the one that is
    used. *)
Lemma findBestPythonExecutable_configured w v :
  versionOf w (pythonExecutable config) = Done v ->
  version_in_range config v = true ->
  fst (findBestPythonExecutable config w)
  = Done (pythonExecutable config, Some {| info := v; isSupported := true |}).
Proof.
  intros Hv Hr. unfold findBestPythonExecutable.
  rewrite (bind_run _ _ _ _ (checkPythonVersion_run w v Hv)).
  by rewrite Hr.
Qed.

Lemma spawn_trace exe script childEnv w r w1 :
  spawn config exe script childEnv w = (Done r, w1) ->
  select is_spawn (trace w1)
  = select is_spawn (trace w) ++ [ESpawn exe script childEnv].
Proof.
  unfold spawn. cbv beta iota delta [bind emit]. simpl.
  destruct (python w exe script childEnv); intros [= _ <-]; simpl;
    by rewrite select_app.
Qed.

Lemma postConversion_version errorData warnings ver w g w' :
  postConversion config errorData warnings ver w = (Done g, w') ->
  generatedVersion g = ver.
Proof.
  unfold postConversion. intros H.
  apply bind_Done_inv in H as (out & w1 & _ & H).
  apply try_catch_Done_inv in H as [H|(e & w2 & _ & H)].
  - apply bind_Done_inv in H as (c & w2 & _ & H). unfold ret in H. by injection H as <- _.
  - unfold ret in H. by injection H as <- _.
Qed.

(** When [generateTypes] resolves, the generator was started once, with
    the executable [findBestPythonExecutable] chose, and the version
    that comes with the text is the version of that executable. *)
Lemma generateTypes_inv w g w' :
  generateTypes config w = (Done g, w') ->
  exists pythonInfo childEnv,
    fst (findBestPythonExecutable config
           (snd (logPerf config "Generating TypeScript types" w))) = Done pythonInfo
    /\ generatedVersion g
       = option_map (fun v : PyVersion => raw (info v)) (snd pythonInfo)
    /\ select is_spawn (trace w')
       = select is_spawn (trace w)
         ++ [ESpawn (fst pythonInfo) (pythonScript config) childEnv].
Proof.
  set (S := fun w : World => select is_spawn (trace w)).
  assert (Htol : forall e, is_spawn e = false -> tolerates S e)
    by (intros e He; by apply tolerates_select).
  unfold generateTypes. intros H.
  apply bind_Done_inv in H as ([] & w1 & E1 & H).
  apply bind_Done_inv in H as (pythonInfo & w2 & E2 & H).
  apply bind_Done_inv in H as ([] & w3 & E3 & H).
  apply bind_Done_inv in H as (processEnv & w4 & E4 & H).
  apply bind_Done_inv in H as ([] & w5 & E5 & H).
  apply bind_Done_inv in H as (stubDirs & w6 & E6 & H).
  apply bind_Done_inv in H as (win & w7 & E7 & H).
  apply bind_Done_inv in H as ([] & w8 & E8 & H).
  apply bind_Done_inv in H as (preContext & w9 & E9 & H).
  apply bind_Done_inv in H as (child & w10 & Hchild & H).
  assert (H1 : S w1 = S w)
    by (eapply preserved_by; [|exact E1]; apply preserves_logPerf, unobtrusive_spawn).
  assert (H2 : S w2 = S w1).
  { eapply preserved_by; [|exact E2].
    apply preserves_findBestPythonExecutable;
      [apply unobtrusive_spawn|by intros; apply Htol..]. }
  assert (H3 : S w3 = S w2)
    by (eapply preserved_by; [|exact E3]; pres).
  assert (H4 : S w4 = S w3)
    by (eapply preserved_by; [|exact E4]; pres).
  assert (H5 : S w5 = S w4)
    by (eapply preserved_by; [|exact E5]; pres).
  assert (H6 : S w6 = S w5)
    by (eapply preserved_by; [|exact E6]; pres).
  assert (H7 : S w7 = S w6)
    by (eapply preserved_by; [|exact E7]; pres).
  assert (H8 : S w8 = S w7)
    by (eapply preserved_by; [|exact E8]; pres).
  assert (H9 : S w9 = S w8)
    by (eapply preserved_by; [|exact E9]; pres).
  apply try_catch_Done_inv in Hchild as [Hchild|(e & wx & _ & Hh)]; [|done].
  apply bind_Done_inv in Hchild as (md & w11 & E11 & Hchild).
  apply bind_Done_inv in Hchild as ([] & w12 & E12 & Hchild).
  assert (H11 : S w11 = S w9)
    by (eapply preserved_by; [|exact E11]; pres).
  assert (H12 : S w12 = S w11).
  { eapply preserved_by; [|exact E12]. intros w0. unfold openSync_w.
    destruct (writable w0 _); [|done]. unfold S. simpl. rewrite select_app. simpl.
    by rewrite app_nil_r. }
  pose proof (spawn_trace _ _ _ _ _ _ Hchild) as Hspawn.
  exists pythonInfo. eexists. split; [rewrite E1; simpl; by rewrite E2|].
  assert (Hrest : generatedVersion g
                  = option_map (fun v : PyVersion => raw (info v)) (snd pythonInfo)
                  /\ S w' = S w10).
  { destruct child as [e|code out chunks].
    { apply bind_Done_inv in H as (? & ? & _ & H). done. }
    apply bind_Done_inv in H as ([] & w13 & E13 & H).
    apply bind_Done_inv in H as ([] & w14 & E14 & H).
    destruct (code =? 0); simpl in H;
      [|apply bind_Done_inv in H as (? & ? & _ & H); done].
    apply bind_Done_inv in H as ([] & w15 & E15 & H).
    assert (H13 : S w13 = S w10).
    { eapply preserved_by; [|exact E13].
      apply preserves_log_perf_chunks, unobtrusive_spawn. }
    assert (H14 : S w14 = S w13)
      by (eapply preserved_by; [|exact E14]; pres).
    assert (H15 : S w15 = S w14)
      by (eapply preserved_by; [|exact E15]; pres).
    assert (H16 : S w' = S w15).
    { eapply preserved_by; [|exact H].
      apply preserves_postConversion, unobtrusive_spawn. }
    split; [by apply postConversion_version in H|congruence]. }
  destruct Hrest as [Hver Hw']. split; [done|].
  fold (S w') (S w). rewrite Hw'. unfold S at 1. rewrite Hspawn.
  fold (S w12). by rewrite H12, H11, H9, H8, H7, H6, H5, H4, H3, H2, H1.
Qed.

End GeneratedVersion.

Lemma file_at_eq p v w :
  file_at p v = file_at p w ->
  files v !! p = files w !! p /\ trees v = trees w /\ env v = env w /\ now v = now w
  /\ versionOf v = versionOf w.
Proof. unfold file_at, surroundings. intros H. by injection H. Qed.

Lemma disk_at_eq p v w :
  disk_at p v = disk_at p w ->
  files v !! p = files w !! p /\ dirs v = dirs w /\ trees v = trees w /\ env v = env w
  /\ now v = now w /\ versionOf v = versionOf w.
Proof. unfold disk_at, surroundings. intros H. by injection H. Qed.

Lemma select_writeFileSync sel p data :
  sel (EWriteFile p data) = false ->
  preserves (fun w : World => select sel (trace w)) (writeFileSync p data).
Proof.
  intros Hsel w. unfold writeFileSync. destruct (writable w p); [|done]. simpl.
  rewrite select_app. simpl. by rewrite Hsel, app_nil_r.
Qed.

Lemma select_mkdirSync sel p :
  sel (EMkdir p) = false ->
  preserves (fun w : World => select sel (trace w)) (mkdirSync p).
Proof.
  intros Hsel w. unfold mkdirSync. destruct (writable w p); [|done]. simpl.
  rewrite select_app. simpl. by rewrite Hsel, app_nil_r.
Qed.

Lemma distinct_paths_neq config :
  distinct_paths config ->
  pythonScript config <> tempOutputFile config
  /\ pythonScript config <> outputFile config
  /\ pythonScript config <> cacheFile config
  /\ versionCompatPath config <> tempOutputFile config
  /\ versionCompatPath config <> outputFile config
  /\ versionCompatPath config <> cacheFile config
  /\ outputFile config <> tempOutputFile config
  /\ outputFile config <> cacheFile config
  /\ cacheFile config <> tempOutputFile config.
Proof.
  unfold distinct_paths. intros H.
  repeat (apply NoDup_cons in H as [? H]).
  repeat match goal with
         | H : _ ∉ _ :: _ |- _ => apply not_elem_of_cons in H as [? ?]
         end.
  repeat split; congruence.
Qed.

(** C1, as stated, fails for a project in which no stub file is found:
    the script, the (absent) stub files and the interpreter are the same
    at the second run, nothing forces a regeneration, the first run
    succeeds at every step, and still the second run's cache check asks
    for a regeneration and the generator is started again. *)
Lemma second_run_counterexample :
  forceRegeneration Examples.cfg = false
  /\ generation_succeeds Examples.cfg Examples.md5 Examples.JSON_parse
       Examples.JSON_stringify Examples.no_stub_files
       {| output := "export interface EntitySet {}"; errorData := "[PERF] done";
          generatedVersion := Some "3.8.10" |}
  /\ fst (needsRegeneration Examples.cfg Examples.md5 Examples.JSON_parse
            (at_cache_check Examples.cfg
               (second_run_start Examples.cfg Examples.md5 Examples.JSON_parse
                  Examples.JSON_stringify 3000 Examples.no_stub_files)))
     = Done true
  /\ length (select is_spawn
               (trace (second_run_end Examples.cfg Examples.md5 Examples.JSON_parse
                         Examples.JSON_stringify 3000 Examples.no_stub_files)))
     = 1%nat.
Proof.
  split; [done|]. split; [|split].
  - unfold generation_succeeds. split; [|split; [|split]]; vm_compute; reflexivity.
  - vm_compute. reflexivity.
  - vm_compute. reflexivity.
Qed.

(** C1, amended.  Take a run that regenerates and succeeds at every step
    (the generator resolves with [g], the output file is written, the
    cache is updated), and the next start of the script with nothing
    changed in between.  If the force flag is off, the five configured
    paths are distinct, the script and the compatibility script are not
    dated after the start of the first run, the configured executable,
    if it answers the version probe, reports a supported version, the
    stub trees are readable all the way down and hold at least one stub
    file, MD5 never gives the empty string, and the record [c] written to
    the cache is read back as it was written and does not make the
    PRE_GENERATION chain ask for a regeneration, then: the first run
    started the generator once and exits with 0, leaving the cache file
    with the record [c] and the output file with the generated text; the
    second run's cache check returns [false], and the second run exits
    with 0 without starting the generator and without writing a file,
    the output file being the one the first run wrote, with its
    modification time. *)
Theorem second_run_uses_cache
    (config : Config) (md5 : string -> string)
    (JSON_parse : string -> Outcome (option CacheData))
    (JSON_stringify : CacheData -> string) (w : World) (g : Generated) (t : Z) :
  forceRegeneration config = false ->
  distinct_paths config ->
  generation_succeeds config md5 JSON_parse JSON_stringify w g ->
  not_newer w (pythonScript config) ->
  not_newer w (versionCompatPath config) ->
  (forall v, versionOf w (pythonExecutable config) = Done v ->
             version_in_range config v = true) ->
  stub_trees_readable w (stub_dirs config w) = true ->
  scanned_update w (stub_dirs config w) <> [] ->
  (forall s, md5 s <> "") ->
  (forall c, written_record config md5 JSON_parse w g = Some c ->
     JSON_parse (JSON_stringify c) = Done (Some c)
     /\ plugins_force config
          (at_cache_check config
             (second_run_start config md5 JSON_parse JSON_stringify t w)) c = false) ->
  exists c exe childEnv,
    written_record config md5 JSON_parse w g = Some c
    /\ fst (main config md5 JSON_parse JSON_stringify w) = Done 0
    /\ select is_spawn (trace (first_run_end config md5 JSON_parse JSON_stringify w))
       = select is_spawn (trace w) ++ [ESpawn exe (pythonScript config) childEnv]
    /\ files (first_run_end config md5 JSON_parse JSON_stringify w) !! cacheFile config
       = Some {| content := JSON_stringify c; mtime := now w |}
    /\ files (first_run_end config md5 JSON_parse JSON_stringify w) !! outputFile config
       = Some {| content := output g; mtime := now w |}
    /\ cache_hit config md5 JSON_parse
         (second_run_start config md5 JSON_parse JSON_stringify t w)
    /\ fst (main config md5 JSON_parse JSON_stringify
              (second_run_start config md5 JSON_parse JSON_stringify t w)) = Done 0
    /\ select is_spawn
         (trace (second_run_end config md5 JSON_parse JSON_stringify t w)) = []
    /\ select is_write
         (trace (second_run_end config md5 JSON_parse JSON_stringify t w)) = []
    /\ files (second_run_end config md5 JSON_parse JSON_stringify t w) !! outputFile config
       = Some {| content := output g; mtime := now w |}.
Proof.
  intros Hforce Hpaths Hsucc Hscript_old Hcompat_old Hversion Hreadable Hstubs Hmd5 Hrec.
  destruct (distinct_paths_neq config Hpaths)
    as (Hst & Hso & Hsc & Hvt & Hvo & Hvc & Hot & Hoc & Hct).
  destruct Hsucc as (Hneeded & Hgen & Hout & Hcache).
  set (W2 := after_cache_check config md5 JSON_parse w) in *.
  set (W3 := after_generation config md5 JSON_parse w) in *.
  set (W4 := after_output config md5 JSON_parse w g) in *.
  set (W5 := snd (updateCache config md5 JSON_stringify (output g) (generatedVersion g) W4)).
  set (Wf := first_run_end config md5 JSON_parse JSON_stringify w).
  apply run_eq in Hgen. fold W3 in Hgen.
  pose proof (main_regenerated_run config md5 JSON_parse JSON_stringify w g W3 W4 W5
                Hneeded Hgen Hout eq_refl Hcache eq_refl) as Hmain.
  assert (HWf : Wf = snd (main_finally config
                           (snd (logPerf config "Type generation completed successfully"
                                   (snd (executePluginHook POST_GENERATION
                                           (postGeneration_context config
                                              (Text (output g)) true
                                              (generatedVersion g)) W5))))))
    by (unfold Wf, first_run_end; by rewrite Hmain).
  apply run_eq in Hout, Hcache.
  change (snd (writeOutput config (output g) W3)) with W4 in Hout.
  fold W5 in Hcache.
  destruct (updateCache_inv config md5 JSON_stringify _ _ _ _ Hcache)
    as (c & Hc & _ & Hfiles5 & _).
  destruct (writeOutput_writes config _ _ _ Hout) as [_ Hfiles4].
  destruct (Hrec c Hc) as [Hjson Hplugins].
  destruct (generateTypes_inv config _ _ _ Hgen)
    as (pythonInfo & childEnv & Hbest & Hgver & Hspawn).
  change (snd (generateTypes config W2)) with W3 in Hspawn.
  (* what the first run leaves *)
  assert (Hnow3 : now W3 = now w).
  { by destruct (file_at_eq _ _ _ (file_at_after_generation config md5 JSON_parse
                                       (pythonScript config) w Hst))
      as (_ & _ & _ & ? & _). }
  assert (Hkeep4 : forall p, p <> tempOutputFile config -> p <> outputFile config ->
             files W4 !! p = files w !! p).
  { intros p H1 H2.
    by destruct (file_at_eq _ _ _ (file_at_after_output config md5 JSON_parse p w g H1 H2))
      as (? & _). }
  assert (Hsur4 : trees W4 = trees w /\ env W4 = env w /\ now W4 = now w
                  /\ versionOf W4 = versionOf w).
  { by destruct (file_at_eq _ _ _ (file_at_after_output config md5 JSON_parse
                                       (pythonScript config) w g Hst Hso))
      as (_ & ? & ? & ? & ?). }
  destruct Hsur4 as (Htrees4 & Henv4 & Hnow4 & Hver4).
  assert (Hend : forall p, p <> tempOutputFile config -> disk_at p Wf = disk_at p W5).
  { intros p Hp. rewrite HWf. by apply disk_at_run_end. }
  assert (Hupd : forall p, p <> cacheFile config -> disk_at p W5 = disk_at p W4).
  { intros p Hp. unfold W5. by apply disk_at_updateCache. }
  assert (Hcache_f : files Wf !! cacheFile config
                     = Some {| content := JSON_stringify c; mtime := now w |}).
  { destruct (disk_at_eq _ _ _ (Hend _ Hct)) as (-> & _).
    by rewrite Hfiles5, lookup_insert_eq, Hnow4. }
  assert (Hout_f : files Wf !! outputFile config
                   = Some {| content := output g; mtime := now w |}).
  { destruct (disk_at_eq _ _ _ (Hend _ Hot)) as (-> & _).
    destruct (disk_at_eq _ _ _ (Hupd _ Hoc)) as (-> & _).
    by rewrite Hfiles4, lookup_insert_eq, Hnow3. }
  (* the world at the second cache check *)
  set (w2 := second_run_start config md5 JSON_parse JSON_stringify t w) in *.
  set (V := at_cache_check config w2) in *.
  assert (HV : forall p, files V !! p = files Wf !! p).
  { intros p. apply (disk_at_next_check config p t Wf). }
  destruct (disk_at_next_check config (cacheFile config) t Wf)
    as (_ & HVdirs & HVtrees & HVenv & HVver).
  change (at_cache_check config (restart t Wf)) with V in HVdirs, HVtrees, HVenv, HVver.
  assert (Hf4 : forall p, p <> tempOutputFile config -> p <> cacheFile config ->
            files V !! p = files W4 !! p /\ path_exists V p = path_exists W4 p).
  { intros p H1 H2.
    destruct (disk_at_eq _ _ _ (Hend p H1)) as (He1 & He2 & He3 & _).
    destruct (disk_at_eq _ _ _ (Hupd p H2)) as (Hu1 & Hu2 & Hu3 & _).
    assert (files V !! p = files W4 !! p) as Hfp by (by rewrite HV, He1, Hu1).
    split; [done|]. apply path_exists_ext; [done| |].
    - by rewrite HVdirs, He2, Hu2.
    - by rewrite HVtrees, He3, Hu3. }
  assert (Hsur : trees V = trees w /\ env V = env w /\ versionOf V = versionOf w).
  { destruct (disk_at_eq _ _ _ (Hend _ Hst)) as (_ & _ & He3 & He4 & _ & He6).
    destruct (disk_at_eq _ _ _ (Hupd _ Hsc)) as (_ & _ & Hu3 & Hu4 & _ & Hu6).
    by rewrite HVtrees, HVenv, HVver, He3, He4, He6, Hu3, Hu4, Hu6. }
  destruct Hsur as (HtreesV & HenvV & HverV).
  (* the record *)
  unfold written_record in Hc. fold W4 in Hc.
  pose proof Hc as Hc'.
  unfold cache_record in Hc'.
  destruct (files W4 !! pythonScript config) as [script|] eqn:Hscript4; [|done].
  destruct (if path_exists W4 (versionCompatPath config) then _ else _)
    as [compatHash|] eqn:Hcompat4; [|done].
  injection Hc' as Hc'.
  assert (Hhit : cache_hit config md5 JSON_parse w2).
  { unfold cache_hit. fold V. rewrite needsRegeneration_decides. f_equal.
    destruct (Hf4 _ Hst Hsc) as [HVscript _].
    destruct (Hf4 _ Hvt Hvc) as [HVcompat HVcompat_ex].
    destruct (Hf4 _ Hot Hoc) as [_ HVout_ex].
    apply (regeneration_not_needed config md5 JSON_parse V
             {| content := JSON_stringify c; mtime := now w |} c script).
    - done.
    - by rewrite HV.
    - done.
    - by rewrite HVscript.
    - rewrite <- Hc'. simpl. apply Z.ltb_ge. rewrite Hnow4. apply Hscript_old.
      by rewrite <- (Hkeep4 _ Hst Hso).
    - unfold compat_newer. rewrite HVcompat_ex, HVcompat.
      destruct (path_exists W4 (versionCompatPath config)); [|done].
      destruct (files W4 !! versionCompatPath config) as [compat|] eqn:Hcf; [|done].
      rewrite <- Hc'. simpl. apply Z.ltb_ge. rewrite Hnow4. apply Hcompat_old.
      by rewrite <- (Hkeep4 _ Hvt Hvo).
    - unfold version_changed. rewrite <- Hc' at 1. simpl.
      destruct (generatedVersion g) as [r|] eqn:Hr; [|done]. simpl.
      destruct (negb (String.eqb r "")); [|done].
      rewrite HverV.
      destruct (versionOf w (pythonExecutable config)) as [v|] eqn:Hv; [|done].
      assert (Hv2 : versionOf (snd (logPerf config "Generating TypeScript types" W2))
                      (pythonExecutable config) = Done v).
      { destruct (file_at_eq _ _ _
                    (preserves_logPerf _ (unobtrusive_file_at (cacheFile config)) config
                       "Generating TypeScript types" W2)) as (_ & _ & _ & _ & ->).
        destruct (file_at_eq _ _ _
                    (file_at_after_cache_check config md5 JSON_parse
                       (cacheFile config) w)) as (_ & _ & _ & _ & H2).
        change W2 with (after_cache_check config md5 JSON_parse w). by rewrite H2. }
      rewrite (findBestPythonExecutable_configured config _ v Hv2 (Hversion v eq_refl))
        in Hbest.
      injection Hbest as <-. simpl in Hgver. injection Hgver as ->.
      rewrite <- Hc'. simpl. by rewrite String.eqb_refl.
    - apply (path_exists_file _ _ {| content := output g; mtime := now w |}).
      by rewrite HV.
    - unfold stubs_changed. rewrite <- Hc'. simpl. unfold recorded_fingerprint.
      rewrite (scanned_update_same config W4 w Htrees4 Henv4).
      rewrite (scanned_check_same config V w HtreesV HenvV).
      rewrite (scanned_agree _ _ Hreadable).
      destruct (scanned_update w (stub_dirs config w)) as [|x l] eqn:Hl; [done|].
      simpl (0 <? _)%nat. cbv iota.
      destruct (String.eqb _ "") eqn:He;
        [apply String.eqb_eq in He; by apply Hmd5 in He|].
      simpl. by rewrite String.eqb_refl.
    - rewrite <- Hc'. simpl. apply String.eqb_refl.
    - unfold compat_changed. rewrite HVcompat_ex, HVcompat.
      destruct (path_exists W4 (versionCompatPath config)); [|done].
      destruct (files W4 !! versionCompatPath config) as [compat|] eqn:Hcf; [|done].
      simpl in Hcompat4. injection Hcompat4 as <-.
      rewrite <- Hc'. simpl. by rewrite String.eqb_refl.
    - done. }
  (* the second run *)
  assert (Hsecond : forall {X} (obs : World -> X),
             unobtrusive obs ->
             preserves obs (unlinkSync (tempOutputFile config)) ->
             (forall exe, tolerates obs (EVersionProbe exe)) ->
             obs (second_run_end config md5 JSON_parse JSON_stringify t w) = obs w2).
  { intros X obs Hunob Hunlink Htol.
    change (second_run_end config md5 JSON_parse JSON_stringify t w)
      with (snd (main config md5 JSON_parse JSON_stringify w2)).
    destruct (main_cached config md5 JSON_parse JSON_stringify obs w2 Hunob Hunlink Hhit)
      as [_ ->].
    unfold after_cache_check, at_cache_check.
    rewrite (preserves_needsRegeneration _ Hunob config md5 JSON_parse Htol).
    rewrite (preserves_setupPlugins _ Hunob config).
    by rewrite (preserves_logPerf _ Hunob config). }
  exists c, (fst pythonInfo), childEnv.
  split; [done|]. split; [by rewrite Hmain|].
  split; [|split; [done|split; [done|split; [done|split; [|split; [|split]]]]]].
  - transitivity (select is_spawn (trace W3)).
    2: { rewrite Hspawn. f_equal. unfold W2, after_cache_check, at_cache_check.
         rewrite (preserves_needsRegeneration _ unobtrusive_spawn config md5 JSON_parse
                    (fun _ => tolerates_select _ _ eq_refl)).
         rewrite (preserves_setupPlugins _ unobtrusive_spawn config).
         by rewrite (preserves_logPerf _ unobtrusive_spawn config). }
    rewrite HWf.
    rewrite (preserves_main_finally _ unobtrusive_spawn config
               (disk_blind_select _) (fun p => tolerates_select _ _ eq_refl)).
    rewrite (preserves_logPerf _ unobtrusive_spawn config).
    rewrite (preserves_executePluginHook _ unobtrusive_spawn).
    unfold W5.
    rewrite (preserves_updateCache_if _ unobtrusive_spawn config md5 JSON_stringify _ _
               (fun text => select_writeFileSync is_spawn _ text eq_refl)).
    unfold W4, after_output. fold W3.
    by rewrite (preserves_writeOutput_if _ unobtrusive_spawn config _
                  (select_mkdirSync is_spawn _ eq_refl)
                  (select_writeFileSync is_spawn _ _ eq_refl)).
  - by destruct (main_cached config md5 JSON_parse JSON_stringify
                   (fun w => select is_spawn (trace w)) w2 unobtrusive_spawn
                   (preserves_unlinkSync _ (disk_blind_select _)
                      (fun p => tolerates_select _ _ eq_refl) _) Hhit).
  - apply (Hsecond _ (fun w => select is_spawn (trace w)) unobtrusive_spawn
             (preserves_unlinkSync _ (disk_blind_select _)
                (fun p => tolerates_select _ _ eq_refl) _)
             (fun _ => tolerates_select _ _ eq_refl)).
  - apply (Hsecond _ (fun w => select is_write (trace w)) unobtrusive_write
             (preserves_unlinkSync _ (disk_blind_select _)
                (fun p => tolerates_select _ _ eq_refl) _)
             (fun _ => tolerates_select _ _ eq_refl)).
  - pose proof (Hsecond _ (disk_at (outputFile config))
                  (unobtrusive_disk_at _) (disk_at_unlinkSync _ _ Hot)
                  (fun _ => tolerates_disk_at _ _)) as H.
    destruct (disk_at_eq _ _ _ H) as (-> & _). exact Hout_f.
Qed.

Lemma second_run_uses_cache_witness :
  cache_hit Examples.cfg Examples.md5 Examples.JSON_parse
    (second_run_start Examples.cfg Examples.md5 Examples.JSON_parse
       Examples.JSON_stringify 3000 Examples.fresh)
  /\ select is_spawn
       (trace (second_run_end Examples.cfg Examples.md5 Examples.JSON_parse
                 Examples.JSON_stringify 3000 Examples.fresh)) = []
  /\ files (second_run_end Examples.cfg Examples.md5 Examples.JSON_parse
              Examples.JSON_stringify 3000 Examples.fresh)
       !! "/proj/src/types/featuretools.ts"
     = Some {| content := "export interface EntitySet {}"; mtime := 2000 |}.
Proof.
  destruct (second_run_uses_cache Examples.cfg Examples.md5 Examples.JSON_parse
              Examples.JSON_stringify Examples.fresh
              {| output := "export interface EntitySet {}"; errorData := "[PERF] done";
                 generatedVersion := Some "3.8.10" |} 3000)
    as (c & exe & childEnv & _ & _ & _ & _ & _ & Hhit & _ & Hspawn & _ & Hfile).
  - reflexivity.
  - apply (bool_decide_unpack _). vm_compute. reflexivity.
  - unfold generation_succeeds. split; [|split; [|split]]; vm_compute; reflexivity.
  - intros f Hf. vm_compute in Hf. injection Hf as <-. simpl. lia.
  - intros f Hf. vm_compute in Hf. injection Hf as <-. simpl. lia.
  - intros v Hv. vm_compute in Hv. injection Hv as <-. reflexivity.
  - vm_compute. reflexivity.
  - vm_compute. discriminate.
  - intros s. unfold Examples.md5. rewrite string_app_cons. discriminate.
  - intros c Hc. vm_compute in Hc. injection Hc as <-.
    split; vm_compute; reflexivity.
  - split; [exact Hhit|]. split; [exact Hspawn|exact Hfile].
Defined.

(* ===================================================================== *)
(** ** More on the plugin manager                                         *)
(* ===================================================================== *)

Lemma Map_get_set {V} (k n : string) (v : V) (m : list (string * V)) :
  Map_get n (Map_set k v m) = if String.eqb k n then Some v else Map_get n m.
Proof.
  induction m as [|[k' v'] m IH]; simpl.
  - done.
  - destruct (String.eqb k' k) eqn:E; simpl.
    + apply String.eqb_eq in E as ->. by destruct (String.eqb k n).
    + rewrite IH. destruct (String.eqb k n) eqn:E2; [|done].
      apply String.eqb_eq in E2 as <-. by rewrite E.
Qed.

Section PluginMap.

Variable req : string -> Outcome Plugin.

Lemma initialize_loop_get (l : list PluginDefinition) pm n :
  Map_get n (plugins (fst (initialize_loop req l pm)))
  = match last (named n (loaded req l)) with
    | Some entry => Some (snd entry)
    | None => Map_get n (plugins pm)
    end.
Proof.
  revert pm. induction l as [|d l IH]; intros pm; simpl; [done|].
  unfold named in *. rewrite List.filter_app. unfold is_disabled.
  destruct (enabled d) as [[|]|]; simpl.
  1,3: destruct (loadPlugin req d) as [plugin|m]; simpl.
  all: match goal with
       | |- context [initialize_loop req ?k ?x] =>
           specialize (IH x); destruct (initialize_loop req k x) as [pm' evs]
       end; simpl in *; rewrite IH; try done.
  all: rewrite Map_get_set; destruct (String.eqb (name d) n); simpl; [|done].
  all: rewrite last_cons; by destruct (last _).
Qed.

Lemma initialize_plugins (defs : list PluginDefinition) :
  plugins (fst (initialize req (new_PluginManager defs)))
  = plugins (fst (initialize_loop req (Array_sort by_priority defs)
                    (new_PluginManager defs))).
Proof.
  unfold initialize. simpl.
  by destruct (initialize_loop req _ _).
Qed.

Lemma last_named_Some n (entries : list (string * Plugin)) :
  is_Some (last (named n entries)) <-> In n (map fst entries).
Proof.
  unfold named. induction entries as [|[k p] l IH]; simpl.
  - split; [by intros [? ?]|done].
  - destruct (String.eqb k n) eqn:E.
    + apply String.eqb_eq in E as ->. rewrite last_cons.
      split; [by left|]. intros _. destruct (last _); eauto.
    + rewrite IH. apply String.eqb_neq in E. split; [by right|by intros [?|?]].
Qed.

End PluginMap.

(** X1.  What [getPlugin] and [hasPlugin] answer once a new manager has
    loaded its definitions: a name is known exactly when some definition
    bearing it is not disabled and has a module that loads and
    initialises; and the plugin kept under a name is the one of the last
    such definition in priority order, since a later [Map.set] replaces
    an earlier one. *)
Theorem plugin_lookup_after_initialize
    (req : string -> Outcome Plugin) (defs : list PluginDefinition) (n : string) :
  (hasPlugin (fst (initialize req (new_PluginManager defs))) n = true
   <-> exists d, In d defs /\ name d = n /\ runs req d = true)
  /\ getPlugin (fst (initialize req (new_PluginManager defs))) n
     = option_map snd (last (named n (loaded req (Array_sort by_priority defs)))).
Proof.
  unfold hasPlugin, getPlugin, Map_has.
  rewrite initialize_plugins, initialize_loop_get. simpl.
  split.
  - transitivity (is_Some (last (named n (loaded req (Array_sort by_priority defs))))).
    { destruct (last _); split; intros H; try done; try (by eauto); by destruct H. }
    rewrite last_named_Some, loaded_names, in_map_iff.
    split.
    + intros (d & Hn & Hd). exists d.
      apply list_elem_of_In, list_elem_of_filter in Hd as [Hr Hd].
      split; [|done].
      apply list_elem_of_In. by rewrite <- (Array_sort_perm by_priority defs).
    + intros (d & Hd & Hn & Hr). exists d. split; [done|].
      apply list_elem_of_In, list_elem_of_filter. split; [done|].
      rewrite (Array_sort_perm by_priority defs). by apply list_elem_of_In.
  - by destruct (last _).
Qed.

Lemma initialize_initialized (req : string -> Outcome Plugin) pm :
  initialized (fst (initialize req pm)) = true.
Proof.
  unfold initialize. destruct (initialized pm) eqn:E; [done|].
  by destruct (initialize_loop req _ pm).
Qed.

(** X2.  Plugins are loaded once.  Whatever the manager, after a call of
    [executeHook] it is initialised, and from then on neither
    [initialize] nor [executeHook] loads anything: [initialize] returns
    at once, and [executeHook] leaves the manager as it is and does
    nothing but run the handlers of the plugins in the map. *)
Theorem plugins_loaded_once
    (req : string -> Outcome Plugin) (pm : PluginManager)
    (hook hook' : PluginHook) (context context' : PluginContext) :
  initialized (fst (fst (executeHook req pm hook context))) = true
  /\ initialize req (fst (fst (executeHook req pm hook context)))
     = (fst (fst (executeHook req pm hook context)), [])
  /\ executeHook req (fst (fst (executeHook req pm hook context))) hook' context'
     = (fst (fst (executeHook req pm hook context)),
        fst (executeHook_loop hook' (plugins (fst (fst (executeHook req pm hook context))))
               (set_logger HostLogger context')),
        snd (executeHook_loop hook' (plugins (fst (fst (executeHook req pm hook context))))
               (set_logger HostLogger context'))).
Proof.
  assert (Hinit : initialized (fst (fst (executeHook req pm hook context))) = true).
  { rewrite executeHook_unfold. simpl.
    destruct (initialized pm) eqn:E; [done|apply initialize_initialized]. }
  split; [done|]. split.
  - unfold initialize. by rewrite Hinit.
  - rewrite (executeHook_unfold req (fst (fst (executeHook req pm hook context)))).
    by rewrite Hinit.
Qed.



Lemma executeHook_loop_observers hook (l : list (string * Plugin)) c :
  is_Some (logger c) ->
  (forall n p, In (n, p) l -> observes p hook) ->
  fst (executeHook_loop hook l c) = c.
Proof.
  intros Hlog. induction l as [|[n p] l IH]; intros Hobs; simpl; [done|].
  assert (Hl : forall n0 p0, In (n0, p0) l -> observes p0 hook)
    by (intros; eapply Hobs; by right).
  specialize (IH Hl).
  destruct (Hobs n p (or_introl eq_refl) c) as [Hfst Hsnd].
  destruct (onHook p hook c) as [after [[r|]|m]]; simpl in *; subst.
  - destruct Hlog as [lg Hlg]. rewrite Hlg.
    by destruct (executeHook_loop hook l c).
  - by destruct (executeHook_loop hook l c).
  - by destruct (executeHook_loop hook l c).
Qed.

(** X4.  Plugins that only look leave the pipeline's context alone: if
    on a hook every loaded handler leaves the context it is handed as it
    was and returns nothing, returns that same context, or throws, then
    [executeHook] returns the caller's context with the host's logger in
    it, and nothing else changed. *)
Theorem observers_keep_context
    (req : string -> Outcome Plugin) (pm pm1 : PluginManager) (hook : PluginHook)
    (context final : PluginContext) (evs : list Event) :
  executeHook req pm hook context = (pm1, final, evs) ->
  (forall n p, In (n, p) (plugins pm1) -> observes p hook) ->
  final = set_logger HostLogger context.
Proof.
  intros Hrun Hobs. rewrite executeHook_unfold in Hrun. cbv zeta in Hrun.
  injection Hrun as <- <- _.
  by apply executeHook_loop_observers; [eexists|].
Qed.

Lemma observers_keep_context_witness :
  snd (fst (executeHook Examples.require_marking
              (Examples.manager_of [("a", Examples.throwing_plugin);
                                    ("b", Examples.identity_plugin)])
              POST_GENERATION Examples.ctx0))
  = set_logger HostLogger Examples.ctx0.
Proof.
  apply (observers_keep_context Examples.require_marking
           (Examples.manager_of [("a", Examples.throwing_plugin);
                                 ("b", Examples.identity_plugin)])
           (Examples.manager_of [("a", Examples.throwing_plugin);
                                 ("b", Examples.identity_plugin)])
           POST_GENERATION Examples.ctx0 _
           (snd (executeHook Examples.require_marking
                   (Examples.manager_of [("a", Examples.throwing_plugin);
                                         ("b", Examples.identity_plugin)])
                   POST_GENERATION Examples.ctx0))).
  - reflexivity.
  - simpl. intros n p [[= <- <-]|[[= <- <-]|[]]] c; by simpl.
Defined.

(** X5.  Every call of [executeHook] invokes the handler of each plugin
    in the map exactly once, in the order of the map, whatever the
    handlers return or throw; [initialize] and [cleanup] invoke no
    handler. *)
Theorem every_handler_called_once
    (req : string -> Outcome Plugin) (pm : PluginManager) (hook : PluginHook)
    (context : PluginContext) :
  hook_calls (snd (executeHook req pm hook context))
  = map fst (plugins (fst (fst (executeHook req pm hook context))))
  /\ hook_calls (snd (initialize req pm)) = []
  /\ hook_calls (snd (PluginManager_cleanup pm)) = [].
Proof.
  split; [apply executeHook_calls|]. split; [apply initialize_calls|].
  unfold PluginManager_cleanup. simpl.
  induction (plugins pm) as [|[n p] l IH]; simpl; [done|].
  by destruct (cleanup_plugin p) as [[|]|].
Qed.

(* ===================================================================== *)
(** ** The search for an interpreter                                      *)
(* ===================================================================== *)

Lemma sort_insert_head_min {A} (key : A -> Z) (x : A) (l : list A) h t :
  (forall h' t', l = h' :: t' -> forall y, In y l -> key h' <= key y) ->
  sort_insert (fun a b => key a - key b) x l = h :: t ->
  forall y, In y (x :: l) -> key h <= key y.
Proof.
  intros Hmin. destruct l as [|y0 l']; simpl.
  - intros [= <- <-] y [<-|[]]. lia.
  - specialize (Hmin y0 l' eq_refl).
    destruct (Z.leb_spec (key x - key y0) 0) as [Hle|Hgt].
    + intros [= <- <-] y [<-|Hy]; [lia|]. specialize (Hmin y Hy). lia.
    + intros [= <- <-] y [<-|Hy]; [lia|]. by apply Hmin.
Qed.

(** The first element of a sorted array is a least one. *)
Lemma Array_sort_head_min {A} (key : A -> Z) (l : list A) h t :
  Array_sort (fun a b => key a - key b) l = h :: t ->
  forall y, In y l -> key h <= key y.
Proof.
  revert h t. induction l as [|x l IH]; intros h t; simpl; [done|].
  intros Hs y Hy.
  apply (sort_insert_head_min key x (Array_sort (fun a b => key a - key b) l) h t);
    [|exact Hs|].
  - intros h' t' Heq y' Hy'. apply (IH h' t' Heq).
    apply list_elem_of_In. rewrite <- (Array_sort_perm (fun a b => key a - key b) l).
    by apply list_elem_of_In.
  - destruct Hy as [<-|Hy]; [by left|right].
    apply list_elem_of_In. rewrite (Array_sort_perm (fun a b => key a - key b) l).
    by apply list_elem_of_In.
Qed.

Section Search.

Variable config : Config.

Lemma checkPythonVersion_returns w :
  exists t,
    checkPythonVersion config w = (Done (currentVersion config w), with_trace t w)
    /\ select is_process t
       = select is_process (trace w) ++ [EVersionProbe (pythonExecutable config)].
Proof.
  unfold checkPythonVersion, currentVersion.
  cbv beta iota delta [bind emit gets ret logPerf]. simpl.
  destruct (versionOf w (pythonExecutable config)) as [v|e]; simpl.
  - destruct (debugMode config), (version_in_range config v); simpl;
      eexists; (split; [reflexivity|]);
      rewrite ?select_app; simpl; by rewrite ?app_nil_r.
  - eexists. split; [reflexivity|]. rewrite !select_app. simpl. by rewrite app_nil_r.
Qed.

Lemma probe_candidate_returns p w :
  exists t, probe_candidate config p w = (Done (probed config w p), with_trace t w).
Proof.
  unfold probe_candidate, probed. cbv beta iota delta [bind emit gets ret]. simpl.
  destruct (versionOf w p) as [v|e]; [destruct (version_in_range config v)|];
    by eexists.
Qed.

Lemma try_candidateExecutables_returns l w :
  exists t, try_candidateExecutables config l w
            = (Done (found_on_path config w l), with_trace t w).
Proof.
  revert w. induction l as [|x l IH]; intros w; simpl.
  - exists (trace w). by rewrite with_trace_id.
  - cbv beta iota delta [bind emit gets ret]. simpl.
    destruct (which w x) as [p|]; [destruct (String.eqb p "")|]; simpl.
    2: destruct (probe_candidate_returns p
                   (with_trace (trace w ++ [EWhich x]) w)) as [t1 ->]; simpl.
    all: match goal with
         | |- context [try_candidateExecutables config _ ?W] =>
             destruct (IH W) as [t ->]
         end; by exists t.
Qed.

Lemma try_candidatePaths_returns l w :
  exists t, try_candidatePaths config l w
            = (Done (found_installed config w l), with_trace t w).
Proof.
  revert w. induction l as [|x l IH]; intros w; simpl.
  - exists (trace w). by rewrite with_trace_id.
  - cbv beta iota delta [bind existsSync gets ret]. simpl.
    destruct (path_exists w x); simpl.
    1: destruct (probe_candidate_returns x w) as [t1 ->]; simpl.
    all: match goal with
         | |- context [try_candidatePaths config _ ?W] =>
             destruct (IH W) as [t ->]
         end; by exists t.
Qed.

(** What [findBestPythonExecutable] returns. *)
Lemma findBestPythonExecutable_returns w :
  fst (findBestPythonExecutable config w)
  = Done (if configured_supported config w
          then (pythonExecutable config, currentVersion config w)
          else match Array_sort (by_distance config) (possibleVersions config w) with
               | [] => (pythonExecutable config, currentVersion config w)
               | bestMatch :: _ => (fst bestMatch, Some (snd bestMatch))
               end).
Proof.
  unfold findBestPythonExecutable, configured_supported, possibleVersions.
  destruct (checkPythonVersion_returns w) as (t & Hcheck & _).
  unfold bind at 1. rewrite Hcheck.
  destruct (match currentVersion config w with
            | Some v => isSupported v
            | None => false
            end); [done|].
  cbv beta iota delta [bind gets].
  change (platform_win32 (with_trace t w)) with (platform_win32 w).
  destruct (platform_win32 w).
  - match goal with
    | |- context [Array_sort _ (found_installed config w ?L)] =>
        set (pv := found_installed config w L)
    end.
    match goal with
    | |- context [try_candidatePaths config ?l ?W] =>
        destruct (try_candidatePaths_returns l W) as [t1 ->]
    end.
    match goal with
    | |- context [found_installed config ?W ?L] =>
        change (found_installed config W L) with pv
    end.
    destruct (Array_sort (by_distance config) pv) as [|b r]; [done|].
    by destruct (logPerf_run config
                   ("Using Python " +:+ raw (info (snd b)) +:+ " at " +:+ fst b)
                   (with_trace t1 (with_trace t w))) as [t2 ->].
  - set (pv := found_on_path config w candidateExecutables).
    destruct (try_candidateExecutables_returns candidateExecutables (with_trace t w))
      as [t1 ->].
    change (found_on_path config (with_trace t w) candidateExecutables) with pv.
    destruct (Array_sort (by_distance config) pv) as [|b r]; [done|].
    by destruct (logPerf_run config
                   ("Using Python " +:+ raw (info (snd b)) +:+ " at " +:+ fst b)
                   (with_trace t1 (with_trace t w))) as [t2 ->].
Qed.

Lemma probed_sound w p c :
  In c (probed config w p) ->
  fst c = p /\ versionOf w p = Done (info (snd c))
  /\ version_in_range config (info (snd c)) = true /\ isSupported (snd c) = true.
Proof.
  unfold probed. destruct (versionOf w p) as [v|e]; [|done].
  destruct (version_in_range config v) eqn:Hr; [|done].
  by intros [<-|[]].
Qed.

Lemma possibleVersions_sound w c :
  In c (possibleVersions config w) ->
  versionOf w (fst c) = Done (info (snd c))
  /\ version_in_range config (info (snd c)) = true /\ isSupported (snd c) = true.
Proof.
  unfold possibleVersions, found_installed, found_on_path.
  destruct (platform_win32 w); rewrite in_flat_map; intros (x & _ & Hc).
  - destruct (path_exists w x); [|done].
    by apply probed_sound in Hc as (<- & ? & ? & ?).
  - destruct (which w x) as [p|]; [|done]. destruct (String.eqb p ""); [done|].
    by apply probed_sound in Hc as (<- & ? & ? & ?).
Qed.

End Search.

(** X6.  When the configured executable answers the version probe with a
    version inside the configured range, [findBestPythonExecutable]
    returns that executable with that version and looks no further: the
    probe is the only process it starts, no [which] and no probe of
    another candidate. *)
Theorem configured_interpreter_first (config : Config) (w : World) :
  configured_supported config w = true ->
  fst (findBestPythonExecutable config w)
  = Done (pythonExecutable config, currentVersion config w)
  /\ select is_process (trace (snd (findBestPythonExecutable config w)))
     = select is_process (trace w) ++ [EVersionProbe (pythonExecutable config)].
Proof.
  intros Hs. split.
  - by rewrite findBestPythonExecutable_returns, Hs.
  - unfold findBestPythonExecutable.
    destruct (checkPythonVersion_returns config w) as (t & Hcheck & Ht).
    unfold bind at 1. rewrite Hcheck.
    unfold configured_supported in Hs. rewrite Hs. by simpl.
Qed.

Lemma configured_interpreter_first_witness :
  fst (findBestPythonExecutable Examples.cfg Examples.fresh)
  = Done ("python3", Some {| info := Examples.python_3_8; isSupported := true |})
  /\ select is_process (trace (snd (findBestPythonExecutable Examples.cfg Examples.fresh)))
     = [EVersionProbe "python3"].
Proof. apply (configured_interpreter_first Examples.cfg Examples.fresh). reflexivity. Defined.

(** X7.  When the configured executable does not answer the probe, or
    answers with a version outside the range, [findBestPythonExecutable]
    still returns: with no candidate found, the configured executable
    and whatever version it reported; otherwise a candidate that the
    search found, which reports a version inside the range and is, of
    all candidates found, one that is closest to the preferred version
    (100 per major step, 1 per minor step). *)
Theorem closest_interpreter_chosen (config : Config) (w : World) :
  configured_supported config w = false ->
  exists r,
    fst (findBestPythonExecutable config w) = Done r
    /\ match possibleVersions config w with
       | [] => r = (pythonExecutable config, currentVersion config w)
       | _ :: _ =>
           exists v,
             snd r = Some v
             /\ In (fst r, v) (possibleVersions config w)
             /\ versionOf w (fst r) = Done (info v)
             /\ version_in_range config (info v) = true
             /\ forall c, In c (possibleVersions config w) ->
                  version_distance config (fst r, v) <= version_distance config c
       end.
Proof.
  intros Hs. eexists. split.
  { rewrite findBestPythonExecutable_returns, Hs. reflexivity. }
  destruct (possibleVersions config w) as [|c0 l] eqn:Hl; [done|].
  rewrite <- Hl.
  destruct (Array_sort (by_distance config) (possibleVersions config w)) as [|b r] eqn:Hsort.
  { pose proof (Array_sort_perm (by_distance config) (possibleVersions config w)) as Hp.
    rewrite Hsort, Hl in Hp. by apply Permutation_nil_cons in Hp. }
  assert (Hb : In b (possibleVersions config w)).
  { apply list_elem_of_In.
    rewrite <- (Array_sort_perm (by_distance config) (possibleVersions config w)), Hsort.
    by left. }
  exists (snd b). simpl. rewrite <- surjective_pairing.
  destruct (possibleVersions_sound config w b Hb) as (Hv & Hr & _).
  repeat split; try done.
  apply (Array_sort_head_min (version_distance config) _ b r Hsort).
Qed.

Lemma closest_interpreter_chosen_witness :
  exists r,
    fst (findBestPythonExecutable Examples.cfg Scenarios.searching) = Done r
    /\ exists v,
         snd r = Some v
         /\ In (fst r, v) (possibleVersions Examples.cfg Scenarios.searching)
         /\ versionOf Scenarios.searching (fst r) = Done (info v)
         /\ version_in_range Examples.cfg (info v) = true
         /\ forall c, In c (possibleVersions Examples.cfg Scenarios.searching) ->
              version_distance Examples.cfg (fst r, v) <= version_distance Examples.cfg c.
Proof. exact (closest_interpreter_chosen Examples.cfg Scenarios.searching eq_refl). Defined.

(** In that world the interpreter chosen is Python 3.9, one minor step
    from the preferred 3.8, although Python 3.11 is found first. *)
Lemma closest_interpreter_example :
  fst (findBestPythonExecutable Examples.cfg Scenarios.searching)
  = Done ("/usr/bin/python3.9",
          Some {| info := Scenarios.python_3_9; isSupported := true |}).
Proof. by vm_compute. Qed.

(* ===================================================================== *)
(** ** Stub directories, once more                                        *)
(* ===================================================================== *)

Lemma In_filter_exists w (l : list string) d :
  In d (List.filter (path_exists w) l) -> In d l /\ path_exists w d = true.
Proof. by intros ?%filter_In. Qed.

(** X8.  [findStubDirectories] never throws, and what it returns are
    directories that exist, at most four of them, each one of the three
    well-known locations or the path named by the environment. *)
Theorem stub_directories_exist (config : Config) (w : World) :
  fst (findStubDirectories config w) = Done (stub_dirs config w)
  /\ (length (stub_dirs config w) <= 4)%nat
  /\ forall d, In d (stub_dirs config w) ->
       path_exists w d = true
       /\ (In d [projectStubs config; typesStubs config; userStubs config]
           \/ env_or (env w !! "TYPESHED_PATH") (env w !! "MYPY_CONFIG_FILE_PATH") = Some d).
Proof.
  split; [by destruct (findStubDirectories_run config w) as [t ->]|].
  unfold stub_dirs, env_stub_dir, potentialLocations. split.
  - rewrite length_app.
    pose proof (List.filter_length_le (path_exists w)
                  [projectStubs config; typesStubs config; userStubs config]) as Hle.
    set (found := List.filter _ _) in *. simpl in Hle.
    destruct (env_or _ _) as [p|]; [|simpl; lia].
    destruct (String.eqb p ""); [simpl; lia|].
    destruct (path_exists w p); simpl; lia.
  - intros d [Hd|Hd]%in_app_iff.
    + apply In_filter_exists in Hd as [Hd He]. by split; [|left].
    + destruct (env_or _ _) as [p|]; [|done].
      destruct (String.eqb p ""); [done|].
      destruct (path_exists w p) eqn:Hp; [|done].
      destruct Hd as [<-|[]]. by split; [|right].
Qed.

(** X9.  [TYPESHED_PATH] shadows [MYPY_CONFIG_FILE_PATH]: when
    [TYPESHED_PATH] is set to a path that does not exist, no directory
    from the environment is returned, whatever [MYPY_CONFIG_FILE_PATH]
    names. *)
Theorem typeshed_path_shadows_mypy (config : Config) (w : World) (p : string) :
  env w !! "TYPESHED_PATH" = Some p ->
  p <> "" ->
  path_exists w p = false ->
  fst (findStubDirectories config w)
  = Done (List.filter (path_exists w)
            [projectStubs config; typesStubs config; userStubs config]).
Proof.
  intros Henv Hp Hmissing.
  destruct (findStubDirectories_run config w) as [t ->]. simpl. f_equal.
  unfold stub_dirs, env_stub_dir, env_or. rewrite Henv.
  apply String.eqb_neq in Hp. rewrite Hp. simpl. rewrite Hp, Hmissing.
  apply app_nil_r.
Qed.

Lemma typeshed_path_shadows_mypy_witness :
  env Scenarios.typeshed_missing !! "MYPY_CONFIG_FILE_PATH" = Some "/typeshed"
  /\ path_exists Scenarios.typeshed_missing "/typeshed" = true
  /\ fst (findStubDirectories Examples.cfg Scenarios.typeshed_missing)
     = Done ["/proj/stubs"].
Proof.
  split; [by vm_compute|]. split; [by vm_compute|].
  rewrite (typeshed_path_shadows_mypy Examples.cfg Scenarios.typeshed_missing "/missing").
  - by vm_compute.
  - by vm_compute.
  - done.
  - by vm_compute.
Defined.

(* ===================================================================== *)
(** ** The cache check, once more                                         *)
(* ===================================================================== *)

Lemma strict_eq_str_true v s : strict_eq_str v s = true -> v = JStr s.
Proof.
  destruct v as [| | | |t]; simpl; try done.
  by intros ->%String.eqb_eq.
Qed.

(** X10.  A cache hit is earned.  Whenever [needsRegeneration] returns
    [false]: the force flag is off; the cache file is there and parses
    to a record; the script is there, is not newer than the record and
    has the recorded MD5; the output file exists; the record has a stub
    fingerprint, and it is the fingerprint of the stub files found now,
    if any is found; the compatibility script, if it is there, is not
    newer than the record and has the recorded MD5; if the record names
    a Python version and the configured executable answers the probe, it
    answers with that version; and the PRE_GENERATION plugins did not ask
    for a regeneration. *)
Theorem cache_hit_sound
    (config : Config) (md5 : string -> string)
    (JSON_parse : string -> Outcome (option CacheData)) (w : World) :
  fst (needsRegeneration config md5 JSON_parse w) = Done false ->
  forceRegeneration config = false
  /\ exists cache c script,
       files w !! cacheFile config = Some cache
       /\ JSON_parse (content cache) = Done (Some c)
       /\ files w !! pythonScript config = Some script
       /\ date_lt (lastGenerated c) (mtime script) = false
       /\ scriptHash c = JStr (md5 (content script))
       /\ path_exists w (outputFile config) = true
       /\ truthy (stubFilesHash c) = true
       /\ (scanned_check w (stub_dirs config w) <> [] ->
           stubFilesHash c
           = JStr (stubs_fingerprint md5 (scanned_check w (stub_dirs config w))))
       /\ (forall compat, files w !! versionCompatPath config = Some compat ->
             date_lt (lastGenerated c) (mtime compat) = false
             /\ versionCompatHash c = JStr (md5 (content compat)))
       /\ (truthy (pythonVersion c) = true ->
           forall v, versionOf w (pythonExecutable config) = Done v ->
                     pythonVersion c = JStr (raw v))
       /\ plugins_force config w c = false.
Proof.
  rewrite needsRegeneration_decides. intros [= H].
  unfold regeneration_needed in H.
  destruct (forceRegeneration config); [done|]. split; [done|].
  destruct (path_exists w (cacheFile config)); [|done]. simpl in H.
  destruct (files w !! cacheFile config) as [cache|]; [|done].
  destruct (JSON_parse (content cache)) as [parsed|] eqn:Hparse; [|done].
  destruct (path_exists w (pythonScript config)); [|done]. simpl in H.
  destruct (files w !! pythonScript config) as [script|]; [|done].
  destruct parsed as [c|]; [|done].
  destruct (date_lt (lastGenerated c) (mtime script)) eqn:Hdate; [done|].
  destruct (compat_newer config w c) eqn:Hnewer; [done|].
  destruct (version_changed config w c) eqn:Hversion; [done|].
  destruct (path_exists w (outputFile config)) eqn:Hout; [|done]. simpl in H.
  destruct (stubs_changed config md5 w c) eqn:Hstubs; [done|].
  destruct (strict_eq_str (scriptHash c) (md5 (content script))) eqn:Hhash; [|done].
  simpl in H.
  destruct (compat_changed config md5 w c) eqn:Hcompat; [done|].
  exists cache, c, script.
  repeat (split; [done|]).
  split; [by apply strict_eq_str_true|]. split; [done|].
  unfold stubs_changed in Hstubs.
  destruct (truthy (stubFilesHash c)); [|done].
  split; [done|]. split; [|split; [|split; [|done]]].
  - intros Hfound. destruct (scanned_check w (stub_dirs config w)) as [|x l]; [done|].
    simpl in Hstubs. apply strict_eq_str_true. by apply negb_false_iff.
  - intros compat Hfile. unfold compat_newer, compat_changed in *.
    rewrite (path_exists_file w _ compat Hfile), Hfile in Hnewer, Hcompat.
    split; [done|]. apply strict_eq_str_true. by apply negb_false_iff.
  - intros Htruthy v Hv. unfold version_changed in Hversion.
    rewrite Htruthy, Hv in Hversion.
    apply strict_eq_str_true. by apply negb_false_iff.
Qed.

Lemma cache_hit_sound_witness :
  forceRegeneration Examples.cfg = false
  /\ exists cache c script,
       files Examples.cached !! cacheFile Examples.cfg = Some cache
       /\ Examples.JSON_parse (content cache) = Done (Some c)
       /\ files Examples.cached !! pythonScript Examples.cfg = Some script
       /\ date_lt (lastGenerated c) (mtime script) = false
       /\ scriptHash c = JStr (Examples.md5 (content script))
       /\ path_exists Examples.cached (outputFile Examples.cfg) = true
       /\ truthy (stubFilesHash c) = true
       /\ (scanned_check Examples.cached (stub_dirs Examples.cfg Examples.cached) <> [] ->
           stubFilesHash c
           = JStr (stubs_fingerprint Examples.md5
                     (scanned_check Examples.cached
                        (stub_dirs Examples.cfg Examples.cached))))
       /\ (forall compat,
             files Examples.cached !! versionCompatPath Examples.cfg = Some compat ->
             date_lt (lastGenerated c) (mtime compat) = false
             /\ versionCompatHash c = JStr (Examples.md5 (content compat)))
       /\ (truthy (pythonVersion c) = true ->
           forall v, versionOf Examples.cached (pythonExecutable Examples.cfg) = Done v ->
                     pythonVersion c = JStr (raw v))
       /\ plugins_force Examples.cfg Examples.cached c = false.
Proof.
  apply (cache_hit_sound Examples.cfg Examples.md5 Examples.JSON_parse Examples.cached).
  vm_compute. reflexivity.
Defined.

Lemma unobtrusive_unlink : unobtrusive (fun w => select is_unlink (trace w)).
Proof. apply unobtrusive_select. by intros []. Qed.

(** X11.  The cache check only reads.  [needsRegeneration] always
    returns an answer, it never throws; it leaves every file and
    directory as it was, writes nothing, removes nothing, and never
    starts the generator script. *)
Theorem cache_check_only_reads
    (config : Config) (md5 : string -> string)
    (JSON_parse : string -> Outcome (option CacheData)) (w : World) :
  (exists answer, fst (needsRegeneration config md5 JSON_parse w) = Done answer)
  /\ files (snd (needsRegeneration config md5 JSON_parse w)) = files w
  /\ dirs (snd (needsRegeneration config md5 JSON_parse w)) = dirs w
  /\ select is_write (trace (snd (needsRegeneration config md5 JSON_parse w)))
     = select is_write (trace w)
  /\ select is_unlink (trace (snd (needsRegeneration config md5 JSON_parse w)))
     = select is_unlink (trace w)
  /\ select is_spawn (trace (snd (needsRegeneration config md5 JSON_parse w)))
     = select is_spawn (trace w).
Proof.
  split; [eexists; apply needsRegeneration_decides|].
  pose proof (preserves_needsRegeneration disk unobtrusive_disk config md5 JSON_parse
                (fun _ _ => eq_refl) w) as Hdisk.
  unfold disk in Hdisk. injection Hdisk as Hfiles Hdirs.
  split; [done|]. split; [done|].
  split; [|split].
  - apply (preserves_needsRegeneration _ unobtrusive_write config md5 JSON_parse
             (fun _ => tolerates_select _ _ eq_refl)).
  - apply (preserves_needsRegeneration _ unobtrusive_unlink config md5
             JSON_parse (fun _ => tolerates_select _ _ eq_refl)).
  - apply (preserves_needsRegeneration _ unobtrusive_spawn config md5 JSON_parse
             (fun _ => tolerates_select _ _ eq_refl)).
Qed.

(* ===================================================================== *)
(** ** Writing the output and the cache                                   *)
(* ===================================================================== *)

Section OutputOutcome.

Variable config : Config.

Lemma path_exists_with_trace t w p : path_exists (with_trace t w) p = path_exists w p.
Proof. reflexivity. Qed.

Lemma writeOutput_returns data w :
  exists t d,
    writeOutput config data w
    = (Done (can_write_output config w),
       with_trace t
         (with_dirs d
            (with_files (if can_write_output config w
                         then <[outputFile config := {| content := data; mtime := now w |}]>
                                (files w)
                         else files w) w)))
    /\ select is_write t
       = select is_write (trace w)
         ++ (if can_write_output config w then [EWriteFile (outputFile config) data]
             else [])
    /\ (d = dirs w \/ d = {[outputDir config]} ∪ dirs w)
    /\ (can_write_output config w = true ->
        outputDir config ∈ d \/ path_exists w (outputDir config) = true).
Proof.
  unfold writeOutput, can_write_output.
  destruct (logPerf_run config "Writing generated types to file" w) as [t0 E0].
  assert (Hsel0 : select is_write t0 = select is_write (trace w)).
  { pose proof (preserves_logPerf _ unobtrusive_write config
                  "Writing generated types to file" w) as P.
    by rewrite E0 in P. }
  unfold bind at 1. rewrite E0.
  cbv beta iota delta [try_catch bind existsSync gets ret emit mkdirSync writeFileSync].
  simpl. rewrite !path_exists_with_trace.
  destruct (path_exists w (outputDir config)) eqn:Hdir; simpl.
  - destruct (writable w (outputFile config)) eqn:Hw; simpl.
    + match goal with
      | |- context [logPerf config ?m ?W] =>
          destruct (logPerf_run config m W) as [t1 E1];
          pose proof (preserves_logPerf _ unobtrusive_write config m W) as P1;
          rewrite E1 in *
      end.
      simpl in *. exists t1, (dirs w). split; [done|]. split.
      { by rewrite P1, select_app, Hsel0. }
      split; [by left|]. intros _. by right.
    + eexists _, (dirs w). split; [reflexivity|]. split.
      { rewrite select_app. simpl. by rewrite Hsel0. }
      split; [by left|done].
  - destruct (writable w (outputDir config)) eqn:Hwd; simpl.
    + destruct (writable w (outputFile config)) eqn:Hw; simpl.
      * match goal with
        | |- context [logPerf config ?m ?W] =>
            destruct (logPerf_run config m W) as [t1 E1];
            pose proof (preserves_logPerf _ unobtrusive_write config m W) as P1;
            rewrite E1 in *
        end.
        simpl in *. exists t1, ({[outputDir config]} ∪ dirs w). split; [done|]. split.
        { rewrite P1, !select_app, Hsel0. simpl. by rewrite app_nil_r. }
        split; [by right|]. intros _. left. set_solver.
      * eexists _, ({[outputDir config]} ∪ dirs w). split; [reflexivity|]. split.
        { rewrite !select_app. simpl. by rewrite Hsel0, !app_nil_r. }
        split; [by right|done].
    + eexists _, (dirs w). split; [reflexivity|]. split.
      { rewrite select_app. simpl. by rewrite Hsel0. }
      split; [by left|done].
Qed.

End OutputOutcome.

Section CacheOutcome.

Variable config : Config.
Variable md5 : string -> string.
Variable JSON_stringify : CacheData -> string.

Lemma updateCache_returns data ver w :
  exists t,
    updateCache config md5 JSON_stringify data ver w
    = (Done (can_update_cache config md5 w data ver),
       with_trace t
         (with_files
            (match cache_record config md5 w data ver with
             | Some c =>
                 if writable w (cacheFile config)
                 then <[cacheFile config :=
                          {| content := JSON_stringify c; mtime := now w |}]> (files w)
                 else files w
             | None => files w
             end) w))
    /\ select is_write t
       = select is_write (trace w)
         ++ match cache_record config md5 w data ver with
            | Some c =>
                if writable w (cacheFile config)
                then [EWriteFile (cacheFile config) (JSON_stringify c)]
                else []
            | None => []
            end.
Proof.
  unfold updateCache, can_update_cache.
  destruct (logPerf_run config "Updating cache" w) as [t0 E0].
  assert (Hsel0 : select is_write t0 = select is_write (trace w)).
  { pose proof (preserves_logPerf _ unobtrusive_write config "Updating cache" w) as P.
    by rewrite E0 in P. }
  unfold bind at 1. rewrite E0.
  destruct (new_cacheData_run config md5 data ver (with_trace t0 w)) as (t1 & Hw1 & Hc).
  assert (Hsel1 : select is_write t1 = select is_write (trace w)).
  { assert (Hp : preserves (fun w => select is_write (trace w))
                   (new_cacheData config md5 data ver))
      by (unfold new_cacheData; pres).
    specialize (Hp (with_trace t0 w)). rewrite Hw1 in Hp. simpl in Hp. congruence. }
  rewrite cache_record_with_trace in Hc.
  unfold try_catch, bind at 1.
  destruct (new_cacheData config md5 data ver (with_trace t0 w)) as [[c|e] w1] eqn:Hnew;
    simpl in Hw1; subst w1.
  - rewrite (proj1 (Hc c) eq_refl).
    cbv beta iota delta [bind writeFileSync ret emit]. simpl.
    destruct (writable w (cacheFile config)); simpl.
    + match goal with
      | |- context [logPerf config ?m ?W] =>
          destruct (logPerf_run config m W) as [t2 E2];
          pose proof (preserves_logPerf _ unobtrusive_write config m W) as P2;
          rewrite E2 in *
      end.
      simpl in *. exists t2. split; [done|].
      by rewrite P2, select_app, Hsel1.
    + eexists. split; [reflexivity|].
      rewrite select_app. simpl. by rewrite Hsel1.
  - destruct (cache_record config md5 w data ver) as [c|] eqn:Hrec.
    { by pose proof (proj2 (Hc c) eq_refl). }
    cbv beta iota delta [bind ret emit]. simpl.
    eexists. split; [reflexivity|].
    rewrite select_app. simpl. by rewrite Hsel1.
Qed.

End CacheOutcome.



(* ===================================================================== *)
(** ** Runs of the script, whatever becomes of the steps                  *)
(* ===================================================================== *)

Section AnyRun.

Variable config : Config.
Variable md5 : string -> string.
Variable JSON_parse : string -> Outcome (option CacheData).
Variable JSON_stringify : CacheData -> string.

Lemma writeOutput_Done data w :
  fst (writeOutput config data w) = Done (can_write_output config w).
Proof. by destruct (writeOutput_returns config data w) as (t & d & -> & _). Qed.

Lemma updateCache_Done data ver w :
  fst (updateCache config md5 JSON_stringify data ver w)
  = Done (can_update_cache config md5 w data ver).
Proof.
  by destruct (updateCache_returns config md5 JSON_stringify data ver w) as (t & -> & _).
Qed.

(** A run whose generator resolves. *)
Lemma main_generated_run w g :
  fst (needsRegeneration config md5 JSON_parse (at_cache_check config w)) = Done true ->
  fst (generateTypes config (after_cache_check config md5 JSON_parse w)) = Done g ->
  main config md5 JSON_parse JSON_stringify w
  = (Done 0,
     snd (main_finally config
            (snd (logPerf config "Type generation completed successfully"
                    (snd (executePluginHook POST_GENERATION
                            (postGeneration_context config (Text (output g)) true
                               (generatedVersion g))
                            (snd (updateCache config md5 JSON_stringify (output g)
                                    (generatedVersion g)
                                    (after_output config md5 JSON_parse w g))))))))).
Proof.
  intros Hneeded Hgen.
  unfold after_output, after_generation, after_cache_check, at_cache_check in *.
  unfold main, main_body.
  rewrite (bind_run _ _ _ tt (logPerf_Done _ _ _)).
  rewrite (bind_run _ _ _ tt (setupPlugins_Done _ _)).
  rewrite (bind_run _ _ _ true Hneeded).
  cbv beta iota.
  rewrite (bind_run _ _ _ g Hgen).
  rewrite (bind_run _ _ _ _ (writeOutput_Done _ _)).
  rewrite (bind_run _ _ _ _ (updateCache_Done _ _ _)).
  rewrite (bind_run _ _ _ _ (executePluginHook_Done _ _ _)).
  match goal with
  | |- context [logPerf config ?m ?W] =>
      rewrite (surjective_pairing (logPerf config m W)), logPerf_Done
  end.
  rewrite (bind_run _ _ _ tt (main_finally_Done _ _)).
  reflexivity.
Qed.

(** A run whose generator rejects. *)
Lemma main_failed_run w e :
  fst (needsRegeneration config md5 JSON_parse (at_cache_check config w)) = Done true ->
  fst (generateTypes config (after_cache_check config md5 JSON_parse w)) = Thrown e ->
  main config md5 JSON_parse JSON_stringify w
  = (Done 1,
     with_trace (trace (after_generation config md5 JSON_parse w)
                 ++ [EConsole LError ("Error generating types: " +:+ e); EExit 1])
       (after_generation config md5 JSON_parse w)).
Proof.
  intros Hneeded Hgen.
  unfold after_generation, after_cache_check, at_cache_check in *.
  unfold main, main_body.
  rewrite (bind_run _ _ _ tt (logPerf_Done _ _ _)).
  rewrite (bind_run _ _ _ tt (setupPlugins_Done _ _)).
  rewrite (bind_run _ _ _ true Hneeded).
  cbv beta iota.
  unfold bind at 1.
  destruct (generateTypes config _) as [[g|e'] wg]; simpl in *; [done|].
  injection Hgen as ->.
  cbv beta iota delta [bind emit ret]. simpl. by rewrite <- app_assoc.
Qed.

Lemma needsRegeneration_answer w :
  fst (needsRegeneration config md5 JSON_parse w) = Done true
  \/ fst (needsRegeneration config md5 JSON_parse w) = Done false.
Proof.
  rewrite needsRegeneration_decides.
  destruct (regeneration_needed config md5 JSON_parse w); auto.
Qed.

End AnyRun.

(** X14.  The exit code of a run.  [main] ends with code 0 or with code
    1, and with code 1 exactly when the cache check asks for a
    regeneration and [generateTypes] rejects.  What [writeOutput] and
    [updateCache] return is not looked at: a run whose output file or
    cache file could not be written still ends with code 0. *)
Theorem exit_code_of_a_run
    (config : Config) (md5 : string -> string)
    (JSON_parse : string -> Outcome (option CacheData))
    (JSON_stringify : CacheData -> string) (w : World) :
  (fst (main config md5 JSON_parse JSON_stringify w) = Done 0
   \/ fst (main config md5 JSON_parse JSON_stringify w) = Done 1)
  /\ (fst (main config md5 JSON_parse JSON_stringify w) = Done 1
      <-> fst (needsRegeneration config md5 JSON_parse (at_cache_check config w))
          = Done true
          /\ exists e,
               fst (generateTypes config (after_cache_check config md5 JSON_parse w))
               = Thrown e).
Proof.
  destruct (needsRegeneration_answer config md5 JSON_parse (at_cache_check config w))
    as [Hneeded|Hhit].
  - destruct (fst (generateTypes config (after_cache_check config md5 JSON_parse w)))
      as [g|e] eqn:Hgen.
    + rewrite (main_generated_run config md5 JSON_parse JSON_stringify w g Hneeded Hgen).
      simpl. split; [by left|]. split; [done|]. by intros [_ [e ?]].
    + rewrite (main_failed_run config md5 JSON_parse JSON_stringify w e Hneeded Hgen).
      simpl. split; [by right|]. split; [|done]. intros _. split; [done|by exists e].
  - rewrite (main_cached_run config md5 JSON_parse JSON_stringify w Hhit).
    simpl. split; [by left|]. split; [done|]. rewrite Hhit. by intros [? _].
Qed.

Section RunEnds.

Variable config : Config.
Variable md5 : string -> string.
Variable JSON_parse : string -> Outcome (option CacheData).
Variable JSON_stringify : CacheData -> string.



Lemma failed_run_inv w :
  fst (main config md5 JSON_parse JSON_stringify w) = Done 1 ->
  fst (needsRegeneration config md5 JSON_parse (at_cache_check config w)) = Done true
  /\ exists e,
       fst (generateTypes config (after_cache_check config md5 JSON_parse w)) = Thrown e.
Proof.
  destruct (needsRegeneration_answer config md5 JSON_parse (at_cache_check config w))
    as [Hneeded|Hhit].
  - destruct (fst (generateTypes config (after_cache_check config md5 JSON_parse w)))
      as [g|e] eqn:Hgen.
    + by rewrite (main_generated_run config md5 JSON_parse JSON_stringify w g Hneeded Hgen).
    + intros _. split; [done|by exists e].
  - by rewrite (main_cached_run config md5 JSON_parse JSON_stringify w Hhit).
Qed.

Lemma preserved_up_to_generation {X} (obs : World -> X) w :
  unobtrusive obs ->
  (forall exe, tolerates obs (EVersionProbe exe)) ->
  (forall exe, tolerates obs (EWhich exe)) ->
  preserves obs (openSync_w (tempOutputFile config)) ->
  (forall exe script e, preserves obs (spawn config exe script e)) ->
  obs (after_generation config md5 JSON_parse w) = obs w.
Proof.
  intros Hunob Hprobe Hwhich Hopen Hspawn.
  unfold after_generation, after_cache_check, at_cache_check.
  rewrite (preserves_generateTypes_if _ Hunob config Hprobe Hwhich Hopen Hspawn).
  rewrite (preserves_needsRegeneration _ Hunob config md5 JSON_parse Hprobe).
  rewrite (preserves_setupPlugins _ Hunob config).
  by rewrite (preserves_logPerf _ Hunob config).
Qed.

End RunEnds.

(** X15.  A run that fails changes no result.  When [main] ends with
    code 1, [process.exit(1)] is the last thing it does: the [finally]
    block is not reached, so nothing is removed, the temporary file
    included; and up to there the script has written no file, and left
    every file other than the temporary file as it was, the output file
    and the cache file among them. *)
Theorem failed_run_changes_no_result
    (config : Config) (md5 : string -> string)
    (JSON_parse : string -> Outcome (option CacheData))
    (JSON_stringify : CacheData -> string) (w : World) :
  fst (main config md5 JSON_parse JSON_stringify w) = Done 1 ->
  last (trace (snd (main config md5 JSON_parse JSON_stringify w))) = Some (EExit 1)
  /\ files (snd (main config md5 JSON_parse JSON_stringify w))
     = files (after_generation config md5 JSON_parse w)
  /\ (forall p, p <> tempOutputFile config ->
        files (snd (main config md5 JSON_parse JSON_stringify w)) !! p = files w !! p)
  /\ select is_write (trace (snd (main config md5 JSON_parse JSON_stringify w)))
     = select is_write (trace w)
  /\ select is_unlink (trace (snd (main config md5 JSON_parse JSON_stringify w)))
     = select is_unlink (trace w).
Proof.
  intros Hexit.
  destruct (failed_run_inv config md5 JSON_parse JSON_stringify w Hexit)
    as (Hneeded & e & Hgen).
  rewrite (main_failed_run config md5 JSON_parse JSON_stringify w e Hneeded Hgen).
  simpl. split; [|split; [done|split; [|split]]].
  - by rewrite last_app.
  - intros p Hp.
    by destruct (file_at_eq _ _ _
                   (file_at_after_generation config md5 JSON_parse p w Hp)) as (? & _).
  - rewrite select_app. simpl. rewrite app_nil_r.
    apply (preserved_up_to_generation config md5 JSON_parse
             (fun w => select is_write (trace w)) w unobtrusive_write
             (fun _ => tolerates_select _ _ eq_refl)
             (fun _ => tolerates_select _ _ eq_refl)
             (preserves_openSync_w _ (disk_blind_select _)
                (fun _ => tolerates_select _ _ eq_refl) _)
             (preserves_spawn _ config (disk_blind_select _)
                (fun _ _ _ => tolerates_select _ _ eq_refl))).
  - rewrite select_app. simpl. rewrite app_nil_r.
    apply (preserved_up_to_generation config md5 JSON_parse
             (fun w => select is_unlink (trace w)) w unobtrusive_unlink
             (fun _ => tolerates_select _ _ eq_refl)
             (fun _ => tolerates_select _ _ eq_refl)
             (preserves_openSync_w _ (disk_blind_select _)
                (fun _ => tolerates_select _ _ eq_refl) _)
             (preserves_spawn _ config (disk_blind_select _)
                (fun _ _ _ => tolerates_select _ _ eq_refl))).
Qed.

Lemma failed_run_changes_no_result_witness :
  files (snd (Examples.run Failures.failing_generator)) !! "/proj/src/types/featuretools.ts"
  = None
  /\ files (snd (Examples.run Failures.failing_generator)) !! "/proj/.type-cache.json"
     = None
  /\ files (snd (Examples.run Failures.failing_generator)) !! "/tmp/featuretools-types-1.ts"
     = Some {| content := "partial"; mtime := 2000 |}.
Proof.
  destruct (failed_run_changes_no_result Examples.cfg Examples.md5 Examples.JSON_parse
              Examples.JSON_stringify Failures.failing_generator)
    as (_ & Hfiles & Hkept & _).
  - vm_compute. reflexivity.
  - unfold Examples.run. split; [|split].
    + rewrite (Hkept "/proj/src/types/featuretools.ts") by discriminate.
      vm_compute. reflexivity.
    + rewrite (Hkept "/proj/.type-cache.json") by discriminate.
      vm_compute. reflexivity.
    + rewrite Hfiles. vm_compute. reflexivity.
Defined.






(* ===================================================================== *)
(** ** The stub scan, once more                                           *)
(* ===================================================================== *)

(** X19.  The fingerprint looks at no more than 100 stub files: the
    sample taken from the files found has at most 100 elements, exactly
    10 when more than 100 files are found, and every element of it is
    one of the files found. *)
Theorem samples_bounded (stubFiles : list (string * Z)) :
  (length (samplesToCheck stubFiles) <= 100)%nat
  /\ ((100 < length stubFiles)%nat -> length (samplesToCheck stubFiles) = 10%nat)
  /\ forall f, In f (samplesToCheck stubFiles) -> In f stubFiles.
Proof.
  unfold samplesToCheck.
  destruct (Nat.ltb_spec 100 (length stubFiles)) as [Hlt|Hle].
  - assert (Hlen : length (take 5 stubFiles
                           ++ drop (length stubFiles - 5) stubFiles) = 10%nat).
    { rewrite length_app, length_take, length_drop. lia. }
    split; [lia|]. split; [done|].
    intros f [Hf|Hf]%in_app_iff; apply list_elem_of_In in Hf; apply list_elem_of_In.
    + by apply (subseteq_take 5 stubFiles).
    + by apply (subseteq_drop (length stubFiles - 5) stubFiles).
  - split; [done|]. split; [lia|done].
Qed.

(** X20.  The scan of [needsRegeneration] stops at the first directory
    it cannot read, the scan of [updateCache] skips that directory and
    goes on: on every tree, what the first finds is the beginning of
    what the second finds, and they find the same when the first meets
    no unreadable directory. *)
Theorem check_scan_is_prefix_of_update_scan (es : Dirents) (dir : string) :
  exists more,
    fst (findStubFiles_update dir es) = fst (findStubFiles_check dir es) ++ more
    /\ (snd (findStubFiles_check dir es) = None -> more = []).
Proof.
  revert dir.
  induction es as [|n m rest IH|n r sub rest IHsub IH] using Dirents_tree_ind;
    intros dir; simpl.
  - by exists [].
  - destruct (IH dir) as (more & Hu & Hnone).
    destruct (findStubFiles_update dir rest) as [u evs],
             (findStubFiles_check dir rest) as [c err]. simpl in *. subst u.
    exists more. by destruct (endsWith n ".pyi").
  - destruct (IH dir) as (more & Hu & Hnone).
    destruct (IHsub (path_join dir n)) as (more_sub & Hus & Hnone_sub).
    destruct (findStubFiles_update dir rest) as [u evs],
             (findStubFiles_check dir rest) as [c err].
    destruct (findStubFiles_update (path_join dir n) sub) as [us evs_sub],
             (findStubFiles_check (path_join dir n) sub) as [cs err_sub].
    simpl in *. subst u us.
    destruct r; simpl.
    + destruct err_sub as [e|]; simpl.
      * exists (more_sub ++ c ++ more). split; [by rewrite <- !app_assoc|done].
      * rewrite (Hnone_sub eq_refl), app_nil_r.
        exists more. split; [by rewrite <- app_assoc|done].
    + exists (c ++ more). by split.
Qed.

(* ===================================================================== *)
(** ** The version probe                                                  *)
(* ===================================================================== *)

(** X21.  [checkPythonVersion] never throws.  It starts one process, the
    probe of the configured executable, and nothing else; it returns
    [null] exactly when the probe fails, and otherwise the version the
    executable reported, marked supported exactly when it is inside the
    configured range; and it changes no file. *)
Theorem version_probe_outcome (config : Config) (w : World) :
  fst (checkPythonVersion config w) = Done (currentVersion config w)
  /\ (currentVersion config w = None
      <-> exists e, versionOf w (pythonExecutable config) = Thrown e)
  /\ (forall v, currentVersion config w = Some v ->
        versionOf w (pythonExecutable config) = Done (info v)
        /\ isSupported v = version_in_range config (info v))
  /\ select is_process (trace (snd (checkPythonVersion config w)))
     = select is_process (trace w) ++ [EVersionProbe (pythonExecutable config)]
  /\ files (snd (checkPythonVersion config w)) = files w.
Proof.
  destruct (checkPythonVersion_returns config w) as (t & -> & Ht). simpl.
  split; [done|]. unfold currentVersion.
  destruct (versionOf w (pythonExecutable config)) as [v|e].
  - split; [split; [done|by intros [e ?]]|].
    split; [|done]. by intros v0 [= <-].
  - split; [split; [by exists e|done]|]. by split.
Qed.

(* ===================================================================== *)
(** ** The command line                                                   *)
(* ===================================================================== *)

Lemma indexOf_first (pre post : list string) (flag : string) :
  ~ In flag pre -> indexOf (pre ++ flag :: post) flag = Some (length pre).
Proof.
  induction pre as [|x pre IH]; simpl; intros Hpre.
  - by rewrite String.eqb_refl.
  - destruct (String.eqb_spec x flag) as [->|Hne]; [destruct Hpre; by left|].
    rewrite IH; [done|]. intros Hin. apply Hpre. by right.
Qed.

Lemma indexOf_none (l : list string) (flag : string) :
  ~ In flag l -> indexOf l flag = None.
Proof.
  induction l as [|x l IH]; simpl; intros Hl; [done|].
  destruct (String.eqb_spec x flag) as [->|Hne]; [destruct Hl; by left|].
  rewrite IH; [done|]. intros Hin. apply Hl. by right.
Qed.

Lemma argument_after_first (pre post : list string) (flag v : string) :
  ~ In flag pre -> argument_after (pre ++ flag :: v :: post) flag = Some v.
Proof.
  intros Hpre. unfold argument_after. rewrite (indexOf_first pre (v :: post) flag Hpre).
  rewrite length_app. simpl.
  destruct (Nat.ltb_spec (length pre + 1) (length pre + S (S (length post)))); [|lia].
  rewrite lookup_app_r by lia.
  by replace (length pre + 1 - length pre)%nat with 1%nat by lia.
Qed.

Lemma argument_after_last (pre : list string) (flag : string) :
  ~ In flag pre -> argument_after (pre ++ [flag]) flag = None.
Proof.
  intros Hpre. unfold argument_after. rewrite (indexOf_first pre [] flag Hpre).
  rewrite length_app. simpl.
  by destruct (Nat.ltb_spec (length pre + 1) (length pre + 1)); [lia|].
Qed.

(** X22.  Options with a value.  The output path and the interpreter
    are taken from the argument that follows the first [--output] and
    the first [--python]: the path is resolved against the working
    directory, the interpreter overrides [PYTHON_EXECUTABLE].  An option
    that comes last, with nothing after it, is ignored, as is an option
    that is not given: the defaults stay. *)
Theorem options_with_a_value
    (processEnv : gmap string string) (resolve_cwd : string -> string)
    (default : string) (pre post : list string) (v : string) :
  ~ In "--output" pre ->
  ~ In "--python" pre ->
  cli_outputFile (pre ++ "--output" :: v :: post) resolve_cwd default = resolve_cwd v
  /\ cli_pythonExecutable (pre ++ "--python" :: v :: post) processEnv = v
  /\ cli_outputFile (pre ++ ["--output"]) resolve_cwd default = default
  /\ cli_pythonExecutable (pre ++ ["--python"]) processEnv
     = env_default (processEnv !! "PYTHON_EXECUTABLE") "python3"
  /\ cli_outputFile pre resolve_cwd default = default
  /\ cli_pythonExecutable pre processEnv
     = env_default (processEnv !! "PYTHON_EXECUTABLE") "python3".
Proof.
  intros Hout Hpy. unfold cli_outputFile, cli_pythonExecutable.
  rewrite !argument_after_first, !argument_after_last by done.
  unfold argument_after. by rewrite !indexOf_none.
Qed.

Lemma options_with_a_value_witness :
  cli_outputFile ["node"; "generate-types.js"; "--force"; "--output"; "out.ts"]
    (fun p => "/cwd/" +:+ p) "/proj/src/types/featuretools.ts"
  = "/cwd/out.ts"
  /\ cli_pythonExecutable ["node"; "generate-types.js"; "--force"; "--python"; "out.ts"]
       {[ "PYTHON_EXECUTABLE" := "python3.9" ]}
     = "out.ts".
Proof.
  destruct (options_with_a_value {[ "PYTHON_EXECUTABLE" := "python3.9" ]}
              (fun p => "/cwd/" +:+ p) "/proj/src/types/featuretools.ts"
              ["node"; "generate-types.js"; "--force"] [] "out.ts")
    as (H1 & H2 & _).
  - intros [H|[H|[H|[]]]]; discriminate.
  - intros [H|[H|[H|[]]]]; discriminate.
  - by split.
Defined.

(* ===================================================================== *)
(** ** The generation, step by step                                       *)
(* ===================================================================== *)

Lemma bind_eq {A B} (m : M A) (k : A -> M B) w a w1 :
  m w = (Done a, w1) -> bind m k w = k a w1.
Proof. unfold bind. by intros ->. Qed.

Section GenerationSteps.

Variable config : Config.

Lemma findBestPythonExecutable_run w :
  exists t, findBestPythonExecutable config w
            = (Done (best_interpreter config w), with_trace t w).
Proof.
  unfold findBestPythonExecutable, best_interpreter, configured_supported, possibleVersions.
  destruct (checkPythonVersion_returns config w) as (t & Hcheck & _).
  rewrite (bind_eq _ _ _ _ _ Hcheck).
  destruct (match currentVersion config w with
            | Some v => isSupported v
            | None => false
            end); [by exists t|].
  cbv beta iota delta [bind gets].
  change (platform_win32 (with_trace t w)) with (platform_win32 w).
  destruct (platform_win32 w).
  - match goal with
    | |- context [Array_sort _ (found_installed config w ?L)] =>
        set (pv := found_installed config w L)
    end.
    match goal with
    | |- context [try_candidatePaths config ?l ?W] =>
        destruct (try_candidatePaths_returns config l W) as [t1 ->]
    end.
    match goal with
    | |- context [found_installed config ?W ?L] =>
        change (found_installed config W L) with pv
    end.
    destruct (Array_sort (by_distance config) pv) as [|b r]; [by eexists|].
    destruct (logPerf_run config
                ("Using Python " +:+ raw (info (snd b)) +:+ " at " +:+ fst b)
                (with_trace t1 (with_trace t w))) as [t2 ->].
    by exists t2.
  - set (pv := found_on_path config w candidateExecutables).
    destruct (try_candidateExecutables_returns config candidateExecutables
                (with_trace t w)) as [t1 ->].
    change (found_on_path config (with_trace t w) candidateExecutables) with pv.
    destruct (Array_sort (by_distance config) pv) as [|b r]; [by eexists|].
    destruct (logPerf_run config
                ("Using Python " +:+ raw (info (snd b)) +:+ " at " +:+ fst b)
                (with_trace t1 (with_trace t w))) as [t2 ->].
    by exists t2.
Qed.

Lemma executePluginHook_returns hook context w :
  exists t,
    executePluginHook hook context w
    = (Done (hook_result w hook context),
       with_pluginManager (manager_after w hook context) (with_trace t w)).
Proof.
  unfold executePluginHook, hook_result, manager_after, bind, gets, try_catch, ret.
  destruct (pluginManager w) as [pm|] eqn:Hpm.
  - destruct (executeHook (requireModule w) pm hook context) as [[pm' r] evs].
    simpl. exists (trace w ++ evs). by destruct w.
  - exists (trace w). destruct w; simpl in *. by subst.
Qed.

Lemma log_perf_chunks_run chunks w :
  exists t, log_perf_chunks config chunks w = (Done tt, with_trace t w).
Proof.
  revert w. induction chunks as [|c l IH]; intros w; simpl.
  - exists (trace w). by rewrite with_trace_id.
  - unfold bind at 1.
    destruct (includes c "[PERF]" && debugMode config); unfold emit, ret;
      match goal with
      | |- context [log_perf_chunks config _ ?W] => destruct (IH W) as [t ->]
      end; by exists t.
Qed.

End GenerationSteps.

Ltac world_fields :=
  cbn [files dirs trees writable env now platform_win32 username versionOf which python
       discoveredPlugins requireModule pluginManager trace
       with_trace with_files with_dirs with_pluginManager].

Section GenerationOutcome.

Variable config : Config.

Lemma opt_logPerf_run (o : option string) (f : string -> string) W :
  exists t, (match o with Some r => logPerf config (f r) | None => ret tt end) W
            = (Done tt, with_trace t W).
Proof.
  destruct o; [apply logPerf_run|]. exists (trace W). by rewrite with_trace_id.
Qed.

Lemma if_logPerf_run (b : bool) (m : string) W :
  exists t, (if b then logPerf config m else ret tt) W = (Done tt, with_trace t W).
Proof.
  destruct b; [apply logPerf_run|]. exists (trace W). by rewrite with_trace_id.
Qed.

Lemma generateTypes_outcome w :
  fst (generateTypes config w) = generation_outcome config w.
Proof.
  unfold generateTypes.
  destruct (logPerf_run config "Generating TypeScript types" w) as [t1 E1].
  rewrite (bind_eq _ _ _ _ _ E1).
  destruct (findBestPythonExecutable_run config (with_trace t1 w)) as [t2 E2].
  change (best_interpreter config (with_trace t1 w)) with (best_interpreter config w) in E2.
  rewrite (bind_eq _ _ _ _ _ E2). cbv zeta.
  fold (best_version config w).
  destruct (opt_logPerf_run (best_version config w)
              (fun r => "Using Python " +:+ r +:+ " for type generation")
              (with_trace t2 (with_trace t1 w))) as [t3 E3].
  cbv beta in E3. rewrite (bind_eq _ _ _ _ _ E3).
  rewrite (bind_eq (gets env) _ _ _ _ eq_refl). world_fields.
  destruct (if_logPerf_run (debugMode config)
              ("TypeScript 4.9+ features "
               +:+ (if useTS49Features config then "enabled" else "disabled"))
              (with_trace t3 (with_trace t2 (with_trace t1 w)))) as [t5 E5].
  rewrite (bind_eq _ _ _ _ _ E5).
  match goal with
  | |- context [bind (findStubDirectories config) _ ?W] =>
      destruct (findStubDirectories_run config W) as [t6 E6];
      change (stub_dirs config W) with (stub_dirs config w) in E6;
      rewrite (bind_eq _ _ _ _ _ E6)
  end.
  rewrite (bind_eq (gets platform_win32) _ _ _ _ eq_refl). world_fields.
  match goal with
  | |- context [bind (if ?b then logPerf config ?m else ret tt) _ ?W] =>
      destruct (if_logPerf_run b m W) as [t8 E8];
      rewrite (bind_eq _ _ _ _ _ E8)
  end.
  fold (host_env config w). fold (preConversion_context config w).
  match goal with
  | |- context [bind (executePluginHook ?h ?c) _ ?W] =>
      destruct (executePluginHook_returns h c W) as [t9 E9];
      change (hook_result W h c) with (preConversion_result config w) in E9;
      change (manager_after W h c)
        with (manager_after w PRE_CONVERSION (preConversion_context config w)) in E9;
      rewrite (bind_eq _ _ _ _ _ E9)
  end.
  clear E1 E2 E3 E5 E6 E8 E9.
  unfold generation_outcome, child_env.
  destruct (metadata (preConversion_result config w)) as [md|]; [|reflexivity].
  cbv beta iota delta [bind try_catch ret throw openSync_w spawn emit]. world_fields.
  destruct (writable w (tempOutputFile config)); [|reflexivity].
  cbv beta iota. world_fields.
  match goal with
  | |- context [python w ?exe ?script ?childEnv] =>
      destruct (python w exe script childEnv) as [e|code out chunks]
  end; cbv beta iota.
  - match goal with
    | |- context [executePluginHook ?h ?c ?W] =>
        destruct (executePluginHook_returns h c W) as [t10 ->]
    end.
    reflexivity.
  - match goal with
    | |- context [log_perf_chunks config ?c ?W] =>
        destruct (log_perf_chunks_run config c W) as [t10 ->]
    end.
    match goal with
    | |- context [logPerf config ?m ?W] =>
        destruct (logPerf_run config m W) as [t11 ->]
    end.
    destruct (code =? 0); cbn [negb]; cbv beta iota.
    + match goal with
      | |- context [(if ?b then _ else _) ?W] =>
          destruct b; cbv beta iota
      end.
      all: match goal with
           | |- context [postConversion config ?e ?wn ?v ?W] =>
               destruct (postConversion_run config e wn v W
                           {| content := out;
                              mtime := now w |}) as (t12 & pm12 & ->);
                 [world_fields; apply lookup_insert_eq|]
           end.
      all: reflexivity.
    + match goal with
      | |- context [executePluginHook ?h ?c ?W] =>
          destruct (executePluginHook_returns h c W) as [t12 ->]
      end.
      reflexivity.
Qed.

End GenerationOutcome.

Section GenerationTrace.

Variable config : Config.

Lemma spawn_free_logPerf m W t :
  logPerf config m W = (Done tt, with_trace t W) ->
  select is_spawn t = select is_spawn (trace W).
Proof.
  intros E.
  apply (preserved_by _ _ _ _ _ (preserves_logPerf _ unobtrusive_spawn config m) E).
Qed.

Lemma spawn_free_hook h c W r W' :
  executePluginHook h c W = (r, W') ->
  select is_spawn (trace W') = select is_spawn (trace W).
Proof.
  intros E.
  apply (preserved_by _ _ _ _ _ (preserves_executePluginHook _ unobtrusive_spawn h c) E).
Qed.

(** Up to the PRE_CONVERSION hook no generator is started. *)
Lemma generateTypes_spawns w :
  select is_spawn (trace (snd (generateTypes config w)))
  = select is_spawn (trace w) ++ spawned config w.
Proof.
  unfold generateTypes.
  destruct (logPerf_run config "Generating TypeScript types" w) as [t1 E1].
  pose proof (spawn_free_logPerf _ _ _ E1) as P1.
  rewrite (bind_eq _ _ _ _ _ E1).
  destruct (findBestPythonExecutable_run config (with_trace t1 w)) as [t2 E2].
  pose proof (preserved_by _ _ _ _ _
                (preserves_findBestPythonExecutable _ unobtrusive_spawn config
                   (fun _ => tolerates_select _ _ eq_refl)
                   (fun _ => tolerates_select _ _ eq_refl)) E2) as P2.
  change (best_interpreter config (with_trace t1 w)) with (best_interpreter config w) in E2.
  rewrite (bind_eq _ _ _ _ _ E2). cbv zeta.
  fold (best_version config w).
  match goal with
  | |- context [bind (match ?o with Some r => _ | None => _ end) _ ?W] =>
      assert (exists t3, (match o with
                          | Some r => logPerf config
                                        ("Using Python " +:+ r +:+ " for type generation")
                          | None => ret tt
                          end) W = (Done tt, with_trace t3 W)
                         /\ select is_spawn t3 = select is_spawn (trace W))
        as (t3 & E3 & P3)
  end.
  { destruct (best_version config w) as [r|].
    - match goal with
      | |- context [logPerf config ?m ?W] =>
          destruct (logPerf_run config m W) as [t3 E3]
      end.
      exists t3. split; [done|]. by apply spawn_free_logPerf in E3.
    - eexists. split; [reflexivity|done]. }
  rewrite (bind_eq _ _ _ _ _ E3).
  rewrite (bind_eq (gets env) _ _ _ _ eq_refl). world_fields.
  match goal with
  | |- context [bind (if ?b then logPerf config ?m else ret tt) _ ?W] =>
      assert (exists t5, (if b then logPerf config m else ret tt) W
                         = (Done tt, with_trace t5 W)
                         /\ select is_spawn t5 = select is_spawn (trace W))
        as (t5 & E5 & P5)
  end.
  { destruct (debugMode config).
    - match goal with
      | |- context [logPerf config ?m ?W] =>
          destruct (logPerf_run config m W) as [t5 E5]
      end.
      exists t5. split; [done|]. by apply spawn_free_logPerf in E5.
    - eexists. split; [reflexivity|done]. }
  rewrite (bind_eq _ _ _ _ _ E5).
  match goal with
  | |- context [bind (findStubDirectories config) _ ?W] =>
      destruct (findStubDirectories_run config W) as [t6 E6];
      pose proof (preserved_by _ _ _ _ _
                    (preserves_findStubDirectories _ unobtrusive_spawn config) E6) as P6;
      change (stub_dirs config W) with (stub_dirs config w) in E6;
      rewrite (bind_eq _ _ _ _ _ E6)
  end.
  rewrite (bind_eq (gets platform_win32) _ _ _ _ eq_refl). world_fields.
  match goal with
  | |- context [bind (if ?b then logPerf config ?m else ret tt) _ ?W] =>
      assert (exists t8, (if b then logPerf config m else ret tt) W
                         = (Done tt, with_trace t8 W)
                         /\ select is_spawn t8 = select is_spawn (trace W))
        as (t8 & E8 & P8)
  end.
  { destruct (0 <? length (stub_dirs config w))%nat.
    - match goal with
      | |- context [logPerf config ?m ?W] =>
          destruct (logPerf_run config m W) as [t8 E8]
      end.
      exists t8. split; [done|]. by apply spawn_free_logPerf in E8.
    - eexists. split; [reflexivity|done]. }
  rewrite (bind_eq _ _ _ _ _ E8).
  fold (host_env config w). fold (preConversion_context config w).
  match goal with
  | |- context [bind (executePluginHook ?h ?c) _ ?W] =>
      destruct (executePluginHook_returns h c W) as [t9 E9];
      pose proof (spawn_free_hook _ _ _ _ _ E9) as P9;
      change (hook_result W h c) with (preConversion_result config w) in E9;
      change (manager_after W h c)
        with (manager_after w PRE_CONVERSION (preConversion_context config w)) in E9;
      rewrite (bind_eq _ _ _ _ _ E9)
  end.
  cbv beta in P2, P6.
  cbn [trace with_trace with_pluginManager] in P1, P2, P3, P5, P6, P8, P9.
  assert (Hpre : select is_spawn t9 = select is_spawn (trace w)) by congruence.
  clear E1 E2 E3 E5 E6 E8 E9 P1 P2 P3 P5 P6 P8 P9.
  unfold spawned, child_env.
  destruct (metadata (preConversion_result config w)) as [md|].
  2: { cbv beta iota delta [bind try_catch ret throw]. world_fields.
       by rewrite app_nil_r. }
  cbv beta iota delta [bind try_catch ret throw openSync_w spawn emit]. world_fields.
  destruct (writable w (tempOutputFile config)).
  2: { cbv beta iota. world_fields. by rewrite app_nil_r. }
  cbv beta iota. world_fields.
  match goal with
  | |- context [python w ?exe ?script ?childEnv] =>
      destruct (python w exe script childEnv) as [e|code out chunks]
  end; cbv beta iota.
  - match goal with
    | |- context [executePluginHook ?h ?c ?W] =>
        pose proof (spawn_free_hook h c W) as P10;
        destruct (executePluginHook h c W) as [[r10|e10] W10];
        specialize (P10 _ _ eq_refl)
    end.
    all: cbv beta iota; cbn [snd]; world_fields; rewrite P10; world_fields.
    all: rewrite !select_app, Hpre; simpl; by rewrite app_nil_r.
  - match goal with
    | |- context [log_perf_chunks config ?c ?W] =>
        pose proof (preserves_log_perf_chunks _ unobtrusive_spawn config c W) as P10;
        destruct (log_perf_chunks_run config c W) as [t10 E10];
        rewrite E10 in P10 |- *; cbv beta in P10;
        cbn [snd trace with_trace with_files] in P10
    end.
    match goal with
    | |- context [logPerf config ?m ?W] =>
        destruct (logPerf_run config m W) as [t11 E11];
        pose proof (spawn_free_logPerf _ _ _ E11) as P11;
        rewrite E11; cbn [trace with_trace] in P11
    end.
    assert (Hspawned : select is_spawn t11
                       = select is_spawn (trace w)
                         ++ [ESpawn (fst (best_interpreter config w)) (pythonScript config)
                               match meta_env md with
                               | Some e => e ∪ host_env config w
                               | None => host_env config w
                               end]).
    { rewrite P11, P10, !select_app, Hpre. simpl. by rewrite app_nil_r. }
    clear P10 P11 E10 E11.
    destruct (code =? 0); cbn [negb]; cbv beta iota.
    + match goal with
      | |- context [(if ?b then _ else _) ?W] =>
          destruct b; cbv beta iota
      end.
      all: match goal with
           | |- context [postConversion config ?e ?wn ?v ?W] =>
               pose proof (preserves_postConversion _ unobtrusive_spawn config e wn v W)
                 as P13;
               cbv beta in P13;
               destruct (postConversion config e wn v W) as [[r13|e13] W13]
           end.
      all: cbv beta iota; cbn [snd] in *; world_fields; rewrite P13; world_fields.
      all: rewrite ?select_app, Hspawned; simpl; by rewrite ?app_nil_r.
    + match goal with
      | |- context [executePluginHook ?h ?c ?W] =>
          pose proof (spawn_free_hook h c W) as P12;
          destruct (executePluginHook h c W) as [[r12|e12] W12];
          specialize (P12 _ _ eq_refl)
      end.
      all: cbv beta iota; cbn [snd]; world_fields; rewrite P12; by world_fields.
Qed.

End GenerationTrace.

(* ===================================================================== *)
(** ** How [generateTypes] ends                                           *)
(* ===================================================================== *)

(** X23.  When the generator exits with a code other than 0,
    [generateTypes] rejects with [Python process exited with code N],
    a line feed and everything the generator wrote on its standard
    error, whatever the ON_ERROR handlers of the plugins do. *)
Theorem generator_exit_code_reported
    (config : Config) (w : World) (childEnv : gmap string string)
    (code : Z) (out : string) (chunks : list string) :
  child_env config w = Some childEnv ->
  writable w (tempOutputFile config) = true ->
  python w (fst (best_interpreter config w)) (pythonScript config) childEnv
  = Exited code out chunks ->
  code <> 0 ->
  fst (generateTypes config w)
  = Thrown (("Python process exited with code " +:+ pretty code)
            +:+ String "010"%char (String.concat "" chunks)).
Proof.
  intros Henv Hw Hpy Hcode.
  rewrite generateTypes_outcome. unfold generation_outcome.
  rewrite Henv, Hw, Hpy.
  by destruct (Z.eqb_spec code 0).
Qed.

Lemma generator_exit_code_reported_witness :
  fst (generateTypes Examples.cfg Failures.failing_generator)
  = Thrown (("Python process exited with code " +:+ pretty 2)
            +:+ String "010"%char (String.concat "" ["Traceback"])).
Proof.
  apply (generator_exit_code_reported Examples.cfg Failures.failing_generator
           (host_env Examples.cfg Failures.failing_generator) 2 "partial").
  - vm_compute. reflexivity.
  - reflexivity.
  - reflexivity.
  - discriminate.
Defined.

(** X24.  When the temporary file cannot be opened for writing,
    [generateTypes] rejects with the error of [openSync] behind
    [Failed to execute plugin hook: ], and the generator is not
    started. *)
Theorem unopenable_temporary_file (config : Config) (w : World) :
  is_Some (metadata (preConversion_result config w)) ->
  writable w (tempOutputFile config) = false ->
  fst (generateTypes config w)
  = Thrown ("Failed to execute plugin hook: EACCES: permission denied, open '"
            +:+ tempOutputFile config +:+ "'")
  /\ select is_spawn (trace (snd (generateTypes config w))) = select is_spawn (trace w).
Proof.
  intros [md Hmd] Hw. split.
  - rewrite generateTypes_outcome. unfold generation_outcome, child_env.
    by rewrite Hmd, Hw.
  - rewrite generateTypes_spawns. unfold spawned, child_env.
    by rewrite Hmd, Hw, app_nil_r.
Qed.

Lemma unopenable_temporary_file_witness :
  fst (generateTypes Examples.cfg Failures.no_temporary_file)
  = Thrown ("Failed to execute plugin hook: EACCES: permission denied, open '"
            +:+ "/tmp/featuretools-types-1.ts" +:+ "'")
  /\ select is_spawn (trace (snd (generateTypes Examples.cfg Failures.no_temporary_file)))
     = select is_spawn (trace Failures.no_temporary_file).
Proof.
  apply (unopenable_temporary_file Examples.cfg Failures.no_temporary_file).
  - vm_compute. eexists. reflexivity.
  - reflexivity.
Defined.



(** X26.  When the PRE_CONVERSION hook comes back with a context that
    has no [metadata], [generateTypes] rejects with a message that
    starts with [Failed to execute plugin hook: ], and the generator is
    not started. *)
Theorem context_without_metadata (config : Config) (w : World) :
  metadata (preConversion_result config w) = None ->
  (exists e, fst (generateTypes config w)
             = Thrown ("Failed to execute plugin hook: " +:+ e))
  /\ select is_spawn (trace (snd (generateTypes config w))) = select is_spawn (trace w).
Proof.
  intros Hmd. split.
  - rewrite generateTypes_outcome. unfold generation_outcome, child_env.
    rewrite Hmd. by eexists.
  - rewrite generateTypes_spawns. unfold spawned, child_env.
    by rewrite Hmd, app_nil_r.
Qed.

Lemma context_without_metadata_witness :
  (exists e, fst (generateTypes Examples.cfg (Failures.with_plugin "bare" Failures.bare_plugin))
             = Thrown ("Failed to execute plugin hook: " +:+ e))
  /\ select is_spawn
       (trace (snd (generateTypes Examples.cfg
                      (Failures.with_plugin "bare" Failures.bare_plugin))))
     = select is_spawn (trace (Failures.with_plugin "bare" Failures.bare_plugin)).
Proof.
  apply (context_without_metadata Examples.cfg
           (Failures.with_plugin "bare" Failures.bare_plugin)).
  vm_compute. reflexivity.
Defined.
